(** * pydoll: the HAR network recorder and the element routing core

    A shallow embedding of
    - [pydoll/browser/requests/har_recorder.py] (classes [HarRecorder] and
      [HarCapture]), with what [start] and [stop] ask of the tab
      ([pydoll/browser/tab.py]), and
    - [pydoll/elements/mixins/find_elements_mixin.py] (the search and the
      wait for a selector, the iframe walk, the commands of the searches
      and the command routing of [FindElementsMixin]),
    followed by the properties proved about them. *)

From Stdlib Require Import ZArith List String Ascii Bool Lia.
From Stdlib Require Import Sorted Permutation DecimalString.
Import ListNotations.

Local Open Scope string_scope.
Local Open Scope list_scope.
Local Open Scope Z_scope.

Set Implicit Arguments.

(* ================================================================= *)
(** * Python values *)

(** ** Numbers

    CDP timings and timestamps are JSON numbers: Python reads them as [int]
    or [float] and the recorder only adds, subtracts, multiplies, compares
    and rounds them.  The development is generic in the number type; the
    equality of [num] stands for Python's [==] on numbers. *)

Class PyNumber (num : Type) : Type := {
  num_of_Z : Z -> num;                 (* an integer literal *)
  num_add : num -> num -> num;         (* a + b *)
  num_sub : num -> num -> num;         (* a - b *)
  num_mul : num -> num -> num;         (* a * b *)
  num_lt : num -> num -> bool;         (* a < b *)
  num_le : num -> num -> bool;         (* a <= b *)
  num_eq : num -> num -> bool;         (* a == b *)
  num_round : num -> Z -> num;         (* round(a, ndigits) *)
  num_str : num -> string              (* str(a) *)
}.

(** What the proofs use of Python arithmetic: a number that is neither
    below nor above zero adds nothing, and the all-default timing phases
    compute to zero. *)
Class PyNumberLaws (num : Type) `{PyNumber num} : Prop := {
  num_lt_le_0 : forall v, num_lt (num_of_Z 0) v = true -> num_le (num_of_Z 0) v = true;
  num_add_zero : forall a v,
    num_le (num_of_Z 0) v = true -> num_lt (num_of_Z 0) v = false -> num_add a v = a;
  num_sub_0_0 : num_sub (num_of_Z 0) (num_of_Z 0) = num_of_Z 0;
  num_lt_0_0 : num_lt (num_of_Z 0) (num_of_Z 0) = false;
  num_round_0 : forall n, num_round (num_of_Z 0) n = num_of_Z 0
}.

Arguments PyNumberLaws num {_}.

Section PyNumberOps.
Context {num : Type} `{PyNumber num}.

(** [max(a, b)]: the first of the largest arguments. *)
Definition num_max (a b : num) : num := if num_lt a b then b else a.

(** Truth value of a number: [bool(a)] is [a != 0]. *)
Definition num_truthy (a : num) : bool := negb (num_eq a (num_of_Z 0)).

(** [sum(l)]: left to right from the integer 0. *)
Definition num_sum (l : list num) : num := fold_left num_add l (num_of_Z 0).
End PyNumberOps.

(** Python's [int] is one instance: arithmetic is exact and [round] with a
    non-negative number of digits returns the integer itself. *)
#[export] Instance Z_PyNumber : PyNumber Z := {|
  num_of_Z := fun z => z;
  num_add := Z.add;
  num_sub := Z.sub;
  num_mul := Z.mul;
  num_lt := Z.ltb;
  num_le := Z.leb;
  num_eq := Z.eqb;
  num_round := fun z _ => z;
  num_str := fun z => NilZero.string_of_int (Z.to_int z)
|}.

(** ** Strings

    A [str] is held as its UTF-8 encoding, which a Rocq [string] (a list of
    bytes) is.  Comparison of two [str] by code points is then the byte-wise
    order [String.leb]. *)

(** [bool(s)] *)
Definition str_truthy (s : string) : bool :=
  match s with EmptyString => false | String _ _ => true end.

(** [len(s.encode('utf-8'))] *)
Definition utf8_len (s : string) : Z := Z.of_nat (String.length s).

(** [len(s)]: the code points, that is the bytes that are not UTF-8
    continuation bytes [10xxxxxx]. *)
Fixpoint str_len (s : string) : Z :=
  match s with
  | EmptyString => 0
  | String c r =>
      (if Z.land (Z.of_N (N_of_ascii c)) 192 =? 128 then 0 else 1) + str_len r
  end.

(** ** Dictionaries

    A [dict] with [str] keys keeps its keys unique and in insertion order:
    it is an association list, read by its first binding of a key. *)

Section Dict.
Variable V : Type.

Definition dict : Type := list (string * V).

Definition dict_keys (d : dict) : list string := map fst d.

(** [d.get(k)] *)
Fixpoint dict_get (k : string) (d : dict) : option V :=
  match d with
  | [] => None
  | (k', v) :: r => if String.eqb k k' then Some v else dict_get k r
  end.

(** [d[k] = v]: in place when the key is there, at the end otherwise. *)
Fixpoint dict_set (k : string) (v : V) (d : dict) : dict :=
  match d with
  | [] => [(k, v)]
  | (k', v') :: r =>
      if String.eqb k k' then (k', v) :: r else (k', v') :: dict_set k v r
  end.

(** The dictionary left by [d.pop(k, default)]. *)
Definition dict_del (k : string) (d : dict) : dict :=
  filter (fun kv => negb (String.eqb k (fst kv))) d.

(** [k in d] *)
Definition dict_mem (k : string) (d : dict) : bool :=
  match dict_get k d with Some _ => true | None => false end.

(** [bool(d)] *)
Definition dict_truthy (d : dict) : bool :=
  match d with [] => false | _ :: _ => true end.
End Dict.

Arguments dict_get {V} k d.
Arguments dict_set {V} k v d.
Arguments dict_del {V} k d.
Arguments dict_mem {V} k d.
Arguments dict_keys {V} d.
Arguments dict_truthy {V} d.

(** [d.get(k, default)] *)
Definition get_or {A : Type} (o : option A) (default : A) : A :=
  match o with Some a => a | None => default end.

(** CDP header dictionaries. *)
Definition Headers : Type := dict string.

(** ** Exceptions *)

Inductive Exn : Type :=
| ValueError          (* unpacking [name, value = ...] of a list of one *)
| KeyError            (* [d.pop(k)] of a key that is not there *)
| ElementNotFound
| WaitElementTimeout.

Inductive Result (A : Type) : Type :=
| Ok (a : A)
| Raise (e : Exn).

Arguments Ok {A} a.
Arguments Raise {A} e.

Definition bind {A B : Type} (r : Result A) (k : A -> Result B) : Result B :=
  match r with Ok a => k a | Raise e => Raise e end.

Notation "x <- r ;; k" := (bind r (fun x => k))
  (at level 61, r at next level, right associativity).

(** ** Text routines

    [split] on an ASCII separator, [in] and [startswith] are byte-wise on
    UTF-8 text.  [strip], [lower], [upper], the clock, [base64] and
    [urllib.parse] belong to Python's library: they are the fields of
    [PyRuntime]. *)

(** [c in s] for a one-character [c] *)
Fixpoint str_contains (c : ascii) (s : string) : bool :=
  match s with
  | EmptyString => false
  | String a r => if Ascii.eqb a c then true else str_contains c r
  end.

(** [s.split(c, 1)]: the text before the first [c], and the text after it
    when there is one. *)
Fixpoint split1 (c : ascii) (s : string) : string * option string :=
  match s with
  | EmptyString => (EmptyString, None)
  | String a r =>
      if Ascii.eqb a c then (EmptyString, Some r)
      else let (h, t) := split1 c r in (String a h, t)
  end.

(** [s.split(c)] *)
Fixpoint split (c : ascii) (s : string) : list string :=
  match s with
  | EmptyString => [EmptyString]
  | String a r =>
      if Ascii.eqb a c then EmptyString :: split c r
      else match split c r with
           | [] => [String a EmptyString]
           | h :: t => String a h :: t
           end
  end.

Class PyRuntime (num : Type) : Type := {
  (* datetime.fromtimestamp(t, tz=timezone.utc).isoformat() *)
  isoformat_utc : num -> string;
  (* base64.b64decode(s); None when it raises *)
  b64decode : string -> option string;
  str_strip : string -> string;
  str_lower : string -> string;
  str_upper : string -> string;
  (* urlparse(url).query *)
  urlparse_query : string -> string;
  (* parse_qs(q, keep_blank_values=True) *)
  parse_qs : string -> dict (list string)
}.

(* ================================================================= *)
(** * The data model *)

(** ** CDP events ([pydoll.protocol.network.events])

    A key the handlers index ([params['k']]) is a field; a key they read
    with [.get] is an optional field.  For [timing], [postData] and
    [redirectResponse] the code never tells a missing key from [None] or an
    empty dictionary, and [None] stands for the three. *)

Module ResourceTiming.
Record t (num : Type) : Type := mk {
  dnsStart : option num;
  dnsEnd : option num;
  connectStart : option num;
  connectEnd : option num;
  sslStart : option num;
  sslEnd : option num;
  sendStart : option num;
  sendEnd : option num;
  receiveHeadersStart : option num
}.
End ResourceTiming.

Module Request.
Record t : Type := mk {
  url : option string;
  method : option string;
  headers : option Headers;
  postData : option string
}.
End Request.

(** The [response] of [responseReceived]. *)
Module Response.
Record t (num : Type) : Type := mk {
  status : Z;
  statusText : string;
  headers : option Headers;
  mimeType : string;
  protocol : option string;
  timing : option (ResourceTiming.t num);
  remoteIPAddress : option string;
  connectionId : option num;
  encodedDataLength : option num
}.
End Response.

(** The [redirectResponse] of [requestWillBeSent], read with [.get] only. *)
Module RedirectResponse.
Record t (num : Type) : Type := mk {
  status : option Z;
  statusText : option string;
  headers : option Headers;
  mimeType : option string;
  protocol : option string;
  timing : option (ResourceTiming.t num)
}.
End RedirectResponse.

Module RequestWillBeSentEvent.
Record t (num : Type) : Type := mk {
  requestId : string;
  request : Request.t;
  type : option string;
  redirectResponse : option (RedirectResponse.t num);
  wallTime : num;
  timestamp : num
}.
End RequestWillBeSentEvent.

Module RequestWillBeSentExtraInfoEvent.
Record t : Type := mk {
  requestId : string;
  headers : option Headers
}.
End RequestWillBeSentExtraInfoEvent.

Module ResponseReceivedEvent.
Record t (num : Type) : Type := mk {
  requestId : string;
  response : Response.t num;
  timestamp : num
}.
End ResponseReceivedEvent.

Module ResponseReceivedExtraInfoEvent.
Record t : Type := mk {
  requestId : string;
  headers : option Headers;
  statusCode : option Z
}.
End ResponseReceivedExtraInfoEvent.

Module DataReceivedEvent.
Record t : Type := mk {
  requestId : string;
  encodedDataLength : Z
}.
End DataReceivedEvent.

Module LoadingFinishedEvent.
Record t (num : Type) : Type := mk {
  requestId : string;
  encodedDataLength : num;
  timestamp : num
}.
End LoadingFinishedEvent.

Module LoadingFailedEvent.
Record t : Type := mk {
  requestId : string;
  errorText : string;
  canceled : option bool
}.
End LoadingFailedEvent.

(** ** The pending entry

    The scratch dictionary [self._pending[request_id]]: one optional field
    per key that a handler writes. *)

Module Pending.
Record t (num : Type) : Type := mk {
  (* _on_request_will_be_sent *)
  url : option string;
  method : option string;
  request_headers : option Headers;
  post_data : option string;
  wall_time : option num;
  resource_type : option string;
  timestamp : option num;
  (* _on_request_extra_info *)
  request_headers_extra : option Headers;
  (* _on_response_received, _finalize_redirect_entry *)
  status : option Z;
  status_text : option string;
  response_headers : option Headers;
  mime_type : option string;
  protocol : option string;
  timing : option (ResourceTiming.t num);
  remote_ip : option string;
  connection_id : option string;
  encoded_data_length : option num;
  response_timestamp : option num;
  (* _on_response_extra_info *)
  response_headers_extra : option Headers;
  extra_status_code : option Z;
  (* _on_loading_finished *)
  transfer_size : option num;
  finished_timestamp : option num;
  body_bytes : option Z;
  (* _on_loading_failed *)
  error_text : option string;
  canceled : option bool;
  (* _finalize_entry *)
  response_body : option string;
  response_body_base64 : option bool
}.
End Pending.

(** ** HAR 1.2 ([pydoll.protocol.network.har_types]) *)

Module HarTimings.
Record t (num : Type) : Type := mk {
  blocked : num;
  dns : num;
  connect : num;
  ssl : num;
  send : num;
  wait : num;
  receive : num
}.
End HarTimings.

Module HarCookie.
Record t : Type := mk {
  name : string;
  value : string;
  path : option string;
  domain : option string;
  httpOnly : option bool;
  secure : option bool
}.
End HarCookie.

Module HarHeader.
Record t : Type := mk { name : string; value : string }.
End HarHeader.

Module HarQueryParam.
Record t : Type := mk { name : string; value : string }.
End HarQueryParam.

Module HarPostData.
Record t : Type := mk { mimeType : string; text : string }.
End HarPostData.

Module HarRequest.
Record t : Type := mk {
  method : string;
  url : string;
  httpVersion : string;
  cookies : list HarCookie.t;
  headers : list HarHeader.t;
  queryString : list HarQueryParam.t;
  headersSize : Z;
  bodySize : Z;
  postData : option HarPostData.t
}.
End HarRequest.

Module HarContent.
Record t : Type := mk {
  size : Z;
  mimeType : string;
  text : option string;
  encoding : option string
}.
End HarContent.

Module HarResponse.
Record t : Type := mk {
  status : Z;
  statusText : string;
  httpVersion : string;
  cookies : list HarCookie.t;
  headers : list HarHeader.t;
  content : HarContent.t;
  redirectURL : string;
  headersSize : Z;
  bodySize : Z
}.
End HarResponse.

(** [cache] is always the empty dictionary and is not kept. *)
Module HarEntry.
Record t (num : Type) : Type := mk {
  startedDateTime : string;
  time : num;
  request : HarRequest.t;
  response : HarResponse.t;
  timings : HarTimings.t num;
  serverIPAddress : option string;
  connection : option string;
  _resourceType : option string
}.
End HarEntry.

(* ================================================================= *)
(** * [HarRecorder]: building an entry *)

Definition _HTTP_NOT_MODIFIED : Z := 304.

Section BuildEntry.
Context {num : Type} `{PyNumber num} `{PyRuntime num}.

(** [_phase], the local function of [_build_har_timings]. *)
Definition _phase (s e : num) : num :=
  if num_le (num_of_Z 0) s && num_le (num_of_Z 0) e
  then num_round (num_max (num_sub e s) (num_of_Z 0)) 3
  else num_of_Z (-1).

Definition _build_har_timings
    (timing : option (ResourceTiming.t num)) (receive_ms : option num)
    : HarTimings.t num :=
  let rcv := match receive_ms with
             | Some r => num_round r 3
             | None => num_of_Z 0
             end in
  match timing with
  | None =>
      HarTimings.mk (num_of_Z (-1)) (num_of_Z (-1)) (num_of_Z (-1))
        (num_of_Z (-1)) (num_of_Z 0) (num_of_Z 0) rcv
  | Some timing =>
      let dns_s := get_or (ResourceTiming.dnsStart timing) (num_of_Z (-1)) in
      let dns_e := get_or (ResourceTiming.dnsEnd timing) (num_of_Z (-1)) in
      let con_s := get_or (ResourceTiming.connectStart timing) (num_of_Z (-1)) in
      let con_e := get_or (ResourceTiming.connectEnd timing) (num_of_Z (-1)) in
      let ssl_s := get_or (ResourceTiming.sslStart timing) (num_of_Z (-1)) in
      let ssl_e := get_or (ResourceTiming.sslEnd timing) (num_of_Z (-1)) in
      let snd_s := get_or (ResourceTiming.sendStart timing) (num_of_Z 0) in
      let snd_e := get_or (ResourceTiming.sendEnd timing) (num_of_Z 0) in
      let rh_s := get_or (ResourceTiming.receiveHeadersStart timing) (num_of_Z 0) in
      let first :=
        if num_le (num_of_Z 0) dns_s then dns_s
        else if num_le (num_of_Z 0) con_s then con_s else snd_s in
      {| HarTimings.blocked := num_round (num_max first (num_of_Z 0)) 3;
         HarTimings.dns := _phase dns_s dns_e;
         HarTimings.connect := _phase con_s con_e;
         HarTimings.ssl := _phase ssl_s ssl_e;
         HarTimings.send := num_round (num_max (num_sub snd_e snd_s) (num_of_Z 0)) 3;
         HarTimings.wait := num_round (num_max (num_sub rh_s snd_e) (num_of_Z 0)) 3;
         HarTimings.receive := rcv |}
  end.

Definition _normalize_http_version (protocol : string) : string :=
  if negb (str_truthy protocol) then ""
  else
    let lower := str_lower protocol in
    if String.eqb lower "h2" || String.eqb lower "h3" || String.eqb lower "h2c"
    then lower
    else if String.prefix "http/" lower then str_upper protocol
    else "".

Definition _headers_dict_to_list (headers : Headers) : list HarHeader.t :=
  map (fun nv => HarHeader.mk (fst nv) (snd nv)) headers.

Definition _parse_query_string (url : string) : list HarQueryParam.t :=
  let query := urlparse_query url in
  if negb (str_truthy query) then []
  else
    flat_map (fun nvs => map (fun value => HarQueryParam.mk (fst nvs) value) (snd nvs))
             (parse_qs query).

(** [datetime.now(tz=timezone.utc).isoformat()] is the argument [now]:
    what the clock reads at the call. *)
Definition _wall_time_to_iso (now : string) (wall_time : num) : string :=
  if negb (num_truthy wall_time) then now else isoformat_utc wall_time.

(** [headers.get(k1, headers.get(k2, ''))] *)
Definition header_get2 (headers : Headers) (k1 k2 : string) : string :=
  get_or (dict_get k1 headers) (get_or (dict_get k2 headers) "").

Definition _parse_request_cookies (headers : Headers) : list HarCookie.t :=
  let cookie_header := header_get2 headers "Cookie" "cookie" in
  if negb (str_truthy cookie_header) then []
  else
    flat_map
      (fun raw_pair =>
         let stripped := str_strip raw_pair in
         (* the text holds a "=" exactly when the split has a second part *)
         match split1 "=" stripped with
         | (_, None) => []
         | (name, Some value) =>
             let name := str_strip name in
             if str_truthy name
             then [HarCookie.mk name (str_strip value) None None None None]
             else []
         end)
      (split ";" cookie_header).

(** One turn of the loop over the attributes of a [Set-Cookie] line. *)
Definition set_cookie_attr (cookie : HarCookie.t) (raw_attr : string) : HarCookie.t :=
  let attr_lower := str_lower (str_strip raw_attr) in
  let after_eq := get_or (snd (split1 "=" attr_lower)) "" in
  if String.eqb attr_lower "httponly" then
    HarCookie.mk (HarCookie.name cookie) (HarCookie.value cookie)
      (HarCookie.path cookie) (HarCookie.domain cookie)
      (Some true) (HarCookie.secure cookie)
  else if String.eqb attr_lower "secure" then
    HarCookie.mk (HarCookie.name cookie) (HarCookie.value cookie)
      (HarCookie.path cookie) (HarCookie.domain cookie)
      (HarCookie.httpOnly cookie) (Some true)
  else if String.prefix "path=" attr_lower then
    HarCookie.mk (HarCookie.name cookie) (HarCookie.value cookie)
      (Some after_eq) (HarCookie.domain cookie)
      (HarCookie.httpOnly cookie) (HarCookie.secure cookie)
  else if String.prefix "domain=" attr_lower then
    HarCookie.mk (HarCookie.name cookie) (HarCookie.value cookie)
      (HarCookie.path cookie) (Some after_eq)
      (HarCookie.httpOnly cookie) (HarCookie.secure cookie)
  else cookie.

(** The loop of [_parse_response_cookies] over the lines left to read.
    [name, value = name_value.split('=', 1)] raises [ValueError] when the
    part before the first ";" holds no "=". *)
Fixpoint parse_set_cookie_lines (lines : list string) (cookies : list HarCookie.t)
    : Result (list HarCookie.t) :=
  match lines with
  | [] => Ok cookies
  | raw_line :: rest =>
      let stripped_line := str_strip raw_line in
      if negb (str_contains "=" stripped_line) then parse_set_cookie_lines rest cookies
      else
        let name_value := fst (split1 ";" stripped_line) in
        match split1 "=" name_value with
        | (_, None) => Raise ValueError
        | (name, Some value) =>
            let name := str_strip name in
            if negb (str_truthy name) then parse_set_cookie_lines rest cookies
            else
              let cookie := HarCookie.mk name (str_strip value) None None None None in
              let attrs := tl (split ";" stripped_line) in
              parse_set_cookie_lines rest
                (cookies ++ [fold_left set_cookie_attr attrs cookie])
        end
  end.

Definition _parse_response_cookies (headers : Headers) : Result (list HarCookie.t) :=
  let set_cookie := header_get2 headers "Set-Cookie" "set-cookie" in
  if negb (str_truthy set_cookie) then Ok []
  else parse_set_cookie_lines (split "010" set_cookie) [].

Definition _build_har_request
    (url : string) (pending : Pending.t num) (headers : Headers)
    (protocol : string) (post_data_text : option string) : HarRequest.t :=
  let req_cookies := _parse_request_cookies headers in
  {| HarRequest.method := get_or (Pending.method pending) "GET";
     HarRequest.url := url;
     HarRequest.httpVersion := protocol;
     HarRequest.cookies := req_cookies;
     HarRequest.headers := _headers_dict_to_list headers;
     HarRequest.queryString := _parse_query_string url;
     HarRequest.headersSize := -1;
     HarRequest.bodySize :=
       match post_data_text with
       | Some text => if str_truthy text then utf8_len text else 0
       | None => 0
       end;
     HarRequest.postData :=
       match post_data_text with
       | Some text =>
           if str_truthy text
           then Some (HarPostData.mk (header_get2 headers "Content-Type" "content-type") text)
           else None
       | None => None
       end |}.

(** [content_size] of [_build_har_response]. *)
Definition content_size_of (body : string) (is_base64 : bool) : Z :=
  if str_truthy body && is_base64 then
    match b64decode body with
    | Some bytes => Z.of_nat (String.length bytes)
    | None => str_len body
    end
  else if str_truthy body then utf8_len body
  else 0.

(** [status] of [_build_har_response]. *)
Definition status_of (pending : Pending.t num) : Z :=
  get_or (Pending.extra_status_code pending) (get_or (Pending.status pending) 0).

Definition _build_har_response
    (pending : Pending.t num) (headers : Headers) (protocol : string)
    : Result HarResponse.t :=
  let body := get_or (Pending.response_body pending) "" in
  let is_base64 := get_or (Pending.response_body_base64 pending) false in
  let status := status_of pending in
  let content_size := content_size_of body is_base64 in
  let har_content :=
    {| HarContent.size := content_size;
       HarContent.mimeType := get_or (Pending.mime_type pending) "";
       HarContent.text := if str_truthy body then Some body else None;
       HarContent.encoding :=
         if str_truthy body && is_base64 then Some "base64" else None |} in
  let body_bytes := get_or (Pending.body_bytes pending) (-1) in
  let body_size :=
    if status =? _HTTP_NOT_MODIFIED then 0
    else if 0 <? body_bytes then body_bytes
    else if 0 <? content_size then content_size
    else -1 in
  let redirect := header_get2 headers "Location" "location" in
  resp_cookies <- _parse_response_cookies headers ;;
  Ok {| HarResponse.status := status;
        HarResponse.statusText := get_or (Pending.status_text pending) "";
        HarResponse.httpVersion := protocol;
        HarResponse.cookies := resp_cookies;
        HarResponse.headers := _headers_dict_to_list headers;
        HarResponse.content := har_content;
        HarResponse.redirectURL := redirect;
        HarResponse.headersSize := -1;
        HarResponse.bodySize := body_size |}.

(** [a or b] on two header dictionaries of the pending entry. *)
Definition headers_or (extra base : option Headers) : Headers :=
  match extra with
  | Some h => if dict_truthy h then h else get_or base []
  | None => get_or base []
  end.

(** [receive_ms] of [_build_entry]. *)
Definition receive_ms_of (pending : Pending.t num) : option num :=
  let response_ts := get_or (Pending.response_timestamp pending) (num_of_Z 0) in
  let finished_ts := get_or (Pending.finished_timestamp pending) (num_of_Z 0) in
  if num_truthy response_ts && num_truthy finished_ts && num_lt response_ts finished_ts
  then Some (num_mul (num_sub finished_ts response_ts) (num_of_Z 1000))
  else None.

(** [total_time] of [_build_entry]: ssl is left out of the phases. *)
Definition total_time_of (har_timings : HarTimings.t num) : num :=
  let _phases :=
    [ HarTimings.blocked har_timings; HarTimings.dns har_timings;
      HarTimings.connect har_timings; HarTimings.send har_timings;
      HarTimings.wait har_timings; HarTimings.receive har_timings ] in
  num_sum (filter (fun v => num_lt (num_of_Z 0) v) _phases).

(** [entry[field] = pending[key]] when [pending.get(key, '')] is true. *)
Definition optional_field (v : option string) : option string :=
  match v with
  | Some s => if str_truthy s then Some s else None
  | None => None
  end.

Definition _build_entry (now : string) (pending : Pending.t num)
    : Result (HarEntry.t num) :=
  let req_hdrs :=
    headers_or (Pending.request_headers_extra pending) (Pending.request_headers pending) in
  let resp_hdrs :=
    headers_or (Pending.response_headers_extra pending) (Pending.response_headers pending) in
  let url := get_or (Pending.url pending) "" in
  let protocol := _normalize_http_version (get_or (Pending.protocol pending) "") in
  let post_data_text := Pending.post_data pending in
  let har_request := _build_har_request url pending req_hdrs protocol post_data_text in
  har_response <- _build_har_response pending resp_hdrs protocol ;;
  let receive_ms := receive_ms_of pending in
  let har_timings := _build_har_timings (Pending.timing pending) receive_ms in
  let total_time := total_time_of har_timings in
  Ok {| HarEntry.startedDateTime :=
          _wall_time_to_iso now (get_or (Pending.wall_time pending) (num_of_Z 0));
        HarEntry.time := num_round total_time 2;
        HarEntry.request := har_request;
        HarEntry.response := har_response;
        HarEntry.timings := har_timings;
        HarEntry.serverIPAddress := optional_field (Pending.remote_ip pending);
        HarEntry.connection := optional_field (Pending.connection_id pending);
        HarEntry._resourceType := optional_field (Pending.resource_type pending) |}.
End BuildEntry.

(* ================================================================= *)
(** * [HarRecorder]: the state and the event handlers *)

(** A handler leaves the recorder in a state and either returns or lets an
    exception of [_build_entry] through; what it had written before the
    exception stays written. *)
Inductive Outcome (S : Type) : Type :=
| Returned (s : S)
| Raised (e : Exn) (s : S).

Arguments Returned {S} s.
Arguments Raised {S} e s.

Definition state_of {S : Type} (o : Outcome S) : S :=
  match o with Returned s => s | Raised _ s => s end.

(** A task made by [asyncio.create_task(self._finalize_entry(request_id))]:
    not started yet, or suspended in [_fetch_response_body] with the pending
    entry it has popped. *)
Inductive BodyTask (num : Type) : Type :=
| Scheduled (request_id : string)
| Fetching (request_id : string) (pending : Pending.t num).

Arguments Scheduled {num} request_id.
Arguments Fetching {num} request_id pending.

(** The fields of [HarRecorder] that the handlers and [stop] read or write
    ([_tab] and [_start_time] are not among them). *)
Module HarRecorder.
Record t (num : Type) : Type := mk {
  _resource_types : option (list string);
  _callback_ids : list Z;
  _pending : dict (Pending.t num);
  _entries : list (HarEntry.t num);
  _network_was_enabled : bool;
  _body_tasks : list (BodyTask num);
  _data_received_sizes : dict Z
}.
End HarRecorder.

Section Recorder.
Context {num : Type} `{PyNumber num} `{PyRuntime num}.

Local Abbreviation Rec := (HarRecorder.t num).

Definition set_pending (d : dict (Pending.t num)) (s : Rec) : Rec :=
  HarRecorder.mk (HarRecorder._resource_types s) (HarRecorder._callback_ids s) d
    (HarRecorder._entries s) (HarRecorder._network_was_enabled s)
    (HarRecorder._body_tasks s) (HarRecorder._data_received_sizes s).

Definition set_entries (l : list (HarEntry.t num)) (s : Rec) : Rec :=
  HarRecorder.mk (HarRecorder._resource_types s) (HarRecorder._callback_ids s)
    (HarRecorder._pending s) l (HarRecorder._network_was_enabled s)
    (HarRecorder._body_tasks s) (HarRecorder._data_received_sizes s).

Definition set_body_tasks (l : list (BodyTask num)) (s : Rec) : Rec :=
  HarRecorder.mk (HarRecorder._resource_types s) (HarRecorder._callback_ids s)
    (HarRecorder._pending s) (HarRecorder._entries s)
    (HarRecorder._network_was_enabled s) l (HarRecorder._data_received_sizes s).

Definition set_data_received_sizes (d : dict Z) (s : Rec) : Rec :=
  HarRecorder.mk (HarRecorder._resource_types s) (HarRecorder._callback_ids s)
    (HarRecorder._pending s) (HarRecorder._entries s)
    (HarRecorder._network_was_enabled s) (HarRecorder._body_tasks s) d.

(** [HarRecorder(tab, resource_types)] *)
Definition __init__ (resource_types : option (list string)) : Rec :=
  {| HarRecorder._resource_types :=
       match resource_types with
       | Some (_ :: _) => resource_types
       | _ => None
       end;
     HarRecorder._callback_ids := [];
     HarRecorder._pending := [];
     HarRecorder._entries := [];
     HarRecorder._network_was_enabled := false;
     HarRecorder._body_tasks := [];
     HarRecorder._data_received_sizes := [] |}.

(** [self._resource_types and resource_type not in self._resource_types] *)
Definition filtered_out (s : Rec) (resource_type : string) : bool :=
  match HarRecorder._resource_types s with
  | Some l =>
      match l with
      | [] => false
      | _ :: _ => negb (existsb (String.eqb resource_type) l)
      end
  | None => false
  end.

(** [self._entries.append(self._build_entry(pending))] *)
Definition build_and_append (now : string) (pending : Pending.t num) (s : Rec)
    : Outcome Rec :=
  match _build_entry now pending with
  | Ok entry => Returned (set_entries (HarRecorder._entries s ++ [entry]) s)
  | Raise e => Raised e s
  end.

(** The dictionary that [_on_request_will_be_sent] stores. *)
Definition new_pending (event : RequestWillBeSentEvent.t num) : Pending.t num :=
  let request_data := RequestWillBeSentEvent.request event in
  {| Pending.url := Some (get_or (Request.url request_data) "");
     Pending.method := Some (get_or (Request.method request_data) "GET");
     Pending.request_headers := Some (get_or (Request.headers request_data) []);
     Pending.post_data := Request.postData request_data;
     Pending.wall_time := Some (RequestWillBeSentEvent.wallTime event);
     Pending.resource_type := Some (get_or (RequestWillBeSentEvent.type event) "");
     Pending.timestamp := Some (RequestWillBeSentEvent.timestamp event);
     Pending.request_headers_extra := None;
     Pending.status := None;
     Pending.status_text := None;
     Pending.response_headers := None;
     Pending.mime_type := None;
     Pending.protocol := None;
     Pending.timing := None;
     Pending.remote_ip := None;
     Pending.connection_id := None;
     Pending.encoded_data_length := None;
     Pending.response_timestamp := None;
     Pending.response_headers_extra := None;
     Pending.extra_status_code := None;
     Pending.transfer_size := None;
     Pending.finished_timestamp := None;
     Pending.body_bytes := None;
     Pending.error_text := None;
     Pending.canceled := None;
     Pending.response_body := None;
     Pending.response_body_base64 := None |}.

(** The writes of [_finalize_redirect_entry] to the popped entry. *)
Definition redirect_pending (body_bytes : Z) (redirect_response : RedirectResponse.t num)
    (pending : Pending.t num) : Pending.t num :=
  {| Pending.url := Pending.url pending;
     Pending.method := Pending.method pending;
     Pending.request_headers := Pending.request_headers pending;
     Pending.post_data := Pending.post_data pending;
     Pending.wall_time := Pending.wall_time pending;
     Pending.resource_type := Pending.resource_type pending;
     Pending.timestamp := Pending.timestamp pending;
     Pending.request_headers_extra := Pending.request_headers_extra pending;
     Pending.status := Some (get_or (RedirectResponse.status redirect_response) 302);
     Pending.status_text := Some (get_or (RedirectResponse.statusText redirect_response) "");
     Pending.response_headers := Some (get_or (RedirectResponse.headers redirect_response) []);
     Pending.mime_type := Some (get_or (RedirectResponse.mimeType redirect_response) "");
     Pending.protocol := Some (get_or (RedirectResponse.protocol redirect_response) "");
     Pending.timing := RedirectResponse.timing redirect_response;
     Pending.remote_ip := Pending.remote_ip pending;
     Pending.connection_id := Pending.connection_id pending;
     Pending.encoded_data_length := Pending.encoded_data_length pending;
     Pending.response_timestamp := Pending.response_timestamp pending;
     Pending.response_headers_extra := Pending.response_headers_extra pending;
     Pending.extra_status_code := Pending.extra_status_code pending;
     Pending.transfer_size := Pending.transfer_size pending;
     Pending.finished_timestamp := Pending.finished_timestamp pending;
     Pending.body_bytes := Some body_bytes;
     Pending.error_text := Pending.error_text pending;
     Pending.canceled := Pending.canceled pending;
     Pending.response_body := Pending.response_body pending;
     Pending.response_body_base64 := Pending.response_body_base64 pending |}.

Definition _finalize_redirect_entry (now : string) (request_id : string)
    (redirect_response : RedirectResponse.t num) (s : Rec) : Outcome Rec :=
  match dict_get request_id (HarRecorder._pending s) with
  | None => Returned (set_pending (dict_del request_id (HarRecorder._pending s)) s)
  | Some pending =>
      let s := set_pending (dict_del request_id (HarRecorder._pending s)) s in
      let body_bytes :=
        get_or (dict_get request_id (HarRecorder._data_received_sizes s)) (-1) in
      let s :=
        set_data_received_sizes
          (dict_del request_id (HarRecorder._data_received_sizes s)) s in
      build_and_append now (redirect_pending body_bytes redirect_response pending) s
  end.

Definition _on_request_will_be_sent (now : string)
    (event : RequestWillBeSentEvent.t num) (s : Rec) : Outcome Rec :=
  let request_id := RequestWillBeSentEvent.requestId event in
  let resource_type := get_or (RequestWillBeSentEvent.type event) "" in
  let redirect_response := RequestWillBeSentEvent.redirectResponse event in
  if filtered_out s resource_type then Returned s
  else
    let finalized :=
      match redirect_response with
      | Some redirect_response =>
          if dict_mem request_id (HarRecorder._pending s)
          then _finalize_redirect_entry now request_id redirect_response s
          else Returned s
      | None => Returned s
      end in
    match finalized with
    | Raised e s => Raised e s
    | Returned s =>
        Returned
          (set_pending (dict_set request_id (new_pending event) (HarRecorder._pending s)) s)
    end.

Definition _on_request_extra_info
    (event : RequestWillBeSentExtraInfoEvent.t) (s : Rec) : Outcome Rec :=
  let request_id := RequestWillBeSentExtraInfoEvent.requestId event in
  match dict_get request_id (HarRecorder._pending s) with
  | None => Returned s
  | Some pending =>
      let extra_headers := get_or (RequestWillBeSentExtraInfoEvent.headers event) [] in
      if dict_truthy extra_headers then
        let pending :=
        {| Pending.url := Pending.url pending;
           Pending.method := Pending.method pending;
           Pending.request_headers := Pending.request_headers pending;
           Pending.post_data := Pending.post_data pending;
           Pending.wall_time := Pending.wall_time pending;
           Pending.resource_type := Pending.resource_type pending;
           Pending.timestamp := Pending.timestamp pending;
           Pending.request_headers_extra := Some extra_headers;
           Pending.status := Pending.status pending;
           Pending.status_text := Pending.status_text pending;
           Pending.response_headers := Pending.response_headers pending;
           Pending.mime_type := Pending.mime_type pending;
           Pending.protocol := Pending.protocol pending;
           Pending.timing := Pending.timing pending;
           Pending.remote_ip := Pending.remote_ip pending;
           Pending.connection_id := Pending.connection_id pending;
           Pending.encoded_data_length := Pending.encoded_data_length pending;
           Pending.response_timestamp := Pending.response_timestamp pending;
           Pending.response_headers_extra := Pending.response_headers_extra pending;
           Pending.extra_status_code := Pending.extra_status_code pending;
           Pending.transfer_size := Pending.transfer_size pending;
           Pending.finished_timestamp := Pending.finished_timestamp pending;
           Pending.body_bytes := Pending.body_bytes pending;
           Pending.error_text := Pending.error_text pending;
           Pending.canceled := Pending.canceled pending;
           Pending.response_body := Pending.response_body pending;
           Pending.response_body_base64 := Pending.response_body_base64 pending |} in
        Returned (set_pending (dict_set request_id pending (HarRecorder._pending s)) s)
      else Returned s
  end.

Definition _on_response_received
    (event : ResponseReceivedEvent.t num) (s : Rec) : Outcome Rec :=
  let request_id := ResponseReceivedEvent.requestId event in
  match dict_get request_id (HarRecorder._pending s) with
  | None => Returned s
  | Some pending =>
      let response := ResponseReceivedEvent.response event in
      let pending :=
      {| Pending.url := Pending.url pending;
         Pending.method := Pending.method pending;
         Pending.request_headers := Pending.request_headers pending;
         Pending.post_data := Pending.post_data pending;
         Pending.wall_time := Pending.wall_time pending;
         Pending.resource_type := Pending.resource_type pending;
         Pending.timestamp := Pending.timestamp pending;
         Pending.request_headers_extra := Pending.request_headers_extra pending;
         Pending.status := Some (Response.status response);
         Pending.status_text := Some (Response.statusText response);
         Pending.response_headers := Some (get_or (Response.headers response) []);
         Pending.mime_type := Some (Response.mimeType response);
         Pending.protocol := Some (get_or (Response.protocol response) "");
         Pending.timing := Response.timing response;
         Pending.remote_ip := Some (get_or (Response.remoteIPAddress response) "");
         Pending.connection_id := Some (match Response.connectionId response with
                                         | Some c => num_str c
                                         | None => ""
                                         end);
         Pending.encoded_data_length := Some (get_or (Response.encodedDataLength response) (num_of_Z 0));
         Pending.response_timestamp := Some (ResponseReceivedEvent.timestamp event);
         Pending.response_headers_extra := Pending.response_headers_extra pending;
         Pending.extra_status_code := Pending.extra_status_code pending;
         Pending.transfer_size := Pending.transfer_size pending;
         Pending.finished_timestamp := Pending.finished_timestamp pending;
         Pending.body_bytes := Pending.body_bytes pending;
         Pending.error_text := Pending.error_text pending;
         Pending.canceled := Pending.canceled pending;
         Pending.response_body := Pending.response_body pending;
         Pending.response_body_base64 := Pending.response_body_base64 pending |} in
      Returned (set_pending (dict_set request_id pending (HarRecorder._pending s)) s)
  end.

Definition _on_response_extra_info
    (event : ResponseReceivedExtraInfoEvent.t) (s : Rec) : Outcome Rec :=
  let request_id := ResponseReceivedExtraInfoEvent.requestId event in
  match dict_get request_id (HarRecorder._pending s) with
  | None => Returned s
  | Some pending =>
      let extra_headers := get_or (ResponseReceivedExtraInfoEvent.headers event) [] in
      let status_code := ResponseReceivedExtraInfoEvent.statusCode event in
      let pending :=
      {| Pending.url := Pending.url pending;
         Pending.method := Pending.method pending;
         Pending.request_headers := Pending.request_headers pending;
         Pending.post_data := Pending.post_data pending;
         Pending.wall_time := Pending.wall_time pending;
         Pending.resource_type := Pending.resource_type pending;
         Pending.timestamp := Pending.timestamp pending;
         Pending.request_headers_extra := Pending.request_headers_extra pending;
         Pending.status := Pending.status pending;
         Pending.status_text := Pending.status_text pending;
         Pending.response_headers := Pending.response_headers pending;
         Pending.mime_type := Pending.mime_type pending;
         Pending.protocol := Pending.protocol pending;
         Pending.timing := Pending.timing pending;
         Pending.remote_ip := Pending.remote_ip pending;
         Pending.connection_id := Pending.connection_id pending;
         Pending.encoded_data_length := Pending.encoded_data_length pending;
         Pending.response_timestamp := Pending.response_timestamp pending;
         Pending.response_headers_extra := if dict_truthy extra_headers then Some extra_headers
           else Pending.response_headers_extra pending;
         Pending.extra_status_code := match status_code with
           | Some c => Some c
           | None => Pending.extra_status_code pending
           end;
         Pending.transfer_size := Pending.transfer_size pending;
         Pending.finished_timestamp := Pending.finished_timestamp pending;
         Pending.body_bytes := Pending.body_bytes pending;
         Pending.error_text := Pending.error_text pending;
         Pending.canceled := Pending.canceled pending;
         Pending.response_body := Pending.response_body pending;
         Pending.response_body_base64 := Pending.response_body_base64 pending |} in
      Returned (set_pending (dict_set request_id pending (HarRecorder._pending s)) s)
  end.

Definition _on_data_received (event : DataReceivedEvent.t) (s : Rec) : Outcome Rec :=
  let request_id := DataReceivedEvent.requestId event in
  let chunk_size := DataReceivedEvent.encodedDataLength event in
  Returned
    (set_data_received_sizes
       (dict_set request_id
          (get_or (dict_get request_id (HarRecorder._data_received_sizes s)) 0 + chunk_size)
          (HarRecorder._data_received_sizes s)) s).

Definition _on_loading_finished
    (event : LoadingFinishedEvent.t num) (s : Rec) : Outcome Rec :=
  let request_id := LoadingFinishedEvent.requestId event in
  match dict_get request_id (HarRecorder._pending s) with
  | None => Returned s
  | Some pending =>
      let body_bytes :=
        get_or (dict_get request_id (HarRecorder._data_received_sizes s)) (-1) in
      let pending :=
      {| Pending.url := Pending.url pending;
         Pending.method := Pending.method pending;
         Pending.request_headers := Pending.request_headers pending;
         Pending.post_data := Pending.post_data pending;
         Pending.wall_time := Pending.wall_time pending;
         Pending.resource_type := Pending.resource_type pending;
         Pending.timestamp := Pending.timestamp pending;
         Pending.request_headers_extra := Pending.request_headers_extra pending;
         Pending.status := Pending.status pending;
         Pending.status_text := Pending.status_text pending;
         Pending.response_headers := Pending.response_headers pending;
         Pending.mime_type := Pending.mime_type pending;
         Pending.protocol := Pending.protocol pending;
         Pending.timing := Pending.timing pending;
         Pending.remote_ip := Pending.remote_ip pending;
         Pending.connection_id := Pending.connection_id pending;
         Pending.encoded_data_length := Pending.encoded_data_length pending;
         Pending.response_timestamp := Pending.response_timestamp pending;
         Pending.response_headers_extra := Pending.response_headers_extra pending;
         Pending.extra_status_code := Pending.extra_status_code pending;
         Pending.transfer_size := Some (LoadingFinishedEvent.encodedDataLength event);
         Pending.finished_timestamp := Some (LoadingFinishedEvent.timestamp event);
         Pending.body_bytes := Some body_bytes;
         Pending.error_text := Pending.error_text pending;
         Pending.canceled := Pending.canceled pending;
         Pending.response_body := Pending.response_body pending;
         Pending.response_body_base64 := Pending.response_body_base64 pending |} in
      let s := set_pending (dict_set request_id pending (HarRecorder._pending s)) s in
      let s :=
        set_data_received_sizes
          (dict_del request_id (HarRecorder._data_received_sizes s)) s in
      Returned (set_body_tasks (HarRecorder._body_tasks s ++ [Scheduled request_id]) s)
  end.

Definition _on_loading_failed (now : string)
    (event : LoadingFailedEvent.t) (s : Rec) : Outcome Rec :=
  let request_id := LoadingFailedEvent.requestId event in
  match dict_get request_id (HarRecorder._pending s) with
  | None => Returned (set_pending (dict_del request_id (HarRecorder._pending s)) s)
  | Some pending =>
      let s := set_pending (dict_del request_id (HarRecorder._pending s)) s in
      let s :=
        set_data_received_sizes
          (dict_del request_id (HarRecorder._data_received_sizes s)) s in
      let pending :=
      {| Pending.url := Pending.url pending;
         Pending.method := Pending.method pending;
         Pending.request_headers := Pending.request_headers pending;
         Pending.post_data := Pending.post_data pending;
         Pending.wall_time := Pending.wall_time pending;
         Pending.resource_type := Pending.resource_type pending;
         Pending.timestamp := Pending.timestamp pending;
         Pending.request_headers_extra := Pending.request_headers_extra pending;
         Pending.status := match Pending.status pending with
           | Some c => Some c
           | None => Some 0
           end;
         Pending.status_text := match Pending.status_text pending with
           | Some t => Some t
           | None => Some (LoadingFailedEvent.errorText event)
           end;
         Pending.response_headers := Pending.response_headers pending;
         Pending.mime_type := Pending.mime_type pending;
         Pending.protocol := Pending.protocol pending;
         Pending.timing := Pending.timing pending;
         Pending.remote_ip := Pending.remote_ip pending;
         Pending.connection_id := Pending.connection_id pending;
         Pending.encoded_data_length := Pending.encoded_data_length pending;
         Pending.response_timestamp := Pending.response_timestamp pending;
         Pending.response_headers_extra := Pending.response_headers_extra pending;
         Pending.extra_status_code := Pending.extra_status_code pending;
         Pending.transfer_size := Pending.transfer_size pending;
         Pending.finished_timestamp := Pending.finished_timestamp pending;
         Pending.body_bytes := Pending.body_bytes pending;
         Pending.error_text := Some (LoadingFailedEvent.errorText event);
         Pending.canceled := Some (get_or (LoadingFailedEvent.canceled event) false);
         Pending.response_body := Pending.response_body pending;
         Pending.response_body_base64 := Pending.response_body_base64 pending |} in
      build_and_append now pending s
  end.

(** ** The body-fetch tasks *)

Definition remove_nth {A : Type} (n : nat) (l : list A) : list A :=
  firstn n l ++ skipn (S n) l.

Definition replace_nth {A : Type} (n : nat) (a : A) (l : list A) : list A :=
  firstn n l ++ a :: skipn (S n) l.

(** The writes of [_finalize_entry] once the body is fetched. *)
Definition body_pending (body : string) (base64_encoded : bool)
    (pending : Pending.t num) : Pending.t num :=
  {| Pending.url := Pending.url pending;
     Pending.method := Pending.method pending;
     Pending.request_headers := Pending.request_headers pending;
     Pending.post_data := Pending.post_data pending;
     Pending.wall_time := Pending.wall_time pending;
     Pending.resource_type := Pending.resource_type pending;
     Pending.timestamp := Pending.timestamp pending;
     Pending.request_headers_extra := Pending.request_headers_extra pending;
     Pending.status := Pending.status pending;
     Pending.status_text := Pending.status_text pending;
     Pending.response_headers := Pending.response_headers pending;
     Pending.mime_type := Pending.mime_type pending;
     Pending.protocol := Pending.protocol pending;
     Pending.timing := Pending.timing pending;
     Pending.remote_ip := Pending.remote_ip pending;
     Pending.connection_id := Pending.connection_id pending;
     Pending.encoded_data_length := Pending.encoded_data_length pending;
     Pending.response_timestamp := Pending.response_timestamp pending;
     Pending.response_headers_extra := Pending.response_headers_extra pending;
     Pending.extra_status_code := Pending.extra_status_code pending;
     Pending.transfer_size := Pending.transfer_size pending;
     Pending.finished_timestamp := Pending.finished_timestamp pending;
     Pending.body_bytes := Pending.body_bytes pending;
     Pending.error_text := Pending.error_text pending;
     Pending.canceled := Pending.canceled pending;
     Pending.response_body := Some body;
     Pending.response_body_base64 := Some base64_encoded |}.

(** [_finalize_entry] up to [await self._fetch_response_body(request_id)],
    for the [n]-th tracked task.  A task that finds no pending entry is
    done, and its done-callback takes it out of [_body_tasks]. *)
Definition _finalize_entry_start (n : nat) (s : Rec) : Rec :=
  match nth_error (HarRecorder._body_tasks s) n with
  | Some (Scheduled request_id) =>
      match dict_get request_id (HarRecorder._pending s) with
      | None =>
          set_body_tasks (remove_nth n (HarRecorder._body_tasks s))
            (set_pending (dict_del request_id (HarRecorder._pending s)) s)
      | Some pending =>
          set_body_tasks
            (replace_nth n (Fetching request_id pending) (HarRecorder._body_tasks s))
            (set_pending (dict_del request_id (HarRecorder._pending s)) s)
      end
  | _ => s
  end.

(** [_finalize_entry] from the point where [_fetch_response_body] has
    returned [(body, base64_encoded)] (['', False] when the fetch failed),
    for the [n]-th tracked task.  An exception of [_build_entry] stays in
    the task. *)
Definition _finalize_entry_finish (now : string) (n : nat)
    (body : string) (base64_encoded : bool) (s : Rec) : Rec :=
  match nth_error (HarRecorder._body_tasks s) n with
  | Some (Fetching request_id pending) =>
      state_of
        (build_and_append now (body_pending body base64_encoded pending)
           (set_body_tasks (remove_nth n (HarRecorder._body_tasks s)) s))
  | _ => s
  end.

(** ** The recorder as a machine *)

Inductive Input : Type :=
| RequestWillBeSent (now : string) (event : RequestWillBeSentEvent.t num)
| RequestWillBeSentExtraInfo (event : RequestWillBeSentExtraInfoEvent.t)
| ResponseReceived (event : ResponseReceivedEvent.t num)
| ResponseReceivedExtraInfo (event : ResponseReceivedExtraInfoEvent.t)
| DataReceived (event : DataReceivedEvent.t)
| LoadingFinished (event : LoadingFinishedEvent.t num)
| LoadingFailed (now : string) (event : LoadingFailedEvent.t)
| TaskStart (n : nat)
| TaskFinish (now : string) (n : nat) (body : string) (base64_encoded : bool).

Definition step (i : Input) (s : Rec) : Outcome Rec :=
  match i with
  | RequestWillBeSent now event => _on_request_will_be_sent now event s
  | RequestWillBeSentExtraInfo event => _on_request_extra_info event s
  | ResponseReceived event => _on_response_received event s
  | ResponseReceivedExtraInfo event => _on_response_extra_info event s
  | DataReceived event => _on_data_received event s
  | LoadingFinished event => _on_loading_finished event s
  | LoadingFailed now event => _on_loading_failed now event s
  | TaskStart n => Returned (_finalize_entry_start n s)
  | TaskFinish now n body base64_encoded =>
      Returned (_finalize_entry_finish now n body base64_encoded s)
  end.

(** The recorder after a sequence of inputs; an exception of a handler
    ends that handler only. *)
Definition run (inputs : list Input) (s : Rec) : Rec :=
  fold_left (fun s i => state_of (step i s)) inputs s.

(** ** [stop] *)

(** The writes of [_flush_pending] to a popped entry. *)
Definition flush_pending (pending : Pending.t num) : Pending.t num :=
  {| Pending.url := Pending.url pending;
     Pending.method := Pending.method pending;
     Pending.request_headers := Pending.request_headers pending;
     Pending.post_data := Pending.post_data pending;
     Pending.wall_time := Pending.wall_time pending;
     Pending.resource_type := Pending.resource_type pending;
     Pending.timestamp := Pending.timestamp pending;
     Pending.request_headers_extra := Pending.request_headers_extra pending;
     Pending.status := match Pending.status pending with
       | Some c => Some c
       | None => Some 0
       end;
     Pending.status_text := match Pending.status_text pending with
       | Some t => Some t
       | None => Some "(pending)"
       end;
     Pending.response_headers := Pending.response_headers pending;
     Pending.mime_type := Pending.mime_type pending;
     Pending.protocol := Pending.protocol pending;
     Pending.timing := Pending.timing pending;
     Pending.remote_ip := Pending.remote_ip pending;
     Pending.connection_id := Pending.connection_id pending;
     Pending.encoded_data_length := Pending.encoded_data_length pending;
     Pending.response_timestamp := Pending.response_timestamp pending;
     Pending.response_headers_extra := Pending.response_headers_extra pending;
     Pending.extra_status_code := Pending.extra_status_code pending;
     Pending.transfer_size := Pending.transfer_size pending;
     Pending.finished_timestamp := Pending.finished_timestamp pending;
     Pending.body_bytes := Pending.body_bytes pending;
     Pending.error_text := Pending.error_text pending;
     Pending.canceled := Pending.canceled pending;
     Pending.response_body := Pending.response_body pending;
     Pending.response_body_base64 := Pending.response_body_base64 pending |}.

(** The loop of [_flush_pending] over the keys left to visit; [clock k] is
    what the clock reads in turn [k]. *)
Fixpoint _flush_pending_loop (clock : nat -> string) (k : nat)
    (keys : list string) (s : Rec) : Outcome Rec :=
  match keys with
  | [] => Returned s
  | request_id :: keys =>
      match dict_get request_id (HarRecorder._pending s) with
      | None => Raised KeyError s
      | Some pending =>
          let s := set_pending (dict_del request_id (HarRecorder._pending s)) s in
          match build_and_append (clock k) (flush_pending pending) s with
          | Returned s => _flush_pending_loop clock (S k) keys s
          | Raised e s => Raised e s
          end
      end
  end.

Definition _flush_pending (clock : nat -> string) (s : Rec) : Outcome Rec :=
  _flush_pending_loop clock 0 (dict_keys (HarRecorder._pending s)) s.

(** [asyncio.gather] of [self._body_tasks] with [return_exceptions=True]:
    every tracked task runs to its end, here in the order of the list;
    [fetch request_id] is what [_fetch_response_body] returns for it. *)
Fixpoint gather_body_tasks (fetch : string -> string * bool) (clock : nat -> string)
    (k : nat) (tasks : list (BodyTask num)) (s : Rec) : Rec :=
  match tasks with
  | [] => s
  | Scheduled request_id :: tasks =>
      let popped := set_pending (dict_del request_id (HarRecorder._pending s)) s in
      match dict_get request_id (HarRecorder._pending s) with
      | None => gather_body_tasks fetch clock (S k) tasks popped
      | Some pending =>
          let (body, base64_encoded) := fetch request_id in
          gather_body_tasks fetch clock (S k) tasks
            (state_of (build_and_append (clock k)
                         (body_pending body base64_encoded pending) popped))
      end
  | Fetching request_id pending :: tasks =>
      let (body, base64_encoded) := fetch request_id in
      gather_body_tasks fetch clock (S k) tasks
        (state_of (build_and_append (clock k)
                     (body_pending body base64_encoded pending) s))
  end.

Definition stop (fetch : string -> string * bool)
    (task_clock flush_clock : nat -> string) (s : Rec) : Outcome Rec :=
  let s :=
    HarRecorder.mk (HarRecorder._resource_types s) [] (HarRecorder._pending s)
      (HarRecorder._entries s) (HarRecorder._network_was_enabled s)
      (HarRecorder._body_tasks s) (HarRecorder._data_received_sizes s) in
  let s :=
    set_body_tasks []
      (gather_body_tasks fetch task_clock 0 (HarRecorder._body_tasks s) s) in
  match _flush_pending flush_clock s with
  | Raised e s => Raised e s
  | Returned s =>
      Returned
        (HarRecorder.mk (HarRecorder._resource_types s) (HarRecorder._callback_ids s)
           (HarRecorder._pending s) (HarRecorder._entries s) false
           (HarRecorder._body_tasks s) (HarRecorder._data_received_sizes s))
  end.
End Recorder.

(* ================================================================= *)
(** * [HarRecorder] on its tab: [start], [stop] and the body fetch *)

(** [NetworkEvent]: the seven events that [start] listens to. *)
Inductive NetworkEvent : Type :=
| REQUEST_WILL_BE_SENT
| REQUEST_WILL_BE_SENT_EXTRA_INFO
| RESPONSE_RECEIVED
| RESPONSE_RECEIVED_EXTRA_INFO
| DATA_RECEIVED
| LOADING_FINISHED
| LOADING_FAILED.

(** The bound methods of the recorder that [start] registers. *)
Module Callback.
Inductive t : Type :=
| _on_request_will_be_sent
| _on_request_extra_info
| _on_response_received
| _on_response_extra_info
| _on_data_received
| _on_loading_finished
| _on_loading_failed.
End Callback.

(** What a tab asks of its connection handler: the [Network.enable] and
    [Network.disable] commands, and the registration and removal of
    callbacks. *)
Inductive HandlerCall : Type :=
| NetworkEnable
| NetworkDisable
| RegisterCallback (event_name : NetworkEvent) (callback : Callback.t) (temporary : bool)
| RemoveCallback (callback_id : Z).

(** [Tab], as far as the recorder uses it: the flag behind
    [network_events_enabled], and the calls its connection handler has
    received, oldest first. *)
Module Tab.
Record t : Type := mk {
  _network_events_enabled : bool;
  _connection_handler : list HandlerCall
}.

Section Tab.
(** The id that [register_callback] returns, given the calls the
    connection handler has received before. *)
Variable register_callback : list HandlerCall -> Z.

Definition network_events_enabled (self : t) : bool := _network_events_enabled self.

Definition enable_network_events (self : t) : t :=
  mk true (_connection_handler self ++ [NetworkEnable]).

Definition disable_network_events (self : t) : t :=
  mk false (_connection_handler self ++ [NetworkDisable]).

(** [on(event_name, callback)] with a callback that is no coroutine
    function: it is registered as it is, not temporary. *)
Definition on (event_name : NetworkEvent) (callback : Callback.t) (self : t) : Z * t :=
  (register_callback (_connection_handler self),
   mk (_network_events_enabled self)
      (_connection_handler self ++ [RegisterCallback event_name callback false])).

Definition remove_callback (callback_id : Z) (self : t) : t :=
  mk (_network_events_enabled self)
     (_connection_handler self ++ [RemoveCallback callback_id]).
End Tab.
End Tab.

(** What [await self._tab._execute_command(command)] gives to
    [_fetch_response_body]: ['result'] of the response, whose keys may be
    missing. *)
Module GetResponseBodyResult.
Record t : Type := mk {
  body : option string;
  base64Encoded : option bool
}.
End GetResponseBodyResult.


Module OnTab.
Section OnTab.
Context {num : Type} `{PyNumber num} `{PyRuntime num}.
Variable register_callback : list HandlerCall -> Z.

Local Abbreviation Rec := (HarRecorder.t num).

Definition events_and_handlers : list (NetworkEvent * Callback.t) :=
  [ (REQUEST_WILL_BE_SENT, Callback._on_request_will_be_sent);
    (REQUEST_WILL_BE_SENT_EXTRA_INFO, Callback._on_request_extra_info);
    (RESPONSE_RECEIVED, Callback._on_response_received);
    (RESPONSE_RECEIVED_EXTRA_INFO, Callback._on_response_extra_info);
    (DATA_RECEIVED, Callback._on_data_received);
    (LOADING_FINISHED, Callback._on_loading_finished);
    (LOADING_FAILED, Callback._on_loading_failed) ].

(** One turn of the loop of [start] over [events_and_handlers]. *)
Definition register (ts : Tab.t * Rec) (eh : NetworkEvent * Callback.t) : Tab.t * Rec :=
  let (tab, s) := ts in
  let (callback_id, tab) := Tab.on register_callback (fst eh) (snd eh) tab in
  (tab,
   HarRecorder.mk (HarRecorder._resource_types s)
     (HarRecorder._callback_ids s ++ [callback_id])
     (HarRecorder._pending s) (HarRecorder._entries s)
     (HarRecorder._network_was_enabled s)
     (HarRecorder._body_tasks s) (HarRecorder._data_received_sizes s)).

(** [start], on the tab of the recorder. *)
Definition start (tab : Tab.t) (s : Rec) : Tab.t * Rec :=
  let ts :=
    if negb (Tab.network_events_enabled tab)
    then (Tab.enable_network_events tab,
          HarRecorder.mk (HarRecorder._resource_types s) (HarRecorder._callback_ids s)
            (HarRecorder._pending s) (HarRecorder._entries s) true
            (HarRecorder._body_tasks s) (HarRecorder._data_received_sizes s))
    else (tab, s) in
  fold_left register events_and_handlers ts.

(** [stop], with what it does to the tab: the callbacks are removed
    first; the network events are disabled last, when [start] had enabled
    them and [_flush_pending] has returned. *)
Definition stop (fetch : string -> string * bool)
    (task_clock flush_clock : nat -> string) (tab : Tab.t) (s : Rec)
    : Tab.t * Outcome Rec :=
  let tab :=
    fold_left (fun tab callback_id => Tab.remove_callback callback_id tab)
              (HarRecorder._callback_ids s) tab in
  let s :=
    HarRecorder.mk (HarRecorder._resource_types s) [] (HarRecorder._pending s)
      (HarRecorder._entries s) (HarRecorder._network_was_enabled s)
      (HarRecorder._body_tasks s) (HarRecorder._data_received_sizes s) in
  let s :=
    set_body_tasks []
      (gather_body_tasks fetch task_clock 0 (HarRecorder._body_tasks s) s) in
  match _flush_pending flush_clock s with
  | Raised e s => (tab, Raised e s)
  | Returned s =>
      if HarRecorder._network_was_enabled s
      then (Tab.disable_network_events tab,
            Returned
              (HarRecorder.mk (HarRecorder._resource_types s) (HarRecorder._callback_ids s)
                 (HarRecorder._pending s) (HarRecorder._entries s) false
                 (HarRecorder._body_tasks s) (HarRecorder._data_received_sizes s)))
      else (tab, Returned s)
  end.
End OnTab.
End OnTab.

(* ================================================================= *)
(** * [HarCapture] *)

(** [sorted(l, key=key)] with [str] keys: the stable sort, by insertion. *)
Section Sorted.
Variable A : Type.
Variable key : A -> string.

Fixpoint sorted_insert (a : A) (l : list A) : list A :=
  match l with
  | [] => [a]
  | x :: r =>
      if String.leb (key a) (key x) then a :: x :: r else x :: sorted_insert a r
  end.

Definition sorted (l : list A) : list A := fold_right sorted_insert [] l.
End Sorted.

Module HarCreator.
Record t : Type := mk { name : string; version : string }.
End HarCreator.

Module HarLog.
Record t (num : Type) : Type := mk {
  version : string;
  creator : HarCreator.t;
  pages : list unit;
  entries : list (HarEntry.t num)
}.
End HarLog.

Module Har.
Record t (num : Type) : Type := mk { log : HarLog.t num }.
End Har.

Definition _PYDOLL_CREATOR_NAME : string := "pydoll".

Module HarCapture.
Section HarCapture.
Context {num : Type}.
(** [_get_pydoll_version()], read from the installed package. *)
Variable _get_pydoll_version : string.
(** [json.dump(har_dict, f, indent=2, ensure_ascii=False)] *)
Variable json_dump : Har.t num -> string.

(** The property [entries]. *)
Definition entries (_recorder : HarRecorder.t num) : list (HarEntry.t num) :=
  sorted (@HarEntry.startedDateTime num) (HarRecorder._entries _recorder).

Definition to_dict (_recorder : HarRecorder.t num) : Har.t num :=
  Har.mk
    (HarLog.mk "1.2"
       (HarCreator.mk _PYDOLL_CREATOR_NAME _get_pydoll_version)
       []
       (sorted (@HarEntry.startedDateTime num) (HarRecorder._entries _recorder))).

(** [save(path)] on a file system held as a dictionary from paths to
    file contents. *)
Definition save (_recorder : HarRecorder.t num) (path : string)
    (files : dict string) : dict string :=
  let har_dict := to_dict _recorder in
  dict_set path (json_dump har_dict) files.
End HarCapture.
End HarCapture.

(* ================================================================= *)
(** * [FindElementsMixin]: command routing and the iframe walk *)

Module FindElementsMixin.

(** [pydoll.constants.By] *)
Inductive By : Type := CSS_SELECTOR | XPATH | ID | CLASS_NAME | NAME | TAG_NAME.

Section Routing.
(** [ConnectionHandler] objects, told apart by identity. *)
Variable ConnectionHandler : Type.
(** The [params] of a CDP command. *)
Variable Params : Type.

(** [pydoll.interactions.iframe.IFrameContext] *)
Record IFrameContext : Type := {
  frame_id : string;
  session_handler : option ConnectionHandler;
  session_id : option string;
  document_object_id : option string;
  execution_context_id : option Z
}.

(** What the mixin reads of [self], a tab, an element or a shadow root:
    an attribute that may be missing is optional ([getattr] with the
    default [None]). *)
Record Context : Type := {
  _connection_handler : ConnectionHandler;
  _object_id : option string;
  is_iframe : bool;
  _iframe_context : option IFrameContext;
  _routing_session_handler : option ConnectionHandler;
  _routing_session_id : option string;
  _routing_parent_frame_id : option string
}.

Record Command : Type := {
  method : string;
  params : Params;
  sessionId : option string
}.

Definition _resolve_routing (self : Context)
    : ConnectionHandler * option string :=
  let routed :=
    match _iframe_context self with
    | Some iframe_context =>
        match session_handler iframe_context with
        | Some handler => Some (handler, session_id iframe_context)
        | None => None
        end
    | None => None
    end in
  match routed with
  | Some r => r
  | None =>
      match _routing_session_handler self with
      | Some routing_handler => (routing_handler, _routing_session_id self)
      | None => (_connection_handler self, None)
      end
  end.

(** [if session_id: command['sessionId'] = session_id] *)
Definition stamp (session_id : option string) (command : Command) : Command :=
  match session_id with
  | Some sid =>
      if str_truthy sid
      then {| method := method command; params := params command;
              sessionId := Some sid |}
      else command
  | None => command
  end.

(** A call [handler.execute_command(command, timeout=timeout)]. *)
Record Transmission : Type := {
  handler : ConnectionHandler;
  sent : Command;
  timeout : Z
}.

(** The call that [_execute_command] awaits. *)
Definition _execute_command (self : Context) (command : Command) : Transmission :=
  let (handler, session_id) := _resolve_routing self in
  {| handler := handler; sent := stamp session_id command; timeout := 60 |}.

(** ** The walk across iframes *)

(** The page at one instant, as the two searches see it with
    [raise_exc=False]. *)
Record Page : Type := {
  _find_element : Context -> By -> string -> option Context;
  _find_elements : Context -> By -> string -> list Context
}.

(** A search sent to the page. *)
Inductive Search : Type :=
| FindElement (context : Context) (by_ : By) (selector : string)
| FindElements (context : Context) (by_ : By) (selector : string).

(** A value of [Union[WebElement, list[WebElement], None]]. *)
Inductive Found : Type :=
| NoneFound
| One (element : Context)
| Many (elements : list Context).

(** The loop of [_attempt_find_across_iframes] over the segments left,
    with the searches it has sent so far. *)
Fixpoint attempt_loop (page : Page) (current_context : Context)
    (segments : list (By * string)) (find_all : bool) (sent : list Search)
    : Found * list Search :=
  match segments with
  | [] => (NoneFound, sent)
  | (by_, selector) :: rest =>
      match rest with
      | [] =>
          if find_all then
            (Many (_find_elements page current_context by_ selector),
             sent ++ [FindElements current_context by_ selector])
          else
            (match _find_element page current_context by_ selector with
             | Some element => One element
             | None => NoneFound
             end,
             sent ++ [FindElement current_context by_ selector])
      | _ :: _ =>
          let sent := sent ++ [FindElement current_context by_ selector] in
          match _find_element page current_context by_ selector with
          | Some element =>
              if is_iframe element
              then attempt_loop page element rest find_all sent
              else (NoneFound, sent)
          | None => (NoneFound, sent)
          end
      end
  end.

Definition _attempt_find_across_iframes (page : Page) (self : Context)
    (segments : list (By * string)) (find_all : bool) : Found * list Search :=
  attempt_loop page self segments find_all [].

(** [result is not None and result != []] *)
Definition is_result (result : Found) : bool :=
  match result with
  | NoneFound => false
  | One _ => true
  | Many [] => false
  | Many (_ :: _) => true
  end.

Section Retry.
Context {num : Type} `{PyNumber num}.

(** The loop of [_find_across_iframes].  Each turn sees the page as it
    is then and, after a failed attempt, reads the clock
    ([loop.time()]); the loop is still asleep when the turns given run
    out, which is [None]. *)
Fixpoint retry_loop (self : Context) (segments : list (By * string))
    (timeout : num) (find_all raise_exc : bool) (start_time : num)
    (turns : list (Page * num)) : option (Result Found) :=
  match turns with
  | [] => None
  | (page, time) :: turns =>
      let result := fst (_attempt_find_across_iframes page self segments find_all) in
      if is_result result then Some (Ok result)
      else if negb (num_truthy timeout) then
        Some (if raise_exc then Raise ElementNotFound
              else Ok (if find_all then Many [] else NoneFound))
      else if num_lt timeout (num_sub time start_time) then
        Some (if raise_exc then Raise WaitElementTimeout
              else Ok (if find_all then Many [] else NoneFound))
      else retry_loop self segments timeout find_all raise_exc start_time turns
  end.

Definition _find_across_iframes (self : Context) (segments : list (By * string))
    (timeout : num) (find_all raise_exc : bool) (start_time : num)
    (turns : list (Page * num)) : option (Result Found) :=
  retry_loop self segments timeout find_all raise_exc start_time turns.

(** How a search that found nothing ends: with the exception of the
    waiting mode when asked to raise, else with [None] or, when all
    elements were requested, the empty list. *)
Definition not_found (timeout : num) (find_all raise_exc : bool) : Result Found :=
  if raise_exc
  then Raise (if num_truthy timeout then WaitElementTimeout else ElementNotFound)
  else Ok (if find_all then Many [] else NoneFound).
End Retry.

(** The walk as the specification words it: at each segment before the
    last, one matching element of the current context, which must be an
    iframe and becomes the current context. *)
Fixpoint walk_iframes (page : Page) (current_context : Context)
    (hops : list (By * string)) : option Context :=
  match hops with
  | [] => Some current_context
  | (by_, selector) :: hops =>
      match _find_element page current_context by_ selector with
      | Some element =>
          if is_iframe element then walk_iframes page element hops else None
      | None => None
      end
  end.

(** The search of the last segment, as requested. *)
Definition final_search (page : Page) (context : Context)
    (segment : By * string) (find_all : bool) : Found :=
  if find_all
  then Many (_find_elements page context (fst segment) (snd segment))
  else match _find_element page context (fst segment) (snd segment) with
       | Some element => One element
       | None => NoneFound
       end.

(** The message that carries the search of the last segment. *)
Definition final_query (context : Context) (segment : By * string)
    (find_all : bool) : Search :=
  if find_all
  then FindElements context (fst segment) (snd segment)
  else FindElement context (fst segment) (snd segment).

(** A search for one element. *)
Definition is_find_element (q : Search) : Prop :=
  match q with FindElement _ _ _ => True | FindElements _ _ _ => False end.

(** The context is routed by the [IFrameContext] it inherited: it has
    one, and that one has a session handler. *)
Definition inherited_route (self : Context)
    : option (ConnectionHandler * option string) :=
  match _iframe_context self with
  | Some iframe_context =>
      match session_handler iframe_context with
      | Some handler => Some (handler, session_id iframe_context)
      | None => None
      end
  | None => None
  end.
(** ** Elements found inside an iframe *)

Definition _apply_iframe_context_to_element (self element : Context)
    (iframe_context : option IFrameContext) : Context :=
  match iframe_context with
  | None => element
  | Some iframe_context =>
      if is_iframe element then
        let routing_handler :=
          match session_handler iframe_context with
          | Some session_handler => session_handler
          | None => _connection_handler self
          end in
        {| _connection_handler := _connection_handler element;
           _object_id := _object_id element;
           is_iframe := is_iframe element;
           _iframe_context := _iframe_context element;
           _routing_session_handler := Some routing_handler;
           _routing_session_id := session_id iframe_context;
           _routing_parent_frame_id := Some (frame_id iframe_context) |}
      else
        {| _connection_handler := _connection_handler element;
           _object_id := _object_id element;
           is_iframe := is_iframe element;
           _iframe_context := Some iframe_context;
           _routing_session_handler := _routing_session_handler element;
           _routing_session_id := _routing_session_id element;
           _routing_parent_frame_id := _routing_parent_frame_id element |}
  end.

(** ** The search and the wait for one selector *)

(** What the browser answers to the two searches from a context, as
    [_find_element] and [_find_elements] read it: the element, or the
    elements of the node list, when the response carries an object id,
    and [None] when it carries none. *)
Record Browser : Type := {
  found_element : Context -> By -> string -> option Context;
  found_elements : Context -> By -> string -> option (list Context)
}.

(** The two searches with [raise_exc=False], which the walk across
    iframes uses. *)
Definition page_of (browser : Browser) : Page :=
  {| _find_element := found_element browser;
     _find_elements :=
       fun self by_ value => get_or (found_elements browser self by_ value) [] |}.

(** [find_method(by, value, raise_exc=raise_exc)], where [find_method]
    is [self._find_element], or [self._find_elements] with [find_all]:
    [ElementNotFound] is raised, when asked for, for a response without
    object id. *)
Definition find_method (browser : Browser) (self : Context) (find_all : bool)
    (by_ : By) (value : string) (raise_exc : bool) : Result Found :=
  if find_all then
    match found_elements browser self by_ value with
    | Some elements => Ok (Many elements)
    | None => if raise_exc then Raise ElementNotFound else Ok (Many [])
    end
  else
    match found_element browser self by_ value with
    | Some element => Ok (One element)
    | None => if raise_exc then Raise ElementNotFound else Ok NoneFound
    end.

Section Wait.
Context {num : Type} `{PyNumber num}.
(** [SelectorParser.parse_iframe_segments_xpath] and
    [SelectorParser.parse_iframe_segments_css] *)
Variable parse_iframe_segments_xpath : string -> list (By * string).
Variable parse_iframe_segments_css : string -> list (By * string).

(** [segments] of [find_or_wait_element]. *)
Definition segments_of (by_ : By) (value : string) : list (By * string) :=
  match by_ with
  | XPATH => parse_iframe_segments_xpath value
  | CSS_SELECTOR => parse_iframe_segments_css value
  | _ => [(by_, value)]
  end.

(** The [while True] loop of [find_or_wait_element].  Each turn sees the
    browser as it is then and, after a search that found nothing, reads
    the clock; the loop is still asleep when the turns given run out,
    which is [None]. *)
Fixpoint wait_loop (self : Context) (by_ : By) (value : string)
    (timeout : num) (find_all raise_exc : bool) (start_time : num)
    (turns : list (Browser * num)) : option (Result Found) :=
  match turns with
  | [] => None
  | (browser, time) :: turns =>
      match find_method browser self find_all by_ value false with
      | Raise e => Some (Raise e)
      | Ok element =>
          if is_result element then Some (Ok element)
          else if num_lt timeout (num_sub time start_time) then
            Some (if raise_exc then Raise WaitElementTimeout else Ok NoneFound)
          else wait_loop self by_ value timeout find_all raise_exc start_time turns
      end
  end.

Definition find_or_wait_element (self : Context) (by_ : By) (value : string)
    (timeout : num) (find_all raise_exc : bool) (start_time : num)
    (turns : list (Browser * num)) : option (Result Found) :=
  let segments := segments_of by_ value in
  match segments with
  | _ :: _ :: _ =>
      _find_across_iframes self segments timeout find_all raise_exc start_time
        (map (fun turn => (page_of (fst turn), snd turn)) turns)
  | _ =>
      if negb (num_truthy timeout) then
        match turns with
        | [] => None
        | (browser, _) :: _ =>
            Some (find_method browser self find_all by_ value raise_exc)
        end
      else wait_loop self by_ value timeout find_all raise_exc start_time turns
  end.
End Wait.

End Routing.

(** ** The commands of the two searches *)

(** The calls of [RuntimeCommands] that build the commands, with the
    arguments they are given. *)
Inductive RuntimeCommand : Type :=
| call_function_on (function_declaration : string) (object_id : string)
    (return_by_value : bool)
| evaluate (expression : string) (context_id : option Z).

(** [pydoll.constants.Scripts], the eight templates of the searches. *)
Module Scripts.
Record t : Type := mk {
  QUERY_SELECTOR : string;
  RELATIVE_QUERY_SELECTOR : string;
  QUERY_SELECTOR_ALL : string;
  RELATIVE_QUERY_SELECTOR_ALL : string;
  FIND_XPATH_ELEMENT : string;
  FIND_RELATIVE_XPATH_ELEMENT : string;
  FIND_XPATH_ELEMENTS : string;
  FIND_RELATIVE_XPATH_ELEMENTS : string
}.
End Scripts.

(** [s.replace(old, new)] for a non-empty [old]: its occurrences in [s],
    left to right and not overlapping, give way to [new]; [skip] counts
    the characters of an occurrence that are still to be passed over. *)
Fixpoint replace_from (old new : string) (skip : nat) (s : string) : string :=
  match s with
  | EmptyString => EmptyString
  | String c r =>
      match skip with
      | S skip => replace_from old new skip r
      | O =>
          if String.prefix old s
          then new ++ replace_from old new (String.length old - 1) r
          else String c (replace_from old new O r)
      end
  end.

(** [s.replace('', new)]: [new] before every character and at the end. *)
Fixpoint replace_empty (new : string) (s : string) : string :=
  new ++ match s with
         | EmptyString => EmptyString
         | String c r => String c (replace_empty new r)
         end.

(** [s.replace(old, new)] *)
Definition str_replace (old new s : string) : string :=
  match old with
  | EmptyString => replace_empty new s
  | String _ _ => replace_from old new O s
  end.

Section Commands.
Variable Scripts : Scripts.t.
(** [SelectorParser.ensure_relative_xpath] *)
Variable _ensure_relative_xpath : string -> string.

(** [value.replace('"', '\\"')] *)
Definition escape_quotes (value : string) : string :=
  str_replace (String "034" "") (String "092" (String "034" "")) value.

(** [selector] of the two command builders. *)
Definition selector_of (by_ : By) (escaped_value : string) : string :=
  match by_ with
  | CLASS_NAME => String "." escaped_value
  | ID => String "#" escaped_value
  | _ => escaped_value
  end.

Definition is_xpath (by_ : By) : bool :=
  match by_ with XPATH => true | _ => false end.

Definition is_name (by_ : By) : bool :=
  match by_ with NAME => true | _ => false end.

Definition _get_find_element_by_xpath_command (xpath : string) (object_id : string)
    (execution_context_id : option Z) : RuntimeCommand :=
  let escaped_value := escape_quotes xpath in
  if str_truthy object_id then
    let escaped_value := _ensure_relative_xpath escaped_value in
    let script :=
      str_replace "{escaped_value}" escaped_value
        (Scripts.FIND_RELATIVE_XPATH_ELEMENT Scripts) in
    call_function_on script object_id false
  else
    let script :=
      str_replace "{escaped_value}" escaped_value (Scripts.FIND_XPATH_ELEMENT Scripts) in
    evaluate script execution_context_id.

Definition _get_find_elements_by_xpath_command (xpath : string) (object_id : string)
    (execution_context_id : option Z) : RuntimeCommand :=
  let escaped_value := escape_quotes xpath in
  if str_truthy object_id then
    let escaped_value := _ensure_relative_xpath escaped_value in
    let script :=
      str_replace "{escaped_value}" escaped_value
        (Scripts.FIND_RELATIVE_XPATH_ELEMENTS Scripts) in
    call_function_on script object_id false
  else
    let script :=
      str_replace "{escaped_value}" escaped_value (Scripts.FIND_XPATH_ELEMENTS Scripts) in
    evaluate script execution_context_id.

Definition _get_find_element_command (by_ : By) (value : string) (object_id : string)
    (execution_context_id : option Z) : RuntimeCommand :=
  let escaped_value := escape_quotes value in
  let selector := selector_of by_ escaped_value in
  if str_truthy object_id && negb (is_xpath by_) then
    let script :=
      str_replace "{selector}" selector (Scripts.RELATIVE_QUERY_SELECTOR Scripts) in
    call_function_on script object_id false
  else if is_xpath by_ then
    _get_find_element_by_xpath_command value object_id execution_context_id
  else if is_name by_ then
    _get_find_element_by_xpath_command
      ("//*[@name=" ++ String "034" (escaped_value ++ String "034" "]"))
      object_id execution_context_id
  else
    evaluate (str_replace "{selector}" selector (Scripts.QUERY_SELECTOR Scripts))
             execution_context_id.

Definition _get_find_elements_command (by_ : By) (value : string) (object_id : string)
    (execution_context_id : option Z) : RuntimeCommand :=
  let escaped_value := escape_quotes value in
  let selector := selector_of by_ escaped_value in
  if str_truthy object_id && negb (is_xpath by_) then
    let script :=
      str_replace "{selector}" selector (Scripts.RELATIVE_QUERY_SELECTOR_ALL Scripts) in
    call_function_on script object_id false
  else if is_xpath by_ then
    _get_find_elements_by_xpath_command value object_id execution_context_id
  else
    evaluate (str_replace "{selector}" selector (Scripts.QUERY_SELECTOR_ALL Scripts))
             execution_context_id.
End Commands.

(** The templates for all elements in the place of those for one. *)
Definition for_all_elements (Scripts : Scripts.t) : Scripts.t :=
  {| Scripts.QUERY_SELECTOR := Scripts.QUERY_SELECTOR_ALL Scripts;
     Scripts.RELATIVE_QUERY_SELECTOR := Scripts.RELATIVE_QUERY_SELECTOR_ALL Scripts;
     Scripts.QUERY_SELECTOR_ALL := Scripts.QUERY_SELECTOR_ALL Scripts;
     Scripts.RELATIVE_QUERY_SELECTOR_ALL := Scripts.RELATIVE_QUERY_SELECTOR_ALL Scripts;
     Scripts.FIND_XPATH_ELEMENT := Scripts.FIND_XPATH_ELEMENTS Scripts;
     Scripts.FIND_RELATIVE_XPATH_ELEMENT := Scripts.FIND_RELATIVE_XPATH_ELEMENTS Scripts;
     Scripts.FIND_XPATH_ELEMENTS := Scripts.FIND_XPATH_ELEMENTS Scripts;
     Scripts.FIND_RELATIVE_XPATH_ELEMENTS := Scripts.FIND_RELATIVE_XPATH_ELEMENTS Scripts |}.

End FindElementsMixin.

(* ================================================================= *)
(** * A runtime to evaluate with

    The library routines of [PyRuntime] for Python's [int] and ASCII text:
    enough to run the recorder on concrete events. *)

Module AsciiRuntime.

Definition code (c : ascii) : Z := Z.of_N (N_of_ascii c).

Definition lower_char (c : ascii) : ascii :=
  if (65 <=? code c) && (code c <=? 90)
  then ascii_of_N (Z.to_N (code c + 32)) else c.

Definition upper_char (c : ascii) : ascii :=
  if (97 <=? code c) && (code c <=? 122)
  then ascii_of_N (Z.to_N (code c - 32)) else c.

Fixpoint map_chars (f : ascii -> ascii) (s : string) : string :=
  match s with
  | EmptyString => EmptyString
  | String c r => String (f c) (map_chars f r)
  end.

(** The ASCII characters that [str.isspace] accepts. *)
Definition is_space (c : ascii) : bool :=
  ((9 <=? code c) && (code c <=? 13)) || ((28 <=? code c) && (code c <=? 32)).

Fixpoint lstrip (s : string) : string :=
  match s with
  | EmptyString => EmptyString
  | String c r => if is_space c then lstrip r else s
  end.

Fixpoint rstrip (s : string) : string :=
  match s with
  | EmptyString => EmptyString
  | String c r =>
      match rstrip r with
      | EmptyString => if is_space c then EmptyString else String c EmptyString
      | r' => String c r'
      end
  end.

Definition strip (s : string) : string := rstrip (lstrip s).

(** Two decimal digits, and four. *)
Definition digit (n : Z) : ascii := ascii_of_N (Z.to_N (48 + n mod 10)).

Definition pad2 (n : Z) : string :=
  String (digit (n / 10)) (String (digit n) EmptyString).

Definition pad4 (n : Z) : string := pad2 (n / 100) ++ pad2 n.

(** [isoformat] of the UTC date and time of a whole number of seconds
    since the epoch (the proleptic Gregorian calendar, by days). *)
Definition isoformat (t : Z) : string :=
  let days := t / 86400 in
  let secs := t mod 86400 in
  let z := days + 719468 in
  let era := z / 146097 in
  let doe := z - era * 146097 in
  let yoe := (doe - doe / 1460 + doe / 36524 - doe / 146096) / 365 in
  let doy := doe - (365 * yoe + yoe / 4 - yoe / 100) in
  let mp := (5 * doy + 2) / 153 in
  let d := doy - (153 * mp + 2) / 5 + 1 in
  let m := if mp <? 10 then mp + 3 else mp - 9 in
  let y := yoe + era * 400 + (if m <=? 2 then 1 else 0) in
  pad4 y ++ "-" ++ pad2 m ++ "-" ++ pad2 d ++ "T" ++
  pad2 (secs / 3600) ++ ":" ++ pad2 (secs / 60 mod 60) ++ ":" ++ pad2 (secs mod 60) ++
  "+00:00".

(** The value of a base64 digit. *)
Definition b64_value (c : ascii) : option Z :=
  let n := code c in
  if (65 <=? n) && (n <=? 90) then Some (n - 65)
  else if (97 <=? n) && (n <=? 122) then Some (n - 71)
  else if (48 <=? n) && (n <=? 57) then Some (n + 4)
  else if n =? 43 then Some 62
  else if n =? 47 then Some 63
  else None.

(** [binascii.a2b_base64] on ASCII text: characters outside the alphabet
    are skipped, a complete padding ends the input, and an incomplete last
    group is an error.  [quad_pos] counts the digits of the current group,
    [acc] holds their bits and [pads] the padding characters just seen. *)
Fixpoint a2b_base64 (s : string) (quad_pos pads acc : Z) (out : string)
    : option string :=
  match s with
  | EmptyString => if quad_pos =? 0 then Some out else None
  | String c r =>
      if code c =? 61 then
        if (2 <=? quad_pos) && (4 <=? quad_pos + pads + 1) then Some out
        else a2b_base64 r quad_pos (pads + 1) acc out
      else
        match b64_value c with
        | None => a2b_base64 r quad_pos pads acc out
        | Some v =>
            let acc := acc * 64 + v in
            if quad_pos =? 0 then a2b_base64 r 1 0 acc out
            else
              let bits := 6 * (quad_pos + 1) - 8 * quad_pos in
              let byte := (acc / 2 ^ bits) mod 256 in
              a2b_base64 r ((quad_pos + 1) mod 4) 0 (acc mod 2 ^ bits)
                (out ++ String (ascii_of_N (Z.to_N byte)) EmptyString)
        end
  end.

Fixpoint is_ascii (s : string) : bool :=
  match s with
  | EmptyString => true
  | String c r => (code c <? 128) && is_ascii r
  end.

(** [base64.b64decode] of a [str]: text that is not ASCII is refused. *)
Definition decode_base64 (s : string) : option string :=
  if is_ascii s then a2b_base64 s 0 0 0 EmptyString else None.

(** The query of a URL: after the first "?" of what precedes the first
    "#". *)
Definition query_of (url : string) : string :=
  get_or (snd (split1 "?" (fst (split1 "#" url)))) "".

Definition hex_value (c : ascii) : option Z :=
  let n := code c in
  if (48 <=? n) && (n <=? 57) then Some (n - 48)
  else if (65 <=? n) && (n <=? 70) then Some (n - 55)
  else if (97 <=? n) && (n <=? 102) then Some (n - 87)
  else None.

(** [unquote_plus] on ASCII escapes. *)
Fixpoint unquote_plus (s : string) : string :=
  match s with
  | EmptyString => EmptyString
  | String c r =>
      if code c =? 43 then String " " (unquote_plus r)
      else
        match c, r with
        | "%"%char, String h (String l r') =>
            match hex_value h, hex_value l with
            | Some a, Some b =>
                String (ascii_of_N (Z.to_N (16 * a + b))) (unquote_plus r')
            | _, _ => String c (unquote_plus r)
            end
        | _, _ => String c (unquote_plus r)
        end
  end.

(** [parse_qs(query, keep_blank_values=True)] *)
Definition qs (query : string) : dict (list string) :=
  fold_left
    (fun d name_value =>
       if str_truthy name_value then
         let (name, value) := split1 "=" name_value in
         let name := unquote_plus name in
         let value := unquote_plus (get_or value "") in
         dict_set name (get_or (dict_get name d) [] ++ [value]) d
       else d)
    (split "&" query) [].

#[export] Instance runtime : PyRuntime Z := {|
  isoformat_utc := isoformat;
  b64decode := decode_base64;
  str_strip := strip;
  str_lower := map_chars lower_char;
  str_upper := map_chars upper_char;
  urlparse_query := query_of;
  parse_qs := qs
|}.
End AsciiRuntime.

(* ================================================================= *)
(** * Vocabulary of the properties *)

Section Vocabulary.
Context {num : Type} `{PyNumber num} `{PyRuntime num}.

(** The request id of the five events that only complete an entry. *)
Definition completes (i : @Input num) : option string :=
  match i with
  | RequestWillBeSentExtraInfo event =>
      Some (RequestWillBeSentExtraInfoEvent.requestId event)
  | ResponseReceivedExtraInfo event =>
      Some (ResponseReceivedExtraInfoEvent.requestId event)
  | ResponseReceived event => Some (ResponseReceivedEvent.requestId event)
  | LoadingFinished event => Some (LoadingFinishedEvent.requestId event)
  | LoadingFailed _ event => Some (LoadingFailedEvent.requestId event)
  | _ => None
  end.

(** The six phases that make up the time of an entry. *)
Definition phases_without_ssl (t : HarTimings.t num) : list num :=
  [ HarTimings.blocked t; HarTimings.dns t; HarTimings.connect t;
    HarTimings.send t; HarTimings.wait t; HarTimings.receive t ].

(** The HAR timings [t] with another ssl phase. *)
Definition with_ssl (ssl : num) (t : HarTimings.t num) : HarTimings.t num :=
  {| HarTimings.blocked := HarTimings.blocked t;
     HarTimings.dns := HarTimings.dns t;
     HarTimings.connect := HarTimings.connect t;
     HarTimings.ssl := ssl;
     HarTimings.send := HarTimings.send t;
     HarTimings.wait := HarTimings.wait t;
     HarTimings.receive := HarTimings.receive t |}.

(** The CDP timing [t] with another [sslStart] and [sslEnd]. *)
Definition with_ssl_start_end (ssl_s ssl_e : option num) (t : ResourceTiming.t num)
    : ResourceTiming.t num :=
  {| ResourceTiming.dnsStart := ResourceTiming.dnsStart t;
     ResourceTiming.dnsEnd := ResourceTiming.dnsEnd t;
     ResourceTiming.connectStart := ResourceTiming.connectStart t;
     ResourceTiming.connectEnd := ResourceTiming.connectEnd t;
     ResourceTiming.sslStart := ssl_s;
     ResourceTiming.sslEnd := ssl_e;
     ResourceTiming.sendStart := ResourceTiming.sendStart t;
     ResourceTiming.sendEnd := ResourceTiming.sendEnd t;
     ResourceTiming.receiveHeadersStart := ResourceTiming.receiveHeadersStart t |}.

(** The pending entry with another [timing]. *)
Definition with_timing (timing : option (ResourceTiming.t num))
    (pending : Pending.t num) : Pending.t num :=
  {| Pending.url := Pending.url pending;
     Pending.method := Pending.method pending;
     Pending.request_headers := Pending.request_headers pending;
     Pending.post_data := Pending.post_data pending;
     Pending.wall_time := Pending.wall_time pending;
     Pending.resource_type := Pending.resource_type pending;
     Pending.timestamp := Pending.timestamp pending;
     Pending.request_headers_extra := Pending.request_headers_extra pending;
     Pending.status := Pending.status pending;
     Pending.status_text := Pending.status_text pending;
     Pending.response_headers := Pending.response_headers pending;
     Pending.mime_type := Pending.mime_type pending;
     Pending.protocol := Pending.protocol pending;
     Pending.timing := timing;
     Pending.remote_ip := Pending.remote_ip pending;
     Pending.connection_id := Pending.connection_id pending;
     Pending.encoded_data_length := Pending.encoded_data_length pending;
     Pending.response_timestamp := Pending.response_timestamp pending;
     Pending.response_headers_extra := Pending.response_headers_extra pending;
     Pending.extra_status_code := Pending.extra_status_code pending;
     Pending.transfer_size := Pending.transfer_size pending;
     Pending.finished_timestamp := Pending.finished_timestamp pending;
     Pending.body_bytes := Pending.body_bytes pending;
     Pending.error_text := Pending.error_text pending;
     Pending.canceled := Pending.canceled pending;
     Pending.response_body := Pending.response_body pending;
     Pending.response_body_base64 := Pending.response_body_base64 pending |}.

(** A start and end pair is available when both are at least 0; a missing
    one counts as -1. *)
Definition available (s e : option num) : bool :=
  num_le (num_of_Z 0) (get_or s (num_of_Z (-1)))
  && num_le (num_of_Z 0) (get_or e (num_of_Z (-1))).

(** The start of the first phase that has one: [first] of
    [_build_har_timings]. *)
Definition first_start (t : ResourceTiming.t num) : num :=
  let dns_s := get_or (ResourceTiming.dnsStart t) (num_of_Z (-1)) in
  let con_s := get_or (ResourceTiming.connectStart t) (num_of_Z (-1)) in
  if num_le (num_of_Z 0) dns_s then dns_s
  else if num_le (num_of_Z 0) con_s then con_s
  else get_or (ResourceTiming.sendStart t) (num_of_Z 0).



(** The request headers that an entry is built from. *)
Definition request_headers_of (pending : Pending.t num) : Headers :=
  headers_or (Pending.request_headers_extra pending) (Pending.request_headers pending).

(** The response headers that an entry is built from. *)
Definition response_headers_of (pending : Pending.t num) : Headers :=
  headers_or (Pending.response_headers_extra pending) (Pending.response_headers pending).




(** The entry [e] is the one flushed for the binding [kp] of the pending
    table. *)
Definition flushed_as (kp : string * Pending.t num) (e : HarEntry.t num) : Prop :=
  exists now : string, _build_entry now (flush_pending (snd kp)) = Ok e.

(** The entry [e] is what [_build_entry] returns for some pending entry. *)
Definition finalized (e : HarEntry.t num) : Prop :=
  exists (now : string) (pending : Pending.t num), _build_entry now pending = Ok e.

(** The states of a recorder: made by [HarRecorder(...)], then changed by
    the handlers, the body tasks and [stop], whether they return or
    raise. *)
Inductive reachable : HarRecorder.t num -> Prop :=
| reachable_init (resource_types : option (list string)) :
    reachable (__init__ resource_types)
| reachable_step (i : @Input num) (s : HarRecorder.t num) :
    reachable s -> reachable (state_of (step i s))
| reachable_stop (fetch : string -> string * bool) (task_clock flush_clock : nat -> string)
    (s : HarRecorder.t num) :
    reachable s -> reachable (state_of (stop fetch task_clock flush_clock s)).
End Vocabulary.

(* ================================================================= *)
(** * Vocabulary of the further properties *)

Section MoreVocabulary.
Context {num : Type} `{PyNumber num} `{PyRuntime num}.

(** The requestWillBeSent events among the inputs that pass the filter of
    the recorder [s]. *)
Definition requests_seen (s : HarRecorder.t num) (inputs : list (@Input num)) : nat :=
  List.length
    (filter (fun i => match i with
                      | RequestWillBeSent _ event =>
                          negb (filtered_out s (get_or (RequestWillBeSentEvent.type event) ""))
                      | _ => false
                      end) inputs).

(** The tasks that hold a popped pending entry. *)
Definition fetching (tasks : list (BodyTask num)) : nat :=
  List.length
    (filter (fun t => match t with Fetching _ _ => true | Scheduled _ => false end) tasks).

(** The requests a recorder holds: as an entry, as a pending entry, or in
    a task that is fetching the body. *)
Definition held (s : HarRecorder.t num) : nat :=
  (List.length (HarRecorder._entries s) + List.length (HarRecorder._pending s)
   + fetching (HarRecorder._body_tasks s))%nat.

(** The pending entry of a request id rewritten in place, when there is
    one: what the handler of a responseReceived or extra-info event does
    to the recorder. *)
Definition update_pending (request_id : string) (f : Pending.t num -> Pending.t num)
    (s : HarRecorder.t num) : HarRecorder.t num :=
  match dict_get request_id (HarRecorder._pending s) with
  | None => s
  | Some pending =>
      set_pending (dict_set request_id (f pending) (HarRecorder._pending s)) s
  end.

(** What a handler makes of the pending entry [pending] of a request id:
    the entry it leaves on a recorder that holds just that one. *)
Definition merged (handler : HarRecorder.t num -> Outcome (HarRecorder.t num))
    (request_id : string) (pending : Pending.t num) : Pending.t num :=
  get_or
    (dict_get request_id
       (HarRecorder._pending
          (state_of (handler (set_pending [(request_id, pending)] (__init__ None))))))
    pending.


(** The request id that an input is about: the one its event carries,
    or the one of the task that starts.  A task that finishes writes to
    no table. *)
Definition concerns (i : @Input num) (s : HarRecorder.t num) : option string :=
  match i with
  | RequestWillBeSent _ event => Some (RequestWillBeSentEvent.requestId event)
  | RequestWillBeSentExtraInfo event =>
      Some (RequestWillBeSentExtraInfoEvent.requestId event)
  | ResponseReceived event => Some (ResponseReceivedEvent.requestId event)
  | ResponseReceivedExtraInfo event =>
      Some (ResponseReceivedExtraInfoEvent.requestId event)
  | DataReceived event => Some (DataReceivedEvent.requestId event)
  | LoadingFinished event => Some (LoadingFinishedEvent.requestId event)
  | LoadingFailed _ event => Some (LoadingFailedEvent.requestId event)
  | TaskStart n =>
      match nth_error (HarRecorder._body_tasks s) n with
      | Some (Scheduled request_id) => Some request_id
      | _ => None
      end
  | TaskFinish _ _ _ _ => None
  end.

(** A [Set-Cookie] line that has a "=", but none before its first ";". *)
Definition malformed_set_cookie (raw_line : string) : bool :=
  let stripped_line := str_strip raw_line in
  str_contains "=" stripped_line
  && negb (str_contains "=" (fst (split1 ";" stripped_line))).

(** The lines of the [Set-Cookie] header that [_parse_response_cookies]
    reads. *)
Definition set_cookie_lines (headers : Headers) : list string :=
  let set_cookie := header_get2 headers "Set-Cookie" "set-cookie" in
  if str_truthy set_cookie then split "010" set_cookie else [].

End MoreVocabulary.

(** What the proofs use of [str.lower] and [str.upper]; the laws hold
    on ASCII text. *)
Class PyCaseLaws (num : Type) `{PyRuntime num} : Prop := {
  str_lower_lower : forall s, str_lower (str_lower s) = str_lower s;
  str_lower_upper : forall s, str_lower (str_upper s) = str_lower s;
  str_upper_upper : forall s, str_upper (str_upper s) = str_upper s;
  str_upper_lower : forall s, str_upper (str_lower s) = str_upper s;
  str_upper_truthy : forall s, str_truthy (str_upper s) = str_truthy s;
  str_lower_truthy : forall s, str_truthy (str_lower s) = str_truthy s
}.

Arguments PyCaseLaws num {_}.

(** What the proofs use of the order of Python numbers: the order is
    total, rounding keeps a number that is not below 0 there, and sums
    and scaled differences of such numbers are not below 0.  The laws
    hold for [int] and for the finite [float]. *)
Class PyOrderLaws (num : Type) `{PyNumber num} : Prop := {
  num_le_0_0 : num_le (num_of_Z 0) (num_of_Z 0) = true;
  num_not_lt_le : forall a b, num_lt a b = false -> num_le b a = true;
  num_round_nonneg : forall a n,
    num_le (num_of_Z 0) a = true -> num_le (num_of_Z 0) (num_round a n) = true;
  num_add_nonneg : forall a b,
    num_le (num_of_Z 0) a = true -> num_lt (num_of_Z 0) b = true ->
    num_le (num_of_Z 0) (num_add a b) = true;
  num_gap_nonneg : forall a b,
    num_lt a b = true ->
    num_le (num_of_Z 0) (num_mul (num_sub b a) (num_of_Z 1000)) = true
}.

Arguments PyOrderLaws num {_}.

(* ================================================================= *)
(** * Concrete events

    The events of the repository's tests ([tests/test_browser/
    test_har_recorder.py]), with whole numbers for the timings. *)

Module Examples.
Import AsciiRuntime.

Definition recorder : HarRecorder.t Z := __init__ None.

Definition request (url : string) : Request.t :=
  Request.mk (Some url) (Some "GET") (Some [("User-Agent", "TestBrowser")]) None.

Definition request_will_be_sent (request_id url : string)
    (redirect_response : option (RedirectResponse.t Z)) : RequestWillBeSentEvent.t Z :=
  RequestWillBeSentEvent.mk request_id (request url) (Some "Document")
    redirect_response 1700000000 12345.


Definition timing : ResourceTiming.t Z :=
  ResourceTiming.mk (Some 1) (Some 5) (Some 5) (Some 50) (Some 10) (Some 45)
    (Some 50) (Some 51) (Some 100).

(** The timing of [test_build_har_timings_no_ssl]. *)
Definition timing_no_ssl : ResourceTiming.t Z :=
  ResourceTiming.mk (Some (-1)) (Some (-1)) (Some (-1)) (Some (-1)) (Some (-1))
    (Some (-1)) (Some 10) (Some 11) (Some 50).

Definition response (timing : option (ResourceTiming.t Z)) : Response.t Z :=
  Response.mk 200 "OK" (Some [("Content-Type", "text/html")]) "text/html" (Some "h2")
    timing (Some "93.184.216.34") (Some 42) (Some 1234).

Definition response_received (request_id : string)
    (timing : option (ResourceTiming.t Z)) : ResponseReceivedEvent.t Z :=
  ResponseReceivedEvent.mk request_id (response timing) 12346.


Definition data_received (request_id : string) (size : Z) : DataReceivedEvent.t :=
  DataReceivedEvent.mk request_id size.

Definition loading_finished (request_id : string) : LoadingFinishedEvent.t Z :=
  LoadingFinishedEvent.mk request_id 1234 12347.

Definition loading_failed (request_id : string) : LoadingFailedEvent.t :=
  LoadingFailedEvent.mk request_id "net::ERR_FAILED" (Some false).

(** One request sent, nothing else seen. *)
Definition one_pending : HarRecorder.t Z :=
  run [RequestWillBeSent "" (request_will_be_sent "req-1" "https://example.com" None)]
      recorder.

(** A request whose response, with its timing, has been received and whose
    loading has finished: the pending entry as [_finalize_entry] finds
    it. *)
Definition finished_pending : Pending.t Z :=
  get_or
    (dict_get "req-1"
       (HarRecorder._pending
          (run [RequestWillBeSent "" (request_will_be_sent "req-1" "https://example.com" None);
                ResponseReceived (response_received "req-1" (Some timing));
                LoadingFinished (loading_finished "req-1")]
               recorder)))
    (new_pending (request_will_be_sent "req-1" "https://example.com" None)).

(** A form posted as text, its last letter of two UTF-8 bytes. *)
Definition post_pending : Pending.t Z :=
  new_pending
    (RequestWillBeSentEvent.mk "req-2"
       (Request.mk (Some "https://example.com/form") (Some "POST")
          (Some [("Content-Type", "application/x-www-form-urlencoded")])
          (Some (String.append "name=caf" (String "195" (String "169" "")))))
       (Some "XHR") None 1700000001 12350).

(** An entry of [test_entries_sorted_by_started_date_time]. *)
Definition entry (startedDateTime url : string) : HarEntry.t Z :=
  {| HarEntry.startedDateTime := startedDateTime;
     HarEntry.time := 50;
     HarEntry.request :=
       HarRequest.mk "GET" url "" [] [] [] (-1) 0 None;
     HarEntry.response :=
       HarResponse.mk 200 "" "" [] [] (HarContent.mk 0 "" None None) "" (-1) (-1);
     HarEntry.timings := HarTimings.mk (-1) (-1) (-1) (-1) 0 0 0;
     HarEntry.serverIPAddress := None;
     HarEntry.connection := None;
     HarEntry._resourceType := None |}.

Definition with_entries (entries : list (HarEntry.t Z)) : HarRecorder.t Z :=
  set_entries entries recorder.

(** The connections of a tab and of the browser. *)
Inductive Connection : Type := TabConnection | BrowserConnection.

Definition context (iframe_context : option (FindElementsMixin.IFrameContext Connection))
    (is_iframe : bool) : FindElementsMixin.Context Connection :=
  {| FindElementsMixin._connection_handler := TabConnection;
     FindElementsMixin._object_id := Some "obj-1";
     FindElementsMixin.is_iframe := is_iframe;
     FindElementsMixin._iframe_context := iframe_context;
     FindElementsMixin._routing_session_handler := None;
     FindElementsMixin._routing_session_id := None;
     FindElementsMixin._routing_parent_frame_id := None |}.

(** The context of a same-origin iframe: no session of its own. *)
Definition same_origin_frame : FindElementsMixin.IFrameContext Connection :=
  {| FindElementsMixin.frame_id := "frame-1";
     FindElementsMixin.session_handler := None;
     FindElementsMixin.session_id := None;
     FindElementsMixin.document_object_id := Some "doc-1";
     FindElementsMixin.execution_context_id := Some 7 |}.

(** The context of an out-of-process iframe, attached through the
    browser connection. *)
Definition oopif_frame : FindElementsMixin.IFrameContext Connection :=
  {| FindElementsMixin.frame_id := "target-1";
     FindElementsMixin.session_handler := Some BrowserConnection;
     FindElementsMixin.session_id := Some "session-1";
     FindElementsMixin.document_object_id := None;
     FindElementsMixin.execution_context_id := None |}.

Definition describe_node : FindElementsMixin.Command unit :=
  {| FindElementsMixin.method := "DOM.describeNode";
     FindElementsMixin.params := tt;
     FindElementsMixin.sessionId := None |}.

(** A page in which every search finds a [div]: the first segment of a
    walk does not lead into an iframe. *)
Definition page_of_divs : FindElementsMixin.Page Connection :=
  {| FindElementsMixin._find_element := fun _ _ _ => Some (context None false);
     FindElementsMixin._find_elements := fun _ _ _ => [context None false] |}.

(** An image requested by the page. *)
Definition image_request : RequestWillBeSentEvent.t Z :=
  RequestWillBeSentEvent.mk "req-9" (request "https://example.com/logo.png")
    (Some "Image") None 1700000002 12360.

(** The raw headers of a response with a Set-Cookie line that has no
    "=" before its first ";". *)
Definition malformed_extra_info (request_id : string) : ResponseReceivedExtraInfoEvent.t :=
  ResponseReceivedExtraInfoEvent.mk request_id
    (Some [("Set-Cookie", "foo; Path=/")]) (Some 200).

(** A request sent with two cookies. *)
Definition request_with_cookies : RequestWillBeSentEvent.t Z :=
  RequestWillBeSentEvent.mk "req-3"
    (Request.mk (Some "https://example.com/account") (Some "GET")
       (Some [("Cookie", "sid=abc; theme=dark")]) None)
    (Some "Document") None 1700000003 12370.

(** The pending entry of a request id in a recorder, or an empty one. *)
Definition pending_of (request_id : string) (s : HarRecorder.t Z) : Pending.t Z :=
  get_or (dict_get request_id (HarRecorder._pending s))
         (new_pending (request_will_be_sent request_id "" None)).

(** Three requests sent; the raw headers of the second have the
    malformed Set-Cookie line. *)
Definition three_pending : HarRecorder.t Z :=
  run [RequestWillBeSent "" (request_will_be_sent "req-0" "https://example.com/a" None);
       RequestWillBeSent "" (request_will_be_sent "req-1" "https://example.com/b" None);
       ResponseReceivedExtraInfo (malformed_extra_info "req-1");
       RequestWillBeSent "" (request_will_be_sent "req-2" "https://example.com/c" None)]
      recorder.

(** A request whose loading has finished and whose body task has not
    started. *)
Definition finished : HarRecorder.t Z :=
  run [RequestWillBeSent "" (request_will_be_sent "req-1" "https://example.com" None);
       ResponseReceived (response_received "req-1" (Some timing));
       LoadingFinished (loading_finished "req-1")]
      recorder.

(** The recorder once the body task has run with an HTML body. *)
Definition recorded : HarRecorder.t Z :=
  run [TaskStart 0; TaskFinish "" 0 "<html></html>" false] finished.

(** A body fetch that gives nothing, a clock that stands still. *)
Definition no_body (request_id : string) : string * bool := ("", false).

Definition still_clock (k : nat) : string := "2023-11-14T22:13:20+00:00".

(** A button inside an out-of-process iframe. *)
Definition button : FindElementsMixin.Context Connection := context (Some oopif_frame) false.

(** A browser in which nothing is found, and one in which the selector
    [iframe] finds an iframe and any other selector the button. *)
Definition empty_browser : FindElementsMixin.Browser Connection :=
  {| FindElementsMixin.found_element := fun _ _ _ => None;
     FindElementsMixin.found_elements := fun _ _ _ => Some [] |}.

Definition loaded_browser : FindElementsMixin.Browser Connection :=
  {| FindElementsMixin.found_element :=
       fun _ _ value =>
         if String.eqb value "iframe" then Some (context None true) else Some button;
     FindElementsMixin.found_elements := fun _ _ _ => Some [button] |}.

(** The segments of the selector [iframe button], as
    [SelectorParser.parse_iframe_segments_css] is to give them. *)
Definition two_segments (value : string)
    : list (FindElementsMixin.By * string) :=
  [(FindElementsMixin.CSS_SELECTOR, "iframe"); (FindElementsMixin.CSS_SELECTOR, "button")].
End Examples.

(* ================================================================= *)
(** * Properties *)

Lemma Z_PyNumberLaws : PyNumberLaws Z.
Proof.
  constructor; cbn; intros; try reflexivity; try lia.
Qed.

#[export] Existing Instance Z_PyNumberLaws.

(** ** Dictionaries *)

Section DictFacts.
Context {V : Type}.
Implicit Types (d : dict V) (k : string) (v : V).

Lemma dict_get_set_same k v d : dict_get k (dict_set k v d) = Some v.
Proof.
  induction d as [|[k' v'] d IH]; simpl.
  - now rewrite String.eqb_refl.
  - destruct (String.eqb k k') eqn:E; simpl; rewrite E; auto.
Qed.

Lemma dict_get_set_other k k' v d :
  k' <> k -> dict_get k' (dict_set k v d) = dict_get k' d.
Proof.
  intros Hne. induction d as [|[k0 v0] d IH]; simpl.
  - destruct (String.eqb k' k) eqn:E; auto.
    apply String.eqb_eq in E. contradiction.
  - destruct (String.eqb k k0) eqn:E; simpl.
    + apply String.eqb_eq in E. subst k0.
      destruct (String.eqb k' k) eqn:E'; auto.
      apply String.eqb_eq in E'. contradiction.
    + now rewrite IH.
Qed.

Lemma dict_get_del_same k d : dict_get k (dict_del k d) = None.
Proof.
  induction d as [|[k' v'] d IH]; simpl; auto.
  destruct (String.eqb k k') eqn:E; simpl; auto.
  now rewrite E.
Qed.

Lemma dict_get_del_other k k' d :
  k' <> k -> dict_get k' (dict_del k d) = dict_get k' d.
Proof.
  intros Hne. induction d as [|[k0 v0] d IH]; simpl; auto.
  destruct (String.eqb k k0) eqn:E; simpl.
  - apply String.eqb_eq in E. subst k0.
    destruct (String.eqb k' k) eqn:E'; auto.
    apply String.eqb_eq in E'. contradiction.
  - now rewrite IH.
Qed.

Lemma dict_get_None_not_In k d :
  dict_get k d = None <-> ~ In k (dict_keys d).
Proof.
  induction d as [|[k' v'] d IH]; simpl.
  - tauto.
  - destruct (String.eqb k k') eqn:E.
    + apply String.eqb_eq in E. subst. split; [discriminate | tauto].
    + apply String.eqb_neq in E. rewrite IH. split; intros Hn.
      * intros [Heq | Hin]; [congruence | tauto].
      * tauto.
Qed.

(** Popping a key that is not there leaves the dictionary as it is. *)
Lemma dict_del_absent k d : dict_get k d = None -> dict_del k d = d.
Proof.
  induction d as [|[k' v'] d IH]; simpl; auto.
  destruct (String.eqb k k') eqn:E; simpl; [discriminate|].
  intros Hg. now rewrite IH.
Qed.

Lemma dict_keys_del k d :
  dict_keys (dict_del k d) = filter (fun k' => negb (String.eqb k k')) (dict_keys d).
Proof.
  induction d as [|[k' v'] d IH]; simpl; auto.
  destruct (String.eqb k k'); simpl; now rewrite IH.
Qed.

Lemma dict_keys_set k v d :
  dict_keys (dict_set k v d) =
  if dict_mem k d then dict_keys d else dict_keys d ++ [k].
Proof.
  unfold dict_mem. induction d as [|[k' v'] d IH]; simpl; auto.
  destruct (String.eqb k k') eqn:E; simpl; auto.
  rewrite IH. now destruct (dict_get k d).
Qed.

Lemma NoDup_filter {A : Type} (f : A -> bool) (l : list A) :
  NoDup l -> NoDup (filter f l).
Proof.
  induction 1 as [|a l Hin Hnd IH]; simpl; [constructor|].
  destruct (f a); auto. constructor; auto.
  rewrite filter_In. tauto.
Qed.

Lemma NoDup_snoc {A : Type} (a : A) (l : list A) :
  NoDup l -> ~ In a l -> NoDup (l ++ [a]).
Proof.
  induction 1 as [|b l Hin Hnd IH]; simpl; intros Hna.
  - constructor; [tauto | constructor].
  - constructor.
    + rewrite in_app_iff. simpl. intros [H1|[H1|[]]]; [tauto | subst; tauto].
    + apply IH. tauto.
Qed.

Lemma NoDup_keys_del k d : NoDup (dict_keys d) -> NoDup (dict_keys (dict_del k d)).
Proof. intros Hnd. rewrite dict_keys_del. now apply NoDup_filter. Qed.

Lemma NoDup_keys_set k v d : NoDup (dict_keys d) -> NoDup (dict_keys (dict_set k v d)).
Proof.
  intros Hnd. rewrite dict_keys_set. unfold dict_mem.
  destruct (dict_get k d) eqn:E; auto.
  apply NoDup_snoc; auto. now apply dict_get_None_not_In.
Qed.
End DictFacts.

(** ** The recorder: events for unknown request ids *)

Section RecorderFacts.
Context {num : Type} `{PyNumber num} `{PyRuntime num}.

Local Abbreviation Rec := (HarRecorder.t num).

Lemma set_pending_same (s : Rec) : set_pending (HarRecorder._pending s) s = s.
Proof. now destruct s. Qed.

(** C7.  A requestWillBeSentExtraInfo, responseReceivedExtraInfo,
    responseReceived, loadingFinished or loadingFailed event whose request
    id has no live pending entry is dropped: its handler returns, without
    an exception, and leaves the whole recorder as it was, so that no
    entry is appended, no body-fetch task is scheduled and the pending
    table is unchanged. *)
Theorem unknown_request_id_is_dropped (i : @Input num) (request_id : string) (s : Rec) :
  completes i = Some request_id ->
  dict_get request_id (HarRecorder._pending s) = None ->
  step i s = Returned s
  /\ HarRecorder._entries (state_of (step i s)) = HarRecorder._entries s
  /\ HarRecorder._body_tasks (state_of (step i s)) = HarRecorder._body_tasks s
  /\ HarRecorder._pending (state_of (step i s)) = HarRecorder._pending s.
Proof.
  intros Hi Hget.
  assert (Hstep : step i s = Returned s).
  { destruct i; simpl in Hi; inversion Hi; subst; clear Hi; simpl.
    - unfold _on_request_extra_info. now rewrite Hget.
    - unfold _on_response_received. now rewrite Hget.
    - unfold _on_response_extra_info. now rewrite Hget.
    - unfold _on_loading_finished. now rewrite Hget.
    - unfold _on_loading_failed. rewrite Hget.
      rewrite (dict_del_absent _ _ Hget). now rewrite set_pending_same. }
  rewrite Hstep. simpl. auto.
Qed.
End RecorderFacts.

(** ** The life of a recorder *)

Section LifeFacts.
Context {num : Type} `{PyNumber num} `{PyRuntime num}.

Local Abbreviation Rec := (HarRecorder.t num).

Lemma build_and_append_pending (now : string) (p : Pending.t num) (s : Rec) :
  HarRecorder._pending (state_of (build_and_append now p s)) = HarRecorder._pending s
  /\ HarRecorder._body_tasks (state_of (build_and_append now p s)) =
     HarRecorder._body_tasks s.
Proof. unfold build_and_append. destruct (_build_entry now p); simpl; auto. Qed.

(** Every handler keeps the keys of the pending table distinct. *)
Lemma step_keeps_keys_distinct (i : @Input num) (s : Rec) :
  NoDup (dict_keys (HarRecorder._pending s)) ->
  NoDup (dict_keys (HarRecorder._pending (state_of (step i s)))).
Proof.
  intros Hnd. destruct i; simpl.
  - unfold _on_request_will_be_sent.
    destruct (filtered_out s _); simpl; auto.
    destruct (RequestWillBeSentEvent.redirectResponse event) as [rr|]; simpl.
    + destruct (dict_mem _ _); simpl; [|now apply NoDup_keys_set].
      unfold _finalize_redirect_entry.
      destruct (dict_get _ _) as [p|]; simpl.
      * unfold build_and_append.
        destruct (_build_entry _ _); simpl.
        -- now apply NoDup_keys_set, NoDup_keys_del.
        -- now apply NoDup_keys_del.
      * now apply NoDup_keys_set, NoDup_keys_del.
    + now apply NoDup_keys_set.
  - unfold _on_request_extra_info.
    destruct (dict_get _ _); simpl; auto.
    destruct (dict_truthy _); simpl; auto. now apply NoDup_keys_set.
  - unfold _on_response_received.
    destruct (dict_get _ _); simpl; auto. now apply NoDup_keys_set.
  - unfold _on_response_extra_info.
    destruct (dict_get _ _); simpl; auto. now apply NoDup_keys_set.
  - exact Hnd.
  - unfold _on_loading_finished.
    destruct (dict_get _ _); simpl; auto. now apply NoDup_keys_set.
  - unfold _on_loading_failed.
    destruct (dict_get _ _); simpl.
    + rewrite (proj1 (build_and_append_pending _ _ _)). simpl.
      now apply NoDup_keys_del.
    + now apply NoDup_keys_del.
  - unfold _finalize_entry_start.
    destruct (nth_error _ _) as [[r|r p]|]; simpl; auto.
    destruct (dict_get _ _); simpl; now apply NoDup_keys_del.
  - unfold _finalize_entry_finish.
    destruct (nth_error _ _) as [[r|r p]|]; simpl; auto.
    now rewrite (proj1 (build_and_append_pending _ _ _)).
Qed.

Lemma run_keeps_keys_distinct (inputs : list (@Input num)) (s : Rec) :
  NoDup (dict_keys (HarRecorder._pending s)) ->
  NoDup (dict_keys (HarRecorder._pending (run inputs s))).
Proof.
  revert s. induction inputs as [|i inputs IH]; intros s Hnd; simpl; auto.
  apply IH. now apply step_keeps_keys_distinct.
Qed.

Lemma flush_loop_keeps_keys_distinct (clock : nat -> string) (keys : list string) :
  forall (k : nat) (s : Rec),
    NoDup (dict_keys (HarRecorder._pending s)) ->
    NoDup (dict_keys (HarRecorder._pending
                        (state_of (_flush_pending_loop clock k keys s)))).
Proof.
  induction keys as [|request_id keys IH]; intros k s Hnd; simpl; auto.
  destruct (dict_get request_id (HarRecorder._pending s)) as [p|]; simpl; auto.
  unfold build_and_append.
  destruct (_build_entry (clock k) (flush_pending p)); simpl.
  - apply IH. simpl. now apply NoDup_keys_del.
  - now apply NoDup_keys_del.
Qed.

Lemma gather_keeps_keys_distinct (fetch : string -> string * bool)
    (clock : nat -> string) (tasks : list (BodyTask num)) :
  forall (k : nat) (s : Rec),
    NoDup (dict_keys (HarRecorder._pending s)) ->
    NoDup (dict_keys (HarRecorder._pending (gather_body_tasks fetch clock k tasks s))).
Proof.
  induction tasks as [|[r|r p] tasks IH]; intros k s Hnd; simpl; auto.
  - destruct (dict_get r (HarRecorder._pending s)) as [p|].
    + destruct (fetch r) as [body b64]. apply IH.
      rewrite (proj1 (build_and_append_pending _ _ _)). simpl.
      now apply NoDup_keys_del.
    + apply IH. simpl. now apply NoDup_keys_del.
  - destruct (fetch r) as [body b64]. apply IH.
    now rewrite (proj1 (build_and_append_pending _ _ _)).
Qed.

Lemma stop_keeps_keys_distinct (fetch : string -> string * bool)
    (task_clock flush_clock : nat -> string) (s : Rec) :
  NoDup (dict_keys (HarRecorder._pending s)) ->
  NoDup (dict_keys (HarRecorder._pending
                      (state_of (stop fetch task_clock flush_clock s)))).
Proof.
  intros Hnd. unfold stop, _flush_pending.
  match goal with
  | |- context [_flush_pending_loop flush_clock 0 ?keys ?q] =>
      pose proof (flush_loop_keeps_keys_distinct flush_clock keys 0 q) as Hloop;
      destruct (_flush_pending_loop flush_clock 0 keys q) as [s'|ex s']
  end; simpl in *; apply Hloop; now apply gather_keeps_keys_distinct.
Qed.

(** The keys of the pending table are distinct in every state of a
    recorder. *)
Lemma reachable_keys_distinct (s : Rec) :
  reachable s -> NoDup (dict_keys (HarRecorder._pending s)).
Proof.
  induction 1 as [resource_types|i s Hs IH|fetch tc fc s Hs IH].
  - destruct resource_types as [[|r l]|]; constructor.
  - now apply step_keeps_keys_distinct.
  - now apply stop_keeps_keys_distinct.
Qed.

Lemma build_and_append_finalized (now : string) (p : Pending.t num) (s : Rec) :
  Forall finalized (HarRecorder._entries s) ->
  Forall finalized (HarRecorder._entries (state_of (build_and_append now p s))).
Proof.
  intros Hall. unfold build_and_append.
  destruct (_build_entry now p) as [e|ex] eqn:E; simpl; auto.
  apply Forall_app. split; auto. constructor; [|constructor]. now exists now, p.
Qed.

Lemma step_keeps_entries_finalized (i : @Input num) (s : Rec) :
  Forall finalized (HarRecorder._entries s) ->
  Forall finalized (HarRecorder._entries (state_of (step i s))).
Proof.
  intros Hall. destruct i; simpl.
  - unfold _on_request_will_be_sent.
    destruct (filtered_out s _); simpl; auto.
    destruct (RequestWillBeSentEvent.redirectResponse event) as [rr|]; simpl; auto.
    destruct (dict_mem _ _); simpl; auto.
    unfold _finalize_redirect_entry.
    destruct (dict_get _ _) as [p|]; simpl; auto.
    match goal with
    | |- context [build_and_append now ?q ?t] =>
        pose proof (@build_and_append_finalized now q t Hall) as Hb;
        destruct (build_and_append now q t)
    end; exact Hb.
  - unfold _on_request_extra_info.
    destruct (dict_get _ _); simpl; auto. destruct (dict_truthy _); simpl; auto.
  - unfold _on_response_received. destruct (dict_get _ _); simpl; auto.
  - unfold _on_response_extra_info. destruct (dict_get _ _); simpl; auto.
  - exact Hall.
  - unfold _on_loading_finished. destruct (dict_get _ _); simpl; auto.
  - unfold _on_loading_failed. destruct (dict_get _ _); simpl; auto.
    now apply build_and_append_finalized.
  - unfold _finalize_entry_start.
    destruct (nth_error _ _) as [[r|r p]|]; simpl; auto.
    destruct (dict_get _ _); simpl; auto.
  - unfold _finalize_entry_finish.
    destruct (nth_error _ _) as [[r|r p]|]; simpl; auto.
    now apply build_and_append_finalized.
Qed.

Lemma flush_loop_keeps_entries_finalized (clock : nat -> string) (keys : list string) :
  forall (k : nat) (s : Rec),
    Forall finalized (HarRecorder._entries s) ->
    Forall finalized (HarRecorder._entries
                        (state_of (_flush_pending_loop clock k keys s))).
Proof.
  induction keys as [|request_id keys IH]; intros k s Hall; simpl; auto.
  destruct (dict_get request_id (HarRecorder._pending s)) as [p|]; simpl; auto.
  match goal with
  | |- context [build_and_append (clock k) ?q ?t] =>
      pose proof (@build_and_append_finalized (clock k) q t Hall) as Hb;
      destruct (build_and_append (clock k) q t)
  end; simpl in *; auto.
Qed.

Lemma gather_keeps_entries_finalized (fetch : string -> string * bool)
    (clock : nat -> string) (tasks : list (BodyTask num)) :
  forall (k : nat) (s : Rec),
    Forall finalized (HarRecorder._entries s) ->
    Forall finalized (HarRecorder._entries (gather_body_tasks fetch clock k tasks s)).
Proof.
  induction tasks as [|[r|r p] tasks IH]; intros k s Hall; simpl; auto.
  - destruct (dict_get r (HarRecorder._pending s)) as [p|].
    + destruct (fetch r) as [body b64]. apply IH.
      now apply build_and_append_finalized.
    + now apply IH.
  - destruct (fetch r) as [body b64]. apply IH.
    now apply build_and_append_finalized.
Qed.

Lemma stop_keeps_entries_finalized (fetch : string -> string * bool)
    (task_clock flush_clock : nat -> string) (s : Rec) :
  Forall finalized (HarRecorder._entries s) ->
  Forall finalized (HarRecorder._entries
                      (state_of (stop fetch task_clock flush_clock s))).
Proof.
  intros Hall. unfold stop, _flush_pending.
  match goal with
  | |- context [_flush_pending_loop flush_clock 0 ?keys ?q] =>
      pose proof (flush_loop_keeps_entries_finalized flush_clock keys 0 q) as Hloop;
      destruct (_flush_pending_loop flush_clock 0 keys q) as [s'|ex s']
  end; simpl in *; apply Hloop; now apply gather_keeps_entries_finalized.
Qed.

(** Every entry that a recorder holds was returned by [_build_entry]. *)
Lemma reachable_entries_finalized (s : Rec) (e : HarEntry.t num) :
  reachable s -> In e (HarRecorder._entries s) -> finalized e.
Proof.
  intros Hs. revert e. apply Forall_forall.
  induction Hs as [resource_types|i s Hs IH|fetch tc fc s Hs IH].
  - constructor.
  - now apply step_keeps_entries_finalized.
  - now apply stop_keeps_entries_finalized.
Qed.
End LifeFacts.

(** ** The entry that [_build_entry] builds *)

Section BuildEntryFacts.
Context {num : Type} `{PyNumber num} `{PyRuntime num}.

Lemma build_entry_inv (now : string) (p : Pending.t num) (e : HarEntry.t num) :
  _build_entry now p = Ok e ->
  exists r,
    _build_har_response p (response_headers_of p)
      (_normalize_http_version (get_or (Pending.protocol p) "")) = Ok r
    /\ HarEntry.response e = r
    /\ HarEntry.request e =
         _build_har_request (get_or (Pending.url p) "") p (request_headers_of p)
           (_normalize_http_version (get_or (Pending.protocol p) "")) (Pending.post_data p)
    /\ HarEntry.timings e = _build_har_timings (Pending.timing p) (receive_ms_of p)
    /\ HarEntry.time e = num_round (total_time_of (HarEntry.timings e)) 2.
Proof.
  unfold _build_entry, response_headers_of, request_headers_of.
  destruct (_build_har_response _ _ _) as [r|ex] eqn:Er; simpl; [|discriminate].
  intros He. inversion He; subst; clear He. simpl. eauto 10.
Qed.



Lemma sum_from_nonneg `{!PyNumberLaws num} (l : list num) (a : num) :
  fold_left num_add (filter (fun v => num_lt (num_of_Z 0) v) l) a =
  fold_left num_add (filter (fun v => num_le (num_of_Z 0) v) l) a.
Proof.
  revert a. induction l as [|v l IH]; intros a; simpl; auto.
  destruct (num_lt (num_of_Z 0) v) eqn:Elt.
  - rewrite (num_lt_le_0 _ Elt). simpl. apply IH.
  - destruct (num_le (num_of_Z 0) v) eqn:Ele; simpl; auto.
    rewrite (num_add_zero a _ Ele Elt). apply IH.
Qed.

(** C3.  The time of every entry that a recorder holds is the sum, rounded
    to two decimals, of those of its blocked, dns, connect, send, wait and
    receive phases that are at least 0; the ssl phase is not part of the
    sum: with the other phases fixed, another ssl phase gives the same sum,
    and another sslStart and sslEnd in the CDP timing of the request gives
    an entry with the same time. *)
Theorem entry_time_excludes_ssl `{!PyNumberLaws num} :
  (forall (s : HarRecorder.t num) (e : HarEntry.t num),
      reachable s -> In e (HarRecorder._entries s) ->
      HarEntry.time e =
        num_round
          (num_sum (filter (fun v => num_le (num_of_Z 0) v)
                           (phases_without_ssl (HarEntry.timings e)))) 2)
  /\ (forall (now : string) (p : Pending.t num) (e : HarEntry.t num),
      _build_entry now p = Ok e ->
      HarEntry.time e =
        num_round
          (num_sum (filter (fun v => num_le (num_of_Z 0) v)
                           (phases_without_ssl (HarEntry.timings e)))) 2
      /\ (forall ssl : num,
            num_sum (filter (fun v => num_le (num_of_Z 0) v)
                            (phases_without_ssl (with_ssl ssl (HarEntry.timings e)))) =
            num_sum (filter (fun v => num_le (num_of_Z 0) v)
                            (phases_without_ssl (HarEntry.timings e))))
      /\ (forall (t : ResourceTiming.t num) (ssl_s ssl_e : option num)
                 (e' : HarEntry.t num),
            Pending.timing p = Some t ->
            _build_entry now (with_timing (Some (with_ssl_start_end ssl_s ssl_e t)) p)
              = Ok e' ->
            HarEntry.time e' = HarEntry.time e
            /\ phases_without_ssl (HarEntry.timings e') =
               phases_without_ssl (HarEntry.timings e))).
Proof.
  assert (Htime_of : forall (now : string) (p : Pending.t num) (e : HarEntry.t num),
             _build_entry now p = Ok e ->
             HarEntry.time e =
               num_round
                 (num_sum (filter (fun v => num_le (num_of_Z 0) v)
                                  (phases_without_ssl (HarEntry.timings e)))) 2).
  { intros now p e He.
    destruct (build_entry_inv _ _ He) as (r & _ & _ & _ & _ & Htime).
    rewrite Htime. unfold total_time_of, num_sum, phases_without_ssl.
    now rewrite sum_from_nonneg. }
  split.
  - intros s e Hs Hin.
    destruct (reachable_entries_finalized e Hs Hin) as (now & p & He).
    now apply Htime_of with now p.
  - intros now p e He.
    destruct (build_entry_inv _ _ He) as (r & _ & _ & _ & Ht & Htime).
    split; [|split].
    + now apply Htime_of with now p.
    + intros ssl. reflexivity.
    + intros t ssl_s ssl_e e' Hp He'.
      destruct (build_entry_inv _ _ He') as (r' & _ & _ & _ & Ht' & Htime').
      assert (Hph : phases_without_ssl (HarEntry.timings e') =
                    phases_without_ssl (HarEntry.timings e)).
      { rewrite Ht, Ht', Hp. reflexivity. }
      split; auto.
      rewrite Htime, Htime'. unfold total_time_of.
      fold (phases_without_ssl (HarEntry.timings e')).
      fold (phases_without_ssl (HarEntry.timings e)).
      now rewrite Hph.
Qed.

(** C10.  In every entry that a recorder holds, the body size of the
    request is the number of bytes of the UTF-8 encoding of its postData
    text, which is not empty, when it has a postData, and 0 when it has
    none.  An entry is built with a postData exactly when the postData text
    of the request is not empty: it then holds that text with, as mimeType,
    the Content-Type (or else content-type) header of the request. *)
Theorem request_body_size_and_post_data :
  (forall (s : HarRecorder.t num) (e : HarEntry.t num),
      reachable s -> In e (HarRecorder._entries s) ->
      match HarRequest.postData (HarEntry.request e) with
      | Some post_data =>
          str_truthy (HarPostData.text post_data) = true
          /\ HarRequest.bodySize (HarEntry.request e) =
             utf8_len (HarPostData.text post_data)
      | None => HarRequest.bodySize (HarEntry.request e) = 0
      end)
  /\ (forall (now : string) (p : Pending.t num) (e : HarEntry.t num),
      _build_entry now p = Ok e ->
      match Pending.post_data p with
      | Some (String c text') =>
          let text := String c text' in
          HarRequest.bodySize (HarEntry.request e) = utf8_len text
          /\ HarRequest.postData (HarEntry.request e) =
               Some {| HarPostData.mimeType :=
                         get_or (dict_get "Content-Type" (request_headers_of p))
                                (get_or (dict_get "content-type" (request_headers_of p)) "");
                       HarPostData.text := text |}
      | _ =>
          HarRequest.bodySize (HarEntry.request e) = 0
          /\ HarRequest.postData (HarEntry.request e) = None
      end).
Proof.
  assert (Hbuilt : forall (now : string) (p : Pending.t num) (e : HarEntry.t num),
             _build_entry now p = Ok e ->
             match Pending.post_data p with
             | Some (String c text') =>
                 let text := String c text' in
                 HarRequest.bodySize (HarEntry.request e) = utf8_len text
                 /\ HarRequest.postData (HarEntry.request e) =
                      Some {| HarPostData.mimeType :=
                                get_or (dict_get "Content-Type" (request_headers_of p))
                                       (get_or (dict_get "content-type"
                                                         (request_headers_of p)) "");
                              HarPostData.text := text |}
             | _ =>
                 HarRequest.bodySize (HarEntry.request e) = 0
                 /\ HarRequest.postData (HarEntry.request e) = None
             end).
  { intros now p e He.
    destruct (build_entry_inv _ _ He) as (r & _ & _ & Hreq & _).
    rewrite Hreq. unfold _build_har_request; simpl.
    destruct (Pending.post_data p) as [[|c text']|]; simpl; auto. }
  split; [|exact Hbuilt].
  intros s e Hs Hin.
  destruct (reachable_entries_finalized e Hs Hin) as (now & p & He).
  specialize (Hbuilt now p e He).
  destruct (Pending.post_data p) as [[|c text']|]; simpl in Hbuilt;
    destruct Hbuilt as (Hsize & Hpost); rewrite Hpost; simpl; auto.
Qed.
End BuildEntryFacts.

(** ** Timings *)

Section TimingFacts.
Context {num : Type} `{PyNumber num} `{PyRuntime num}.

Lemma phase_unavailable (s e : option num) :
  available s e = false ->
  _phase (get_or s (num_of_Z (-1))) (get_or e (num_of_Z (-1))) = num_of_Z (-1).
Proof. unfold available, _phase. now intros ->. Qed.

Lemma default_phase_is_zero `{!PyNumberLaws num} :
  num_round (num_max (num_sub (num_of_Z 0) (num_of_Z 0)) (num_of_Z 0)) 3 = num_of_Z 0.
Proof.
  rewrite num_sub_0_0. unfold num_max. rewrite num_lt_0_0. apply num_round_0.
Qed.

(** C9, as the code has it.  Without a CDP timing, blocked, dns, connect
    and ssl are -1 and send and wait are 0.  With one, each of dns, connect
    and ssl is -1 when its start and end are not both at least 0, whereas
    blocked is never -1 for lack of a pair: it is the start of the first
    phase that has one (dns, else connect, else send), floored at 0 and
    rounded; send and wait are 0 when their keys are missing.  receive is 0
    without a measured gap and, in an entry, is the gap between the
    responseReceived and loadingFinished timestamps in milliseconds,
    rounded to 3 decimals, when both are there and the second is the
    later one, whatever the timing headers say; otherwise it is 0. *)
Theorem timings_when_unavailable `{!PyNumberLaws num} :
  (forall receive_ms : option num,
      let t := _build_har_timings None receive_ms in
      HarTimings.blocked t = num_of_Z (-1) /\ HarTimings.dns t = num_of_Z (-1)
      /\ HarTimings.connect t = num_of_Z (-1) /\ HarTimings.ssl t = num_of_Z (-1)
      /\ HarTimings.send t = num_of_Z 0 /\ HarTimings.wait t = num_of_Z 0)
  /\ (forall (timing : ResourceTiming.t num) (receive_ms : option num),
      let t := _build_har_timings (Some timing) receive_ms in
      (available (ResourceTiming.dnsStart timing) (ResourceTiming.dnsEnd timing) = false ->
       HarTimings.dns t = num_of_Z (-1))
      /\ (available (ResourceTiming.connectStart timing)
                    (ResourceTiming.connectEnd timing) = false ->
          HarTimings.connect t = num_of_Z (-1))
      /\ (available (ResourceTiming.sslStart timing) (ResourceTiming.sslEnd timing) = false ->
          HarTimings.ssl t = num_of_Z (-1))
      /\ HarTimings.blocked t = num_round (num_max (first_start timing) (num_of_Z 0)) 3
      /\ (ResourceTiming.sendStart timing = None -> ResourceTiming.sendEnd timing = None ->
          HarTimings.send t = num_of_Z 0)
      /\ (ResourceTiming.sendEnd timing = None ->
          ResourceTiming.receiveHeadersStart timing = None ->
          HarTimings.wait t = num_of_Z 0))
  /\ (forall (timing : option (ResourceTiming.t num)) (receive_ms : option num),
      HarTimings.receive (_build_har_timings timing receive_ms) =
      match receive_ms with Some r => num_round r 3 | None => num_of_Z 0 end)
  /\ (forall (now : string) (p : Pending.t num) (e : HarEntry.t num),
      _build_entry now p = Ok e ->
      let response_ts := get_or (Pending.response_timestamp p) (num_of_Z 0) in
      let finished_ts := get_or (Pending.finished_timestamp p) (num_of_Z 0) in
      HarTimings.receive (HarEntry.timings e) =
      if num_truthy response_ts && num_truthy finished_ts && num_lt response_ts finished_ts
      then num_round (num_mul (num_sub finished_ts response_ts) (num_of_Z 1000)) 3
      else num_of_Z 0).
Proof.
  split; [|split; [|split]].
  - intros receive_ms. simpl. auto 10.
  - intros timing receive_ms. simpl.
    split; [apply phase_unavailable|].
    split; [apply phase_unavailable|].
    split; [apply phase_unavailable|].
    split; [reflexivity|].
    split.
    + intros -> ->. simpl. apply default_phase_is_zero.
    + intros -> ->. simpl. apply default_phase_is_zero.
  - intros [timing|] receive_ms; reflexivity.
  - intros now p e He.
    destruct (build_entry_inv _ _ He) as (r & _ & _ & _ & Ht & _).
    rewrite Ht. unfold receive_ms_of.
    destruct (Pending.timing p);
      destruct (num_truthy _ && num_truthy _ && num_lt _ _); reflexivity.
Qed.
End TimingFacts.

(** ** Body sizes *)

Section BodySizeFacts.
Context {num : Type} `{PyNumber num} `{PyRuntime num}.

Local Abbreviation Rec := (HarRecorder.t num).









End BodySizeFacts.

(** ** The pending table *)

Section PendingFacts.
Context {num : Type} `{PyNumber num} `{PyRuntime num}.

Local Abbreviation Rec := (HarRecorder.t num).


End PendingFacts.

(** ** [stop] *)

Section StopFacts.
Context {num : Type} `{PyNumber num} `{PyRuntime num}.

Local Abbreviation Rec := (HarRecorder.t num).


Lemma dict_del_head {V : Type} (k : string) (v : V) (d : dict V) :
  ~ In k (dict_keys d) -> dict_del k ((k, v) :: d) = d.
Proof.
  intros Hn. unfold dict_del. simpl. rewrite String.eqb_refl. simpl.
  apply dict_del_absent. now apply dict_get_None_not_In.
Qed.


(** The loop of [_flush_pending] over a table with distinct keys: it
    returns with the table empty and one entry per binding, in order, or
    it raises the exception of an entry that cannot be built. *)
Lemma flush_loop_spec (clock : nat -> string) (d : dict (Pending.t num)) :
  NoDup (dict_keys d) ->
  forall (k : nat) (s : Rec),
    HarRecorder._pending s = d ->
    match _flush_pending_loop clock k (dict_keys d) s with
    | Returned s' =>
        HarRecorder._pending s' = []
        /\ HarRecorder._body_tasks s' = HarRecorder._body_tasks s
        /\ exists flushed : list (HarEntry.t num),
             HarRecorder._entries s' = HarRecorder._entries s ++ flushed
             /\ Forall2 flushed_as d flushed
    | Raised ex _ =>
        exists (kp : string * Pending.t num) (now : string),
          In kp d /\ _build_entry now (flush_pending (snd kp)) = Raise ex
    end.
Proof.
  induction d as [|[k1 p1] d IH]; intros Hnd k s Hs; simpl.
  - repeat split; auto. exists []. rewrite app_nil_r. auto.
  - simpl in Hnd. inversion Hnd as [|? ? Hnotin Hnd']; subst.
    cbn [dict_keys map fst _flush_pending_loop].
    rewrite Hs. cbn [dict_get]. rewrite String.eqb_refl.
    rewrite (dict_del_head _ _ _ Hnotin).
    unfold build_and_append.
    destruct (_build_entry (clock k) (flush_pending p1)) as [e|ex] eqn:Eb.
    + specialize (IH Hnd' (S k)
                    (set_entries (HarRecorder._entries (set_pending d s) ++ [e])
                                 (set_pending d s)) eq_refl).
      destruct (_flush_pending_loop _ _ _ _) as [s'|ex s'].
      * destruct IH as (Hp & Ht & flushed & He & Hf).
        repeat split; auto.
        exists (e :: flushed). split.
        -- rewrite He. simpl. now rewrite <- app_assoc.
        -- constructor; [now exists (clock k) | exact Hf].
      * destruct IH as (kp & now & Hin & Hr).
        exists kp, now. split; [now right | exact Hr].
    + exists (k1, p1), (clock k). split; [now left | exact Eb].
Qed.



End StopFacts.

(** ** [sorted] and the export of [HarCapture] *)

Lemma string_leb_refl (a : string) : String.leb a a = true.
Proof. now destruct (String.leb_total a a). Qed.

Lemma string_leb_trans (a b c : string) :
  String.leb a b = true -> String.leb b c = true -> String.leb a c = true.
Proof.
  unfold String.leb. revert b c.
  induction a as [|x a IH]; intros [|y b] [|z c]; simpl; auto; try discriminate.
  unfold Ascii.compare.
  destruct (N.compare_spec (N_of_ascii x) (N_of_ascii y)) as [Hxy|Hxy|Hxy];
    destruct (N.compare_spec (N_of_ascii y) (N_of_ascii z)) as [Hyz|Hyz|Hyz];
    destruct (N.compare_spec (N_of_ascii x) (N_of_ascii z)) as [Hxz|Hxz|Hxz];
    try discriminate; auto; try lia.
  apply IH.
Qed.

Section SortedFacts.
Variable A : Type.
Variable key : A -> string.

Local Abbreviation le := (fun a b : A => String.leb (key a) (key b) = true).
Local Abbreviation insert := (sorted_insert key).

Lemma insert_perm (a : A) (l : list A) : Permutation (insert a l) (a :: l).
Proof.
  induction l as [|x l IH]; simpl; auto.
  destruct (String.leb (key a) (key x)); auto.
  rewrite IH. apply perm_swap.
Qed.

Lemma sorted_perm (l : list A) : Permutation (sorted key l) l.
Proof.
  induction l as [|a l IH]; simpl; auto.
  rewrite insert_perm. now constructor.
Qed.

Lemma insert_strongly_sorted (a : A) (l : list A) :
  StronglySorted le l -> StronglySorted le (insert a l).
Proof.
  induction 1 as [|x l Hs IH Hx]; simpl.
  - repeat constructor.
  - destruct (String.leb (key a) (key x)) eqn:E.
    + constructor; [now constructor|].
      constructor; auto.
      rewrite Forall_forall in *. intros y Hy.
      eapply string_leb_trans; eauto.
    + constructor; auto.
      rewrite Forall_forall in *. intros y Hy.
      apply (Permutation_in _ (insert_perm a l)) in Hy.
      destruct Hy as [<- | Hy]; auto.
      destruct (String.leb_total (key a) (key x)); congruence.
Qed.

Lemma sorted_strongly_sorted (l : list A) : StronglySorted le (sorted key l).
Proof.
  induction l as [|a l IH]; simpl; [constructor|].
  now apply insert_strongly_sorted.
Qed.

(** Two elements with different keys are inserted in either order. *)
Lemma insert_comm (a b : A) (l : list A) :
  key a <> key b -> insert a (insert b l) = insert b (insert a l).
Proof.
  intros Hne.
  assert (Hab : String.leb (key a) (key b) = negb (String.leb (key b) (key a))).
  { destruct (String.leb (key a) (key b)) eqn:E1,
             (String.leb (key b) (key a)) eqn:E2; auto.
    - exfalso. apply Hne. now apply String.leb_antisym.
    - destruct (String.leb_total (key a) (key b)); congruence. }
  induction l as [|x l IH]; simpl.
  - rewrite Hab. now destruct (String.leb (key b) (key a)).
  - destruct (String.leb (key b) (key x)) eqn:Eb,
             (String.leb (key a) (key x)) eqn:Ea; simpl;
      rewrite ?Ea, ?Eb, ?Hab.
    + now destruct (String.leb (key b) (key a)).
    + destruct (String.leb (key b) (key a)) eqn:Eba; simpl; auto.
      assert (String.leb (key a) (key x) = true); [|congruence].
      apply string_leb_trans with (key b); [exact Hab | exact Eb].
    + destruct (String.leb (key b) (key a)) eqn:Eba; simpl; auto.
      assert (String.leb (key b) (key x) = true); [|congruence].
      apply string_leb_trans with (key a); [exact Eba | exact Ea].
    + now rewrite IH.
Qed.

(** Insertion order does not matter as long as elements with the same key
    are the same element. *)
Lemma sorted_permutation_invariant (l l' : list A) :
  Permutation l l' ->
  (forall a b : A, In a l -> In b l -> key a = key b -> a = b) ->
  sorted key l' = sorted key l.
Proof.
  induction 1 as [|x l l' Hp IH|x y l|l l' l'' Hp1 IH1 Hp2 IH2]; intros Hinj; simpl.
  - reflexivity.
  - rewrite IH; auto. intros a b Ha Hb. apply Hinj; now right.
  - destruct (string_dec (key x) (key y)) as [Heq|Hne].
    + assert (x = y) by (apply Hinj; simpl; auto). now subst.
    + now apply insert_comm.
  - rewrite IH2, IH1; auto.
    intros a b Ha Hb.
    apply Hinj; apply (Permutation_in _ (Permutation_sym Hp1)); assumption.
Qed.

(** [sorted] is stable: the elements of one key keep their order. *)
Lemma insert_filter_key (k : string) (a : A) (l : list A) :
  filter (fun x => String.eqb (key x) k) (insert a l) =
  filter (fun x => String.eqb (key x) k) (a :: l).
Proof.
  induction l as [|x l IH]; simpl; auto.
  destruct (String.leb (key a) (key x)) eqn:E; simpl; auto.
  rewrite IH. simpl.
  destruct (String.eqb (key a) k) eqn:Ea; auto.
  destruct (String.eqb (key x) k) eqn:Ex; auto.
  apply String.eqb_eq in Ea, Ex. subst k.
  rewrite <- Ex, string_leb_refl in E. discriminate.
Qed.

Lemma sorted_stable (k : string) (l : list A) :
  filter (fun x => String.eqb (key x) k) (sorted key l) =
  filter (fun x => String.eqb (key x) k) l.
Proof.
  induction l as [|a l IH]; simpl; auto.
  rewrite insert_filter_key. simpl. now rewrite IH.
Qed.

Lemma sorted_map_key (l : list A) :
  map key (sorted key l) = sorted (fun k : string => k) (map key l).
Proof.
  induction l as [|a l IH]; simpl; auto.
  rewrite <- IH. generalize (sorted key l). intros m.
  induction m as [|x m IHm]; simpl; auto.
  destruct (String.leb (key a) (key x)); simpl; auto. now rewrite IHm.
Qed.
End SortedFacts.

Section HarCaptureFacts.
Context {num : Type}.
Variable version : string.
Variable json_dump : Har.t num -> string.

Local Abbreviation started := (@HarEntry.startedDateTime num).

(** C8, as the code has it.  Every read of [entries], and the document
    that [to_dict] builds and [save] writes, holds the recorded entries
    sorted ascending by startedDateTime, whatever the order in which they
    were appended.  The sort is stable: entries with the same
    startedDateTime keep the order in which they were appended.  So under
    a permutation of the insertion order the startedDateTime values come
    out the same, and the entries themselves come out the same when
    entries with equal startedDateTime are equal. *)
Theorem export_sorted_by_started_date_time (r : HarRecorder.t num) :
  HarLog.entries (Har.log (HarCapture.to_dict version r)) = HarCapture.entries r
  /\ (forall (path : string) (files : dict string),
         dict_get path (HarCapture.save version json_dump r path files) =
         Some (json_dump (HarCapture.to_dict version r)))
  /\ StronglySorted
       (fun a b => String.leb (started a) (started b) = true) (HarCapture.entries r)
  /\ Permutation (HarCapture.entries r) (HarRecorder._entries r)
  /\ (forall k : string,
         filter (fun e => String.eqb (started e) k) (HarCapture.entries r) =
         filter (fun e => String.eqb (started e) k) (HarRecorder._entries r))
  /\ (forall r' : HarRecorder.t num,
         Permutation (HarRecorder._entries r) (HarRecorder._entries r') ->
         map started (HarCapture.entries r') = map started (HarCapture.entries r)
         /\ ((forall a b : HarEntry.t num,
                 In a (HarRecorder._entries r) -> In b (HarRecorder._entries r) ->
                 started a = started b -> a = b) ->
             HarCapture.entries r' = HarCapture.entries r)).
Proof.
  unfold HarCapture.entries, HarCapture.to_dict, HarCapture.save. simpl.
  split; [reflexivity|].
  split; [intros; apply dict_get_set_same|].
  split; [apply sorted_strongly_sorted|].
  split; [apply sorted_perm|].
  split; [intros k; apply sorted_stable|].
  intros r' Hp. split.
  - rewrite !sorted_map_key.
    apply sorted_permutation_invariant; [now apply Permutation_map | auto].
  - intros Hinj. now apply sorted_permutation_invariant.
Qed.
End HarCaptureFacts.

(** ** Command routing *)

Section RoutingFacts.
Import FindElementsMixin.
Variable ConnectionHandler : Type.
Variable Params : Type.

Local Abbreviation Ctx := (Context ConnectionHandler).
Local Abbreviation Cmd := (Command Params).

Lemma stamp_spec (session_id : option string) (command : Cmd) :
  match session_id with
  | Some (String c sid) =>
      sessionId (stamp session_id command) = Some (String c sid)
      /\ method (stamp session_id command) = method command
      /\ params (stamp session_id command) = params command
  | _ => stamp session_id command = command
  end.
Proof. destruct session_id as [[|c sid]|]; simpl; auto. Qed.

(** C5, as the code has it.  Each command is routed by what the context
    holds when it is sent: through the session handler and session id of
    the inherited IFrameContext when the context has one and that one has a
    session handler; else through the context's own routing handler and
    routing session id when a routing handler is set; else through the
    owning connection with no session id.  The command goes to that
    handler, and carries the resolved session id as its sessionId whenever
    that id is not empty; otherwise it is sent as it is. *)
Theorem routing_resolution (self : Ctx) (command : Cmd) :
  (forall (handler : ConnectionHandler) (session_id : option string),
      inherited_route self = Some (handler, session_id) ->
      _resolve_routing self = (handler, session_id))
  /\ (forall routing_handler : ConnectionHandler,
         inherited_route self = None ->
         _routing_session_handler self = Some routing_handler ->
         _resolve_routing self = (routing_handler, _routing_session_id self))
  /\ (inherited_route self = None ->
      _routing_session_handler self = None ->
      _resolve_routing self = (_connection_handler self, None))
  /\ handler (_execute_command self command) = fst (_resolve_routing self)
  /\ timeout (_execute_command self command) = 60
  /\ match snd (_resolve_routing self) with
     | Some (String c sid) =>
         sessionId (sent (_execute_command self command)) = Some (String c sid)
         /\ method (sent (_execute_command self command)) = method command
         /\ params (sent (_execute_command self command)) = params command
     | _ => sent (_execute_command self command) = command
     end
  /\ (forall self' : Ctx,
         _iframe_context self' = _iframe_context self ->
         _routing_session_handler self' = _routing_session_handler self ->
         _routing_session_id self' = _routing_session_id self ->
         _connection_handler self' = _connection_handler self ->
         _execute_command self' command = _execute_command self command).
Proof.
  unfold _execute_command, _resolve_routing, inherited_route.
  repeat split.
  - intros handler session_id Hr. now rewrite Hr.
  - intros routing_handler Hr Hh. now rewrite Hr, Hh.
  - intros Hr Hh. now rewrite Hr, Hh.
  - now destruct (match _iframe_context self with Some _ => _ | None => _ end)
      as [[h sid]|]; [|destruct (_routing_session_handler self)].
  - now destruct (match _iframe_context self with Some _ => _ | None => _ end)
      as [[h sid]|]; [|destruct (_routing_session_handler self)].
  - destruct (match _iframe_context self with Some _ => _ | None => _ end)
      as [[h sid]|]; [|destruct (_routing_session_handler self)]; simpl;
      try apply stamp_spec; reflexivity.
  - intros self' H1 H2 H3 H4. now rewrite H1, H2, H3, H4.
Qed.
End RoutingFacts.

(** ** The walk across iframes *)

Section WalkFacts.
Import FindElementsMixin.
Variable ConnectionHandler : Type.

Local Abbreviation Ctx := (Context ConnectionHandler).
Local Abbreviation Pg := (Page ConnectionHandler).

(** The loop against the walk of the specification: the searches of the
    hops are sent one by one, and the search of the last segment only
    after every hop has led into an iframe. *)
Lemma attempt_loop_spec (page : Pg) (last : By * string) (find_all : bool)
    (hops : list (By * string)) :
  forall (context : Ctx) (sent : list (Search ConnectionHandler)),
  exists extra : list (Search ConnectionHandler),
    Forall (@is_find_element ConnectionHandler) extra
    /\ match walk_iframes page context hops with
       | None =>
           attempt_loop page context (hops ++ [last]) find_all sent =
             (NoneFound ConnectionHandler, sent ++ extra)
           /\ (List.length extra <= List.length hops)%nat
       | Some reached =>
           attempt_loop page context (hops ++ [last]) find_all sent =
             (final_search page reached last find_all,
              sent ++ extra ++ [final_query reached last find_all])
           /\ List.length extra = List.length hops
       end.
Proof.
  induction hops as [|[by_ selector] hops IH]; intros context sent.
  - exists []. split; [constructor|]. simpl.
    destruct last as [by_ selector]. unfold final_search, final_query. simpl.
    destruct find_all; auto.
  - assert (Hrest : exists seg rest, hops ++ [last] = seg :: rest).
    { destruct hops; simpl; eauto. }
    destruct Hrest as (seg & rest & Hrest).
    cbn [app attempt_loop walk_iframes]. rewrite Hrest. rewrite <- Hrest.
    destruct (_find_element page context by_ selector) as [element|].
    + destruct (is_iframe element).
      * destruct (IH element (sent ++ [FindElement context by_ selector]))
          as (extra & Hall & Hloop).
        exists (FindElement context by_ selector :: extra).
        split; [constructor; simpl; auto|].
        destruct (walk_iframes page element hops).
        -- destruct Hloop as (Hl & Hn). rewrite Hl, <- app_assoc. simpl. auto.
        -- destruct Hloop as (Hl & Hn). rewrite Hl, <- app_assoc. simpl.
           split; auto. lia.
      * exists [FindElement context by_ selector].
        split; [repeat constructor|]. split; auto. simpl. lia.
    + exists [FindElement context by_ selector].
      split; [repeat constructor|]. split; auto. simpl. lia.
Qed.

Lemma not_found_is_no_result (find_all : bool) :
  is_result (if find_all then Many [] else NoneFound ConnectionHandler) = false.
Proof. now destruct find_all. Qed.

(** C6.  In a walk over the segments [hops ++ [last]], when some segment
    before the last finds no element or finds one that is not an iframe,
    the attempt returns [None] having sent searches for hops only, at most
    one per hop and none for the last segment; the retry loop around it
    then ends, as soon as it ends, with not-found and never with an
    element: [None], or the empty list when all elements were requested,
    or the exception asked for.  It does end: at the first turn when there
    is no timeout, and once the clock has passed the timeout otherwise.
    Only when every hop leads into an iframe is the search of the last
    segment sent, once, in the iframe reached, for one element or for all
    as requested, and its result is the result of the attempt. *)
Theorem iframe_walk_all_or_nothing
    (page : Pg) (self : Ctx) (hops : list (By * string)) (last : By * string)
    (find_all : bool) :
  let attempt := _attempt_find_across_iframes page self (hops ++ [last]) find_all in
  (walk_iframes page self hops = None ->
     fst attempt = NoneFound ConnectionHandler
     /\ Forall (@is_find_element ConnectionHandler) (snd attempt)
     /\ (List.length (snd attempt) <= List.length hops)%nat)
  /\ (forall reached : Ctx,
         walk_iframes page self hops = Some reached ->
         fst attempt = final_search page reached last find_all
         /\ exists before : list (Search ConnectionHandler),
              snd attempt = before ++ [final_query reached last find_all]
              /\ Forall (@is_find_element ConnectionHandler) before
              /\ List.length before = List.length hops)
  /\ (forall (num : Type) (N : PyNumber num) (timeout start_time : num)
             (raise_exc : bool) (turns : list (Pg * num)),
         Forall (fun turn => walk_iframes (fst turn) self hops = None) turns ->
         let outcome :=
           _find_across_iframes self (hops ++ [last]) timeout find_all raise_exc
                                start_time turns in
         (forall r : Result (Found ConnectionHandler),
             outcome = Some r -> r = not_found ConnectionHandler timeout find_all raise_exc)
         /\ (turns <> [] -> num_truthy timeout = false -> outcome <> None)
         /\ (Exists (fun turn => num_lt timeout (num_sub (snd turn) start_time) = true)
                    turns ->
             outcome <> None)).
Proof.
  intros attempt.
  assert (Hfail : forall pg : Pg,
             walk_iframes pg self hops = None ->
             fst (_attempt_find_across_iframes pg self (hops ++ [last]) find_all) =
               NoneFound ConnectionHandler
             /\ Forall (@is_find_element ConnectionHandler)
                  (snd (_attempt_find_across_iframes pg self (hops ++ [last]) find_all))
             /\ (List.length
                   (snd (_attempt_find_across_iframes pg self (hops ++ [last]) find_all))
                 <= List.length hops)%nat).
  { intros pg Hw. unfold _attempt_find_across_iframes.
    destruct (attempt_loop_spec pg last find_all hops self []) as (extra & Hall & Hloop).
    rewrite Hw in Hloop. destruct Hloop as (Hl & Hn). rewrite Hl. simpl. auto. }
  split; [|split].
  - apply Hfail.
  - intros reached Hw. subst attempt. unfold _attempt_find_across_iframes.
    destruct (attempt_loop_spec page last find_all hops self []) as (extra & Hall & Hloop).
    rewrite Hw in Hloop. destruct Hloop as (Hl & Hn). rewrite Hl. simpl.
    split; auto. exists extra. auto.
  - intros num N timeout start_time raise_exc turns Hturns outcome. subst outcome.
    unfold _find_across_iframes.
    induction Hturns as [|[pg time] turns Hw Hrest IH]; simpl.
    + split; [discriminate|]. split; [congruence|].
      intros Hex. inversion Hex.
    + simpl in Hw. destruct (Hfail pg Hw) as (Hnone & _). rewrite Hnone. simpl.
      unfold not_found in *.
      destruct (num_truthy timeout) eqn:Etimeout; simpl.
      * destruct (num_lt timeout (num_sub time start_time)) eqn:Elate.
        -- split; [intros r Hr; now inversion Hr|].
           split; discriminate.
        -- destruct IH as (IH1 & IH2 & IH3).
           split; [exact IH1|]. split; [discriminate|].
           intros Hex. inversion Hex as [? ? Hhere|? ? Hlater]; subst.
           ++ simpl in Hhere. congruence.
           ++ now apply IH3.
      * split; [intros r Hr; now inversion Hr|].
        split; discriminate.
Qed.
End WalkFacts.

(** ** Runs of a recorder *)

Section ReachFacts.
Context {num : Type} `{PyNumber num} `{PyRuntime num}.

Lemma run_reachable (inputs : list (@Input num)) (s : HarRecorder.t num) :
  reachable s -> reachable (run inputs s).
Proof.
  revert s. unfold run. induction inputs as [|i inputs IH]; intros s Hs; simpl; auto.
  apply IH. now constructor.
Qed.
End ReachFacts.

(** ** More on dictionaries *)

Section MoreDictFacts.
Context {V : Type}.
Implicit Types (d : dict V) (k : string) (v : V).

(** Writing a key twice keeps the last value. *)
Lemma dict_set_set k v1 v2 d : dict_set k v2 (dict_set k v1 d) = dict_set k v2 d.
Proof.
  induction d as [|[k' v'] d IH]; simpl.
  - now rewrite String.eqb_refl.
  - destruct (String.eqb k k') eqn:E; simpl; rewrite E; auto. now rewrite IH.
Qed.

(** Writing back the value a key has changes nothing. *)
Lemma dict_set_same_value k v d : dict_get k d = Some v -> dict_set k v d = d.
Proof.
  induction d as [|[k' v'] d IH]; simpl; [discriminate|].
  destruct (String.eqb k k') eqn:E.
  - intros Hv. inversion Hv. reflexivity.
  - intros Hv. now rewrite IH.
Qed.

(** Writes to two keys that are both there are made in place, in either
    order. *)
Lemma dict_set_comm k1 k2 v1 v2 d :
  k1 <> k2 -> dict_mem k1 d = true -> dict_mem k2 d = true ->
  dict_set k1 v1 (dict_set k2 v2 d) = dict_set k2 v2 (dict_set k1 v1 d).
Proof.
  unfold dict_mem. intros Hne.
  induction d as [|[k' v'] d IH]; simpl; [discriminate|].
  destruct (String.eqb k1 k') eqn:E1; destruct (String.eqb k2 k') eqn:E2; simpl;
    rewrite ?E1, ?E2; auto.
  - apply String.eqb_eq in E1, E2. congruence.
  - intros H1 H2. now rewrite IH.
Qed.

Lemma dict_set_length k v d :
  List.length (dict_set k v d) =
  if dict_mem k d then List.length d else S (List.length d).
Proof.
  unfold dict_mem. induction d as [|[k' v'] d IH]; simpl; auto.
  destruct (String.eqb k k') eqn:E; simpl; auto.
  rewrite IH. now destruct (dict_get k d).
Qed.

Lemma dict_del_length k d : (List.length (dict_del k d) <= List.length d)%nat.
Proof. apply filter_length_le. Qed.

(** Popping a key that is there makes the dictionary shorter. *)
Lemma dict_del_length_present k v d :
  dict_get k d = Some v -> (S (List.length (dict_del k d)) <= List.length d)%nat.
Proof.
  induction d as [|[k' v'] d IH]; simpl; [discriminate|].
  destruct (String.eqb k k') eqn:E; simpl.
  - intros _. pose proof (dict_del_length k d). lia.
  - intros Hv. specialize (IH Hv). lia.
Qed.
End MoreDictFacts.

(** ** [start] and [stop] on the tab *)

Section StartStopFacts.
Context {num : Type} `{PyNumber num} `{PyRuntime num}.
Variable register_callback : list HandlerCall -> Z.

Local Abbreviation Rec := (HarRecorder.t num).

(** What [start] wrote is left alone by [_build_entry] and the
    handlers. *)
Lemma build_and_append_registration (now : string) (p : Pending.t num) (s : Rec) :
  HarRecorder._callback_ids (state_of (build_and_append now p s)) =
  HarRecorder._callback_ids s
  /\ HarRecorder._network_was_enabled (state_of (build_and_append now p s)) =
     HarRecorder._network_was_enabled s.
Proof. unfold build_and_append. destruct (_build_entry now p); simpl; auto. Qed.

Lemma step_keeps_registration (i : @Input num) (s : Rec) :
  HarRecorder._callback_ids (state_of (step i s)) = HarRecorder._callback_ids s
  /\ HarRecorder._network_was_enabled (state_of (step i s)) =
     HarRecorder._network_was_enabled s.
Proof.
  destruct i; simpl.
  - unfold _on_request_will_be_sent.
    destruct (filtered_out s _); simpl; auto.
    destruct (RequestWillBeSentEvent.redirectResponse event) as [rr|]; simpl; auto.
    destruct (dict_mem _ _); simpl; auto.
    unfold _finalize_redirect_entry.
    destruct (dict_get _ _) as [p|]; simpl; auto.
    match goal with
    | |- context [build_and_append now ?q ?t] =>
        pose proof (build_and_append_registration now q t) as Hb;
        destruct (build_and_append now q t)
    end; exact Hb.
  - unfold _on_request_extra_info.
    destruct (dict_get _ _); simpl; auto. destruct (dict_truthy _); simpl; auto.
  - unfold _on_response_received. destruct (dict_get _ _); simpl; auto.
  - unfold _on_response_extra_info. destruct (dict_get _ _); simpl; auto.
  - auto.
  - unfold _on_loading_finished. destruct (dict_get _ _); simpl; auto.
  - unfold _on_loading_failed. destruct (dict_get _ _); simpl; auto.
    match goal with
    | |- context [build_and_append ?n ?q ?t] =>
        destruct (build_and_append_registration n q t) as [B1 B2]; rewrite B1, B2
    end; simpl; auto.
  - unfold _finalize_entry_start.
    destruct (nth_error _ _) as [[r|r p]|]; simpl; auto.
    destruct (dict_get _ _); simpl; auto.
  - unfold _finalize_entry_finish.
    destruct (nth_error _ _) as [[r|r p]|]; simpl; auto.
    match goal with
    | |- context [build_and_append ?n ?q ?t] =>
        destruct (build_and_append_registration n q t) as [B1 B2]; rewrite B1, B2
    end; simpl; auto.
Qed.

Lemma run_keeps_registration (inputs : list (@Input num)) (s : Rec) :
  HarRecorder._callback_ids (run inputs s) = HarRecorder._callback_ids s
  /\ HarRecorder._network_was_enabled (run inputs s) =
     HarRecorder._network_was_enabled s.
Proof.
  revert s. induction inputs as [|i inputs IH]; intros s; simpl; auto.
  destruct (IH (state_of (step i s))) as [H1 H2].
  destruct (step_keeps_registration i s) as [H3 H4].
  unfold run in *. split; congruence.
Qed.

Lemma gather_keeps_registration (fetch : string -> string * bool)
    (clock : nat -> string) (tasks : list (BodyTask num)) :
  forall (k : nat) (s : Rec),
    HarRecorder._callback_ids (gather_body_tasks fetch clock k tasks s) =
    HarRecorder._callback_ids s
    /\ HarRecorder._network_was_enabled (gather_body_tasks fetch clock k tasks s) =
       HarRecorder._network_was_enabled s.
Proof.
  induction tasks as [|[r|r p] tasks IH]; intros k s; simpl; auto.
  - destruct (dict_get r (HarRecorder._pending s)) as [p|].
    + destruct (fetch r) as [body b64].
      match goal with
      | |- context [gather_body_tasks _ _ _ _ ?t] => destruct (IH (S k) t) as [H1 H2]
      end.
      rewrite H1, H2.
      match goal with
      | |- context [build_and_append ?n ?q ?t] =>
          destruct (build_and_append_registration n q t) as [B1 B2]; rewrite B1, B2
      end; simpl; auto.
    + destruct (IH (S k) (set_pending (dict_del r (HarRecorder._pending s)) s)) as [H1 H2].
      rewrite H1, H2. simpl. auto.
  - destruct (fetch r) as [body b64].
    match goal with
    | |- context [gather_body_tasks _ _ _ _ ?t] => destruct (IH (S k) t) as [H1 H2]
    end.
    rewrite H1, H2. apply build_and_append_registration.
Qed.

Lemma flush_loop_keeps_registration (clock : nat -> string) (keys : list string) :
  forall (k : nat) (s : Rec),
    HarRecorder._callback_ids (state_of (_flush_pending_loop clock k keys s)) =
    HarRecorder._callback_ids s
    /\ HarRecorder._network_was_enabled (state_of (_flush_pending_loop clock k keys s)) =
       HarRecorder._network_was_enabled s.
Proof.
  induction keys as [|request_id keys IH]; intros k s; simpl; auto.
  destruct (dict_get request_id (HarRecorder._pending s)) as [p|]; simpl; auto.
  match goal with
  | |- context [build_and_append (clock k) ?q ?t] =>
      pose proof (build_and_append_registration (clock k) q t) as Hb;
      destruct (build_and_append (clock k) q t) as [s1|ex s1]
  end; simpl in *; auto.
  destruct Hb as [B1 B2]. destruct (IH (S k) s1) as [H1 H2]. split; congruence.
Qed.

(** The recorder that [stop] leaves is the same with and without the
    tab in view. *)
Lemma stop_on_tab_recorder (fetch : string -> string * bool)
    (task_clock flush_clock : nat -> string) (tab : Tab.t) (s : Rec) :
  snd (OnTab.stop fetch task_clock flush_clock tab s) =
  stop fetch task_clock flush_clock s.
Proof.
  unfold OnTab.stop, stop.
  destruct (_flush_pending flush_clock _) as [s'|ex s']; simpl; auto.
  destruct (HarRecorder._network_was_enabled s') eqn:E; simpl; auto.
  destruct s'; simpl in *. now subst.
Qed.

Lemma remove_callbacks_log (ids : list Z) (tab : Tab.t) :
  fold_left (fun tab callback_id => Tab.remove_callback callback_id tab) ids tab =
  Tab.mk (Tab._network_events_enabled tab)
         (Tab._connection_handler tab ++ map RemoveCallback ids).
Proof.
  revert tab. induction ids as [|i ids IH]; intros tab; simpl.
  - rewrite app_nil_r. now destruct tab.
  - rewrite IH. simpl. now rewrite <- app_assoc.
Qed.

(** X1.  [start] then [stop].  [start] registers the seven callbacks, after
    enabling the network events when they were off.  Whatever events and
    task steps come in between, [stop] removes exactly the callbacks that
    [start] registered, in the order of their registration, and leaves the
    recorder without callback ids.  When [stop] returns, the tab has its
    network events as they were before [start], and the last call is
    [Network.disable] when [start] had enabled them.  When [_flush_pending]
    raises in [stop], the network events stay enabled and the recorder still
    holds its mark that it enabled them. *)
Theorem stop_undoes_start (tab : Tab.t) (resource_types : option (list string))
    (inputs : list (@Input num)) (fetch : string -> string * bool)
    (task_clock flush_clock : nat -> string) :
  let started := OnTab.start register_callback tab (__init__ resource_types) in
  let ids := HarRecorder._callback_ids (snd started) in
  let stopped :=
    OnTab.stop fetch task_clock flush_clock (fst started) (run inputs (snd started)) in
  List.length ids = 7%nat
  /\ Tab._connection_handler (fst started) =
     Tab._connection_handler tab
     ++ (if Tab._network_events_enabled tab then [] else [NetworkEnable])
     ++ map (fun eh => RegisterCallback (fst eh) (snd eh) false)
            (@OnTab.events_and_handlers)
  /\ HarRecorder._callback_ids (state_of (snd stopped)) = []
  /\ match snd stopped with
     | Returned s' =>
         Tab._network_events_enabled (fst stopped) = Tab._network_events_enabled tab
         /\ HarRecorder._network_was_enabled s' = false
         /\ Tab._connection_handler (fst stopped) =
            Tab._connection_handler (fst started) ++ map RemoveCallback ids
            ++ (if Tab._network_events_enabled tab then [] else [NetworkDisable])
     | Raised _ s' =>
         Tab._network_events_enabled (fst stopped) = true
         /\ HarRecorder._network_was_enabled s' = negb (Tab._network_events_enabled tab)
         /\ Tab._connection_handler (fst stopped) =
            Tab._connection_handler (fst started) ++ map RemoveCallback ids
     end.
Proof.
  intros started ids stopped.
  assert (Hflag : Tab._network_events_enabled (fst started) = true
                  /\ HarRecorder._network_was_enabled (snd started) =
                     negb (Tab._network_events_enabled tab)).
  { unfold started, OnTab.start, Tab.network_events_enabled.
    destruct tab as [[|] log]; simpl; auto. }
  destruct Hflag as [Hon Hmark].
  split; [|split].
  - unfold ids, started, OnTab.start, Tab.network_events_enabled.
    destruct tab as [[|] log]; reflexivity.
  - unfold started, OnTab.start, Tab.network_events_enabled.
    destruct tab as [[|] log]; simpl; repeat rewrite <- app_assoc; reflexivity.
  - destruct (run_keeps_registration inputs (snd started)) as [Hids Hnet].
    fold ids in Hids. rewrite Hmark in Hnet.
    unfold stopped, OnTab.stop. rewrite remove_callbacks_log, Hids.
    unfold _flush_pending.
    match goal with
    | |- context [_flush_pending_loop flush_clock 0 ?keys ?q] =>
        destruct (flush_loop_keeps_registration flush_clock keys 0 q) as [Hc Hn];
        assert (Hq : HarRecorder._callback_ids q = []
                     /\ HarRecorder._network_was_enabled q =
                        negb (Tab._network_events_enabled tab))
    end.
    { simpl.
      match goal with
      | |- context [gather_body_tasks fetch task_clock 0 ?l ?t] =>
          destruct (gather_keeps_registration fetch task_clock l 0 t) as [G1 G2]
      end.
      rewrite G1, G2. simpl. auto. }
    destruct Hq as [Hq1 Hq2]. rewrite Hq1 in Hc. rewrite Hq2 in Hn.
    destruct (_flush_pending_loop _ _ _ _) as [s'|ex s']; simpl in Hc, Hn; simpl.
    + rewrite Hn. destruct (Tab._network_events_enabled tab) eqn:Et; simpl.
      * rewrite app_nil_r. repeat split; auto.
      * repeat split; auto. now rewrite <- app_assoc.
    + repeat split; auto.
Qed.
End StartStopFacts.

(** ** The order of the events that complete a pending entry *)

Section MergeFacts.
Context {num : Type} `{PyNumber num} `{PyRuntime num}.

Local Abbreviation Rec := (HarRecorder.t num).

Lemma dict_get_mem {V : Type} (k : string) (v : V) (d : dict V) :
  dict_get k d = Some v -> dict_mem k d = true.
Proof. unfold dict_mem. now intros ->. Qed.

(** Two rewritings of pending entries that commute on every entry
    commute on the recorder. *)
Lemma update_pending_comm (k1 k2 : string) (f g : Pending.t num -> Pending.t num)
    (s : Rec) :
  (forall p, f (g p) = g (f p)) ->
  update_pending k1 f (update_pending k2 g s) =
  update_pending k2 g (update_pending k1 f s).
Proof.
  intros Hfg. unfold update_pending.
  destruct (String.eqb k1 k2) eqn:E.
  - apply String.eqb_eq in E. subst k2.
    destruct (dict_get k1 (HarRecorder._pending s)) as [p|] eqn:E1; simpl.
    + rewrite !dict_get_set_same. simpl. rewrite !dict_set_set. now rewrite Hfg.
    + now rewrite E1.
  - apply String.eqb_neq in E.
    destruct (dict_get k2 (HarRecorder._pending s)) as [p2|] eqn:E2;
      destruct (dict_get k1 (HarRecorder._pending s)) as [p1|] eqn:E1; simpl;
      rewrite ?dict_get_set_other by congruence; rewrite ?E1, ?E2; simpl; auto.
    rewrite (@dict_set_comm _ k1 k2);
      [reflexivity | assumption | eapply dict_get_mem; eassumption ..].
Qed.

Lemma update_pending_id (k : string) (f : Pending.t num -> Pending.t num) (s : Rec) :
  (forall p, dict_get k (HarRecorder._pending s) = Some p -> f p = p) ->
  update_pending k f s = s.
Proof.
  intros Hf. unfold update_pending.
  destruct (dict_get k (HarRecorder._pending s)) as [p|] eqn:E; auto.
  rewrite (Hf p eq_refl), (dict_set_same_value _ _ E). apply set_pending_same.
Qed.

Lemma request_extra_info_updates (event : RequestWillBeSentExtraInfoEvent.t) (s : Rec) :
  state_of (_on_request_extra_info event s) =
  update_pending (RequestWillBeSentExtraInfoEvent.requestId event)
    (merged (_on_request_extra_info event)
            (RequestWillBeSentExtraInfoEvent.requestId event)) s.
Proof.
  unfold update_pending, _on_request_extra_info at 1.
  destruct (dict_get _ (HarRecorder._pending s)) as [p|] eqn:E; auto.
  unfold merged, _on_request_extra_info. simpl. rewrite String.eqb_refl.
  destruct (dict_truthy _); simpl; rewrite ?String.eqb_refl; simpl; auto.
  now rewrite (dict_set_same_value _ _ E), set_pending_same.
Qed.

Lemma response_received_updates (event : ResponseReceivedEvent.t num) (s : Rec) :
  state_of (_on_response_received event s) =
  update_pending (ResponseReceivedEvent.requestId event)
    (merged (_on_response_received event) (ResponseReceivedEvent.requestId event)) s.
Proof.
  unfold update_pending, _on_response_received at 1.
  destruct (dict_get _ (HarRecorder._pending s)) as [p|] eqn:E; auto.
  unfold merged, _on_response_received. simpl. rewrite String.eqb_refl.
  simpl. rewrite String.eqb_refl. reflexivity.
Qed.

Lemma response_extra_info_updates (event : ResponseReceivedExtraInfoEvent.t) (s : Rec) :
  state_of (_on_response_extra_info event s) =
  update_pending (ResponseReceivedExtraInfoEvent.requestId event)
    (merged (_on_response_extra_info event)
            (ResponseReceivedExtraInfoEvent.requestId event)) s.
Proof.
  unfold update_pending, _on_response_extra_info at 1.
  destruct (dict_get _ (HarRecorder._pending s)) as [p|] eqn:E; auto.
  unfold merged, _on_response_extra_info. simpl. rewrite String.eqb_refl.
  simpl. rewrite String.eqb_refl. reflexivity.
Qed.

Ltac merged_commute :=
  intros p; unfold merged, _on_request_extra_info, _on_response_received,
    _on_response_extra_info; simpl; rewrite ?String.eqb_refl; simpl;
  repeat match goal with
         | |- context [if dict_truthy ?h then _ else _] => destruct (dict_truthy h); simpl
         | |- context [match ?o with Some _ => _ | None => _ end] => destruct o; simpl
         end;
  rewrite ?String.eqb_refl; simpl; reflexivity.

(** X2.  The three events that complete a pending entry,
    requestWillBeSentExtraInfo, responseReceived and
    responseReceivedExtraInfo, can reach the recorder in any order: each
    writes keys of the pending entry that the other two do not write, so
    handling two of them in one order or the other leaves the same recorder,
    whether they carry the same request id or not.  In particular the status
    code and the headers of a responseReceivedExtraInfo are kept when the
    responseReceived event comes after it. *)
Theorem completing_events_commute (s : Rec)
    (request_extra : RequestWillBeSentExtraInfoEvent.t)
    (response : ResponseReceivedEvent.t num)
    (response_extra : ResponseReceivedExtraInfoEvent.t) :
  run [ResponseReceivedExtraInfo response_extra; ResponseReceived response] s =
  run [ResponseReceived response; ResponseReceivedExtraInfo response_extra] s
  /\ run [RequestWillBeSentExtraInfo request_extra; ResponseReceived response] s =
     run [ResponseReceived response; RequestWillBeSentExtraInfo request_extra] s
  /\ run [RequestWillBeSentExtraInfo request_extra;
          ResponseReceivedExtraInfo response_extra] s =
     run [ResponseReceivedExtraInfo response_extra;
          RequestWillBeSentExtraInfo request_extra] s.
Proof.
  unfold run. simpl.
  rewrite !request_extra_info_updates, !response_received_updates,
    !response_extra_info_updates.
  repeat split; apply update_pending_comm; merged_commute.
Qed.
End MergeFacts.
(** ** The resource-type filter *)

Section FilterFacts.
Context {num : Type} `{PyNumber num} `{PyRuntime num}.

Local Abbreviation Rec := (HarRecorder.t num).

Lemma build_and_append_resource_types (now : string) (p : Pending.t num) (s : Rec) :
  HarRecorder._resource_types (state_of (build_and_append now p s)) =
  HarRecorder._resource_types s.
Proof. unfold build_and_append. destruct (_build_entry now p); simpl; auto. Qed.

(** No handler and no task changes the filter. *)
Lemma step_keeps_resource_types (i : @Input num) (s : Rec) :
  HarRecorder._resource_types (state_of (step i s)) = HarRecorder._resource_types s.
Proof.
  destruct i; simpl.
  - unfold _on_request_will_be_sent.
    destruct (filtered_out s _); simpl; auto.
    destruct (RequestWillBeSentEvent.redirectResponse event) as [rr|]; simpl; auto.
    destruct (dict_mem _ _); simpl; auto.
    unfold _finalize_redirect_entry.
    destruct (dict_get _ _) as [p|]; simpl; auto.
    match goal with
    | |- context [build_and_append now ?q ?t] =>
        pose proof (build_and_append_resource_types now q t) as Hb;
        destruct (build_and_append now q t)
    end; exact Hb.
  - unfold _on_request_extra_info.
    destruct (dict_get _ _); simpl; auto. destruct (dict_truthy _); simpl; auto.
  - unfold _on_response_received. destruct (dict_get _ _); simpl; auto.
  - unfold _on_response_extra_info. destruct (dict_get _ _); simpl; auto.
  - auto.
  - unfold _on_loading_finished. destruct (dict_get _ _); simpl; auto.
  - unfold _on_loading_failed. destruct (dict_get _ _); simpl; auto.
    now rewrite build_and_append_resource_types.
  - unfold _finalize_entry_start.
    destruct (nth_error _ _) as [[r|r p]|]; simpl; auto.
    destruct (dict_get _ _); simpl; auto.
  - unfold _finalize_entry_finish.
    destruct (nth_error _ _) as [[r|r p]|]; simpl; auto.
    now rewrite build_and_append_resource_types.
Qed.

Lemma run_keeps_resource_types (inputs : list (@Input num)) (s : Rec) :
  HarRecorder._resource_types (run inputs s) = HarRecorder._resource_types s.
Proof.
  revert s. unfold run. induction inputs as [|i inputs IH]; intros s; simpl; auto.
  rewrite IH. apply step_keeps_resource_types.
Qed.

Lemma existsb_eqb_not_In (x : string) (l : list string) :
  ~ In x l -> existsb (String.eqb x) l = false.
Proof.
  induction l as [|a l IH]; simpl; auto.
  intros Hn. destruct (String.eqb x a) eqn:E; simpl.
  - apply String.eqb_eq in E. subst. tauto.
  - apply IH. tauto.
Qed.

(** A step of a recorder that holds nothing, when the requestWillBeSent
    events are of types the filter leaves out. *)
Lemma step_filtered (types : list string) (i : @Input num) (s : Rec) :
  types <> [] ->
  (forall now event, i = RequestWillBeSent now event ->
     ~ In (get_or (RequestWillBeSentEvent.type event) "") types) ->
  HarRecorder._resource_types s = Some types ->
  HarRecorder._pending s = [] ->
  HarRecorder._entries s = [] ->
  HarRecorder._body_tasks s = [] ->
  HarRecorder._pending (state_of (step i s)) = []
  /\ HarRecorder._entries (state_of (step i s)) = []
  /\ HarRecorder._body_tasks (state_of (step i s)) = [].
Proof.
  intros Hne Hty Hrt Hp He Ht. destruct i; simpl.
  - unfold _on_request_will_be_sent, filtered_out. rewrite Hrt.
    destruct types as [|t0 types]; [congruence|].
    rewrite (existsb_eqb_not_In _ _ (Hty now event eq_refl)). simpl. auto.
  - unfold _on_request_extra_info. rewrite Hp. simpl. auto.
  - unfold _on_response_received. rewrite Hp. simpl. auto.
  - unfold _on_response_extra_info. rewrite Hp. simpl. auto.
  - auto.
  - unfold _on_loading_finished. rewrite Hp. simpl. auto.
  - unfold _on_loading_failed. rewrite Hp. simpl. auto.
  - unfold _finalize_entry_start. rewrite Ht. destruct n; simpl; auto.
  - unfold _finalize_entry_finish. rewrite Ht. destruct n; simpl; auto.
Qed.

(** X3.  The filter.  A recorder made with a non-empty list of resource
    types records nothing of requests of other types: when every
    requestWillBeSent event that reaches it has a type outside the list (a
    missing type counts as the empty string), then whatever other events and
    task steps follow, it holds no pending entry, no entry and no body task.
    An empty list is no filter: the recorder made with it is the one made
    with no list, and it filters out no type at any time. *)
Theorem filtered_requests_leave_no_trace (types : list string)
    (inputs : list (@Input num)) :
  types <> [] ->
  (forall now event, In (RequestWillBeSent now event) inputs ->
     ~ In (get_or (RequestWillBeSentEvent.type event) "") types) ->
  (HarRecorder._pending (run inputs (__init__ (Some types))) = []
   /\ HarRecorder._entries (run inputs (__init__ (Some types))) = []
   /\ HarRecorder._body_tasks (run inputs (__init__ (Some types))) = [])
  /\ @__init__ num (Some []) = __init__ None
  /\ forall (others : list (@Input num)) (resource_type : string),
       filtered_out (run others (__init__ (Some []))) resource_type = false.
Proof.
  intros Hne Hty. split; [|split].
  - assert (Hgen : forall s : Rec,
               HarRecorder._resource_types s = Some types ->
               HarRecorder._pending s = [] ->
               HarRecorder._entries s = [] ->
               HarRecorder._body_tasks s = [] ->
               HarRecorder._pending (run inputs s) = []
               /\ HarRecorder._entries (run inputs s) = []
               /\ HarRecorder._body_tasks (run inputs s) = []).
    { revert Hty. induction inputs as [|i inputs IH]; intros Hty s Hrt Hp He Ht.
      - simpl. auto.
      - simpl.
        assert (Hi : forall now event, i = RequestWillBeSent now event ->
                       ~ In (get_or (RequestWillBeSentEvent.type event) "") types).
        { intros now event ->. apply (Hty now event). now left. }
        destruct (@step_filtered types i s Hne Hi Hrt Hp He Ht) as (P1 & P2 & P3).
        apply IH; auto.
        + intros now event Hin. apply (Hty now event). now right.
        + now rewrite step_keeps_resource_types. }
    destruct types as [|t0 types]; [congruence|]. apply Hgen; reflexivity.
  - reflexivity.
  - intros others resource_type. unfold filtered_out.
    rewrite run_keeps_resource_types. reflexivity.
Qed.
End FilterFacts.

(** ** Counting the requests a recorder holds *)

Section CountFacts.
Context {num : Type} `{PyNumber num} `{PyRuntime num}.

Local Abbreviation Rec := (HarRecorder.t num).

Lemma fetching_app (l1 l2 : list (BodyTask num)) :
  fetching (l1 ++ l2) = (fetching l1 + fetching l2)%nat.
Proof. unfold fetching. now rewrite filter_app, List.length_app. Qed.

Lemma nth_error_firstn_skipn {A : Type} (l : list A) (n : nat) (x : A) :
  nth_error l n = Some x -> l = firstn n l ++ x :: skipn (S n) l.
Proof.
  revert n. induction l as [|a l IH]; intros [|n]; simpl; try discriminate.
  - intros Hx. now inversion Hx.
  - intros Hx. f_equal. now apply IH.
Qed.

Lemma fetching_remove_nth (l : list (BodyTask num)) (n : nat) (t : BodyTask num) :
  nth_error l n = Some t ->
  fetching l =
  (fetching (remove_nth n l)
   + match t with Fetching _ _ => 1 | Scheduled _ => 0 end)%nat.
Proof.
  intros Hn. rewrite (nth_error_firstn_skipn _ _ Hn) at 1.
  unfold remove_nth. rewrite !fetching_app.
  replace (t :: skipn (S n) l) with ([t] ++ skipn (S n) l) by reflexivity.
  rewrite fetching_app. unfold fetching at 2. destruct t; simpl; lia.
Qed.

Lemma fetching_replace_nth (l : list (BodyTask num)) (n : nat) (t : BodyTask num) :
  fetching (replace_nth n t l) =
  (fetching (remove_nth n l)
   + match t with Fetching _ _ => 1 | Scheduled _ => 0 end)%nat.
Proof.
  unfold replace_nth, remove_nth. rewrite !fetching_app.
  replace (t :: skipn (S n) l) with ([t] ++ skipn (S n) l) by reflexivity.
  rewrite fetching_app. unfold fetching at 2. destruct t; simpl; lia.
Qed.

(** [_build_entry] and the append: at most one entry more, nothing else
    changed. *)
Lemma build_and_append_held (now : string) (p : Pending.t num) (s : Rec) :
  (held (state_of (build_and_append now p s)) <= S (held s))%nat.
Proof.
  unfold build_and_append, held.
  destruct (_build_entry now p); simpl; rewrite ?List.length_app; simpl; lia.
Qed.

Lemma build_and_append_entries (now : string) (p : Pending.t num) (s : Rec) :
  (List.length (HarRecorder._entries (state_of (build_and_append now p s)))
   <= S (List.length (HarRecorder._entries s)))%nat.
Proof.
  unfold build_and_append.
  destruct (_build_entry now p); simpl; rewrite ?List.length_app; simpl; lia.
Qed.

(** A handler or a task step adds nothing to what a recorder holds,
    but for a requestWillBeSent that passes the filter, which adds at
    most one request. *)
Lemma step_held (i : @Input num) (s : Rec) :
  (held (state_of (step i s)) <= held s + requests_seen s [i])%nat.
Proof.
  unfold requests_seen. destruct i; simpl.
  - unfold _on_request_will_be_sent.
    destruct (filtered_out s _); simpl; [lia|].
    assert (Hset : forall t : Rec,
               (held (set_pending
                        (dict_set (RequestWillBeSentEvent.requestId event)
                                  (new_pending event) (HarRecorder._pending t)) t)
                <= held t
                   + (if dict_mem (RequestWillBeSentEvent.requestId event)
                                  (HarRecorder._pending t) then 0 else 1))%nat).
    { intros t. unfold held. simpl. rewrite dict_set_length.
      destruct (dict_mem _ _); lia. }
    destruct (RequestWillBeSentEvent.redirectResponse event) as [rr|]; simpl.
    + destruct (dict_mem _ (HarRecorder._pending s)) eqn:Em; simpl.
      * unfold _finalize_redirect_entry. unfold dict_mem in Em.
        destruct (dict_get _ (HarRecorder._pending s)) as [p|] eqn:Eg; [|discriminate].
        pose proof (dict_del_length_present _ _ Eg) as Hdel.
        match goal with
        | |- context [build_and_append now ?q ?t] =>
            pose proof (build_and_append_held now q t) as Hb;
            pose proof (proj1 (build_and_append_pending now q t)) as Hp;
            assert (Ht : (S (held t) <= held s)%nat) by (unfold held; simpl; simpl in Hdel; lia);
            destruct (build_and_append now q t) as [s1|ex s1]
        end; simpl in *.
        -- specialize (Hset s1). destruct (dict_mem _ (HarRecorder._pending s1)); lia.
        -- lia.
      * specialize (Hset s). rewrite Em in Hset. lia.
    + specialize (Hset s). destruct (dict_mem _ _); lia.
  - unfold _on_request_extra_info.
    destruct (dict_get _ _) as [p|] eqn:Eg; simpl; [|lia].
    destruct (dict_truthy _); simpl; [|lia].
    unfold held. simpl. rewrite dict_set_length. unfold dict_mem. rewrite Eg. lia.
  - unfold _on_response_received.
    destruct (dict_get _ _) as [p|] eqn:Eg; simpl; [|lia].
    unfold held. simpl. rewrite dict_set_length. unfold dict_mem. rewrite Eg. lia.
  - unfold _on_response_extra_info.
    destruct (dict_get _ _) as [p|] eqn:Eg; simpl; [|lia].
    unfold held. simpl. rewrite dict_set_length. unfold dict_mem. rewrite Eg. lia.
  - unfold held. simpl. lia.
  - unfold _on_loading_finished.
    destruct (dict_get _ _) as [p|] eqn:Eg; simpl; [|lia].
    unfold held. simpl. rewrite dict_set_length. unfold dict_mem. rewrite Eg.
    rewrite fetching_app. unfold fetching at 2. simpl. lia.
  - unfold _on_loading_failed.
    destruct (dict_get _ _) as [p|] eqn:Eg; simpl.
    + pose proof (dict_del_length_present _ _ Eg) as Hdel.
      match goal with
      | |- context [build_and_append now ?q ?t] =>
          pose proof (build_and_append_held now q t) as Hb;
          assert (Ht : (S (held t) <= held s)%nat) by (unfold held; simpl; simpl in Hdel; lia)
      end. lia.
    + unfold held. simpl. pose proof (dict_del_length (LoadingFailedEvent.requestId event)
                                        (HarRecorder._pending s)). lia.
  - unfold _finalize_entry_start.
    destruct (nth_error _ _) as [[r|r p]|] eqn:En; simpl; try lia.
    pose proof (fetching_remove_nth _ _ En) as Hrm. simpl in Hrm.
    destruct (dict_get r _) as [p|] eqn:Eg; unfold held; simpl.
    + pose proof (dict_del_length_present _ _ Eg) as Hdel.
      rewrite fetching_replace_nth. lia.
    + pose proof (dict_del_length r (HarRecorder._pending s)). lia.
  - unfold _finalize_entry_finish.
    destruct (nth_error _ _) as [[r|r p]|] eqn:En; simpl; try lia.
    pose proof (fetching_remove_nth _ _ En) as Hrm. simpl in Hrm.
    match goal with
    | |- context [build_and_append now ?q ?t] =>
        pose proof (build_and_append_held now q t) as Hb;
        assert (Ht : (S (held t) <= held s)%nat) by (unfold held; simpl; lia)
    end. lia.
Qed.

Lemma filtered_out_step (i : @Input num) (s : Rec) (resource_type : string) :
  filtered_out (state_of (step i s)) resource_type = filtered_out s resource_type.
Proof. unfold filtered_out. now rewrite step_keeps_resource_types. Qed.

Lemma requests_seen_step (i : @Input num) (s : Rec) (inputs : list (@Input num)) :
  requests_seen (state_of (step i s)) inputs = requests_seen s inputs.
Proof.
  unfold requests_seen. f_equal. apply filter_ext. intros [ ]; auto.
  now rewrite filtered_out_step.
Qed.

Lemma run_held (inputs : list (@Input num)) (s : Rec) :
  (held (run inputs s) <= held s + requests_seen s inputs)%nat.
Proof.
  revert s. induction inputs as [|i inputs IH]; intros s.
  - unfold requests_seen. simpl. lia.
  - change (run (i :: inputs) s) with (run inputs (state_of (step i s))).
    specialize (IH (state_of (step i s))). rewrite requests_seen_step in IH.
    pose proof (step_held i s) as Hs.
    assert (Hc : requests_seen s (i :: inputs) =
                 (requests_seen s [i] + requests_seen s inputs)%nat).
    { unfold requests_seen. simpl. destruct i; simpl; auto.
      destruct (negb _); simpl; auto. }
    lia.
Qed.

(** The tasks that [stop] waits for turn what they hold into entries. *)
Lemma gather_held (fetch : string -> string * bool) (clock : nat -> string)
    (tasks : list (BodyTask num)) :
  forall (k : nat) (s : Rec),
    (List.length (HarRecorder._entries (gather_body_tasks fetch clock k tasks s))
     + List.length (HarRecorder._pending (gather_body_tasks fetch clock k tasks s))
     <= List.length (HarRecorder._entries s) + List.length (HarRecorder._pending s)
        + fetching tasks)%nat.
Proof.
  induction tasks as [|[r|r p] tasks IH]; intros k s; simpl; [lia| |].
  - change (fetching (Scheduled r :: tasks)) with (fetching tasks).
    destruct (dict_get r (HarRecorder._pending s)) as [p|] eqn:Eg.
    + destruct (fetch r) as [body b64].
      pose proof (dict_del_length_present _ _ Eg) as Hdel.
      match goal with
      | |- context [gather_body_tasks _ _ _ _ (state_of (build_and_append ?n ?q ?t))] =>
          specialize (IH (S k) (state_of (build_and_append n q t)));
          pose proof (build_and_append_entries n q t) as Hb;
          pose proof (proj1 (build_and_append_pending n q t)) as Hp
      end.
      rewrite Hp in IH. simpl in *. lia.
    + specialize (IH (S k) (set_pending (dict_del r (HarRecorder._pending s)) s)).
      pose proof (dict_del_length r (HarRecorder._pending s)). simpl in *. lia.
  - change (fetching (Fetching r p :: tasks)) with (S (fetching tasks)).
    destruct (fetch r) as [body b64].
    match goal with
    | |- context [gather_body_tasks _ _ _ _ (state_of (build_and_append ?n ?q ?t))] =>
        specialize (IH (S k) (state_of (build_and_append n q t)));
        pose proof (build_and_append_entries n q t) as Hb;
        pose proof (proj1 (build_and_append_pending n q t)) as Hp
    end.
    rewrite Hp in IH. lia.
Qed.

(** [_flush_pending] turns pending entries into entries, or loses the
    one that cannot be built. *)
Lemma flush_loop_held (clock : nat -> string) (keys : list string) :
  forall (k : nat) (s : Rec),
    (List.length (HarRecorder._entries (state_of (_flush_pending_loop clock k keys s)))
     + List.length (HarRecorder._pending (state_of (_flush_pending_loop clock k keys s)))
     <= List.length (HarRecorder._entries s) + List.length (HarRecorder._pending s))%nat.
Proof.
  induction keys as [|request_id keys IH]; intros k s; simpl; [lia|].
  destruct (dict_get request_id (HarRecorder._pending s)) as [p|] eqn:Eg; simpl; [|lia].
  pose proof (dict_del_length_present _ _ Eg) as Hdel.
  match goal with
  | |- context [build_and_append (clock k) ?q ?t] =>
      pose proof (build_and_append_entries (clock k) q t) as Hb;
      pose proof (proj1 (build_and_append_pending (clock k) q t)) as Hp;
      destruct (build_and_append (clock k) q t) as [s1|ex s1]
  end; simpl in *.
  - specialize (IH (S k) s1). rewrite Hp in IH. lia.
  - rewrite Hp. lia.
Qed.

Lemma stop_entries_bound (fetch : string -> string * bool)
    (task_clock flush_clock : nat -> string) (s : Rec) :
  (List.length (HarRecorder._entries (state_of (stop fetch task_clock flush_clock s)))
   <= held s)%nat.
Proof.
  unfold stop, _flush_pending, held.
  match goal with
  | |- context [_flush_pending_loop flush_clock 0 ?keys ?q] =>
      pose proof (flush_loop_held flush_clock keys 0 q) as Hloop;
      destruct (_flush_pending_loop flush_clock 0 keys q) as [s'|ex s']
  end; simpl in *;
  match type of Hloop with
  | context [gather_body_tasks fetch task_clock 0 ?l ?t] =>
      pose proof (gather_held fetch task_clock l 0 t) as Hg
  end; simpl in *; lia.
Qed.

(** X4.  No entry without a request.  At any time the entries of a recorder,
    its pending entries and the entries held by running body tasks are
    together at most as many as the requestWillBeSent events that passed its
    filter; so are the entries it has after [stop], whether [stop] returns
    or raises, and the entries that [HarCapture] exports. *)
Theorem entries_bounded_by_requests (resource_types : option (list string))
    (inputs : list (@Input num)) (fetch : string -> string * bool)
    (task_clock flush_clock : nat -> string) :
  let s := run inputs (__init__ resource_types) in
  let stopped := state_of (stop fetch task_clock flush_clock s) in
  (held s <= requests_seen (__init__ resource_types) inputs)%nat
  /\ (List.length (HarRecorder._entries stopped)
      <= requests_seen (__init__ resource_types) inputs)%nat
  /\ (List.length (HarCapture.entries stopped)
      <= requests_seen (__init__ resource_types) inputs)%nat.
Proof.
  intros s stopped.
  assert (Hs : (held s <= requests_seen (__init__ resource_types) inputs)%nat).
  { pose proof (run_held inputs (__init__ resource_types)) as Hr.
    assert (H0' : held (@__init__ num resource_types) = 0%nat)
      by (destruct resource_types as [[|r l]|]; reflexivity).
    fold s in Hr. lia. }
  pose proof (stop_entries_bound fetch task_clock flush_clock s) as Hst.
  fold stopped in Hst.
  repeat split; try lia.
  unfold HarCapture.entries.
  rewrite (Permutation_length (sorted_perm _ _)). lia.
Qed.
End CountFacts.

(** ** Cookies *)

Section CookieFacts.
Context {num : Type} `{PyNumber num} `{PyRuntime num}.

Lemma split1_snd_None (c : ascii) (s : string) :
  snd (split1 c s) = None <-> str_contains c s = false.
Proof.
  induction s as [|a s IH]; simpl.
  - tauto.
  - destruct (Ascii.eqb a c); simpl.
    + split; discriminate.
    + destruct (split1 c s) as [h t]. simpl in *. exact IH.
Qed.

(** The loop over the [Set-Cookie] lines raises exactly when one of them
    is malformed, and then it raises [ValueError]. *)
Lemma parse_set_cookie_lines_spec (lines : list string) :
  forall cookies : list HarCookie.t,
    if existsb malformed_set_cookie lines
    then parse_set_cookie_lines lines cookies = Raise ValueError
    else exists cookies', parse_set_cookie_lines lines cookies = Ok cookies'.
Proof.
  induction lines as [|raw_line lines IH]; intros cookies; simpl.
  - eauto.
  - unfold malformed_set_cookie at 1.
    destruct (str_contains "=" (str_strip raw_line)) eqn:Ec; simpl.
    + destruct (split1 "=" (fst (split1 ";" (str_strip raw_line)))) as [name [value|]] eqn:Es.
      * assert (Hc : str_contains "=" (fst (split1 ";" (str_strip raw_line))) = true).
        { destruct (str_contains "=" (fst (split1 ";" (str_strip raw_line)))) eqn:E; auto.
          apply split1_snd_None in E. rewrite Es in E. discriminate. }
        rewrite Hc. simpl. destruct (str_truthy (str_strip name)); simpl; apply IH.
      * assert (Hc : str_contains "=" (fst (split1 ";" (str_strip raw_line))) = false).
        { apply split1_snd_None. now rewrite Es. }
        rewrite Hc. reflexivity.
    + apply IH.
Qed.

Lemma parse_response_cookies_spec (headers : Headers) :
  if existsb malformed_set_cookie (set_cookie_lines headers)
  then _parse_response_cookies headers = Raise ValueError
  else exists cookies, _parse_response_cookies headers = Ok cookies.
Proof.
  unfold _parse_response_cookies, set_cookie_lines.
  destruct (str_truthy (header_get2 headers "Set-Cookie" "set-cookie")); simpl.
  - apply parse_set_cookie_lines_spec.
  - eauto.
Qed.


Lemma fold_set_cookie_attr_name (attrs : list string) (cookie : HarCookie.t) :
  HarCookie.name (fold_left set_cookie_attr attrs cookie) = HarCookie.name cookie
  /\ HarCookie.value (fold_left set_cookie_attr attrs cookie) = HarCookie.value cookie.
Proof.
  revert cookie. induction attrs as [|a attrs IH]; intros cookie; simpl; auto.
  destruct (IH (set_cookie_attr cookie a)) as [H1 H2]. rewrite H1, H2.
  unfold set_cookie_attr.
  destruct (String.eqb _ "httponly"); simpl; auto.
  destruct (String.eqb _ "secure"); simpl; auto.
  destruct (String.prefix "path=" _); simpl; auto.
  destruct (String.prefix "domain=" _); simpl; auto.
Qed.

Lemma parse_set_cookie_lines_names (lines : list string) :
  forall cookies cookies' : list HarCookie.t,
    Forall (fun c => str_truthy (HarCookie.name c) = true) cookies ->
    parse_set_cookie_lines lines cookies = Ok cookies' ->
    Forall (fun c => str_truthy (HarCookie.name c) = true) cookies'.
Proof.
  induction lines as [|raw_line lines IH]; intros cookies cookies' Hall; simpl.
  - intros Hc. now inversion Hc; subst.
  - destruct (str_contains "=" (str_strip raw_line)); simpl; [|now apply IH].
    destruct (split1 "=" (fst (split1 ";" (str_strip raw_line)))) as [name [value|]];
      [|discriminate].
    destruct (str_truthy (str_strip name)) eqn:En; simpl; [|now apply IH].
    apply IH. apply Forall_app. split; auto. constructor; [|constructor].
    now rewrite (proj1 (fold_set_cookie_attr_name _ _)).
Qed.

Lemma parse_request_cookies_names (headers : Headers) :
  Forall (fun c => str_truthy (HarCookie.name c) = true
                   /\ HarCookie.path c = None /\ HarCookie.domain c = None
                   /\ HarCookie.httpOnly c = None /\ HarCookie.secure c = None)
         (_parse_request_cookies headers).
Proof.
  unfold _parse_request_cookies.
  destruct (str_truthy (header_get2 headers "Cookie" "cookie")); simpl; [|constructor].
  induction (split ";" (header_get2 headers "Cookie" "cookie")) as [|raw_pair l IH];
    simpl; [constructor|].
  apply Forall_app. split; auto.
  destruct (split1 "=" (str_strip raw_pair)) as [name [value|]]; [|constructor].
  destruct (str_truthy (str_strip name)) eqn:En; constructor; simpl; auto.
Qed.

(** X6.  Cookies have names.  In every entry that a recorder holds, each
    cookie of the request and of the response has a non-empty name (a pair
    or a line whose name is empty after stripping is skipped), and a request
    cookie carries a name and a value only: no path, domain, httpOnly or
    secure. *)
Theorem cookies_have_names (s : HarRecorder.t num) (e : HarEntry.t num)
    (c : HarCookie.t) :
  reachable s -> In e (HarRecorder._entries s) ->
  (In c (HarRequest.cookies (HarEntry.request e)) ->
   HarCookie.name c <> ""
   /\ HarCookie.path c = None /\ HarCookie.domain c = None
   /\ HarCookie.httpOnly c = None /\ HarCookie.secure c = None)
  /\ (In c (HarResponse.cookies (HarEntry.response e)) -> HarCookie.name c <> "").
Proof.
  intros Hs Hin.
  destruct (reachable_entries_finalized e Hs Hin) as (now & p & Hb).
  unfold _build_entry, _build_har_response in Hb.
  destruct (_parse_response_cookies _) as [rc|ex] eqn:Er; simpl in Hb; [|discriminate].
  inversion Hb; subst; clear Hb. simpl. split.
  - intros Hc.
    pose proof (proj1 (Forall_forall _ _) (parse_request_cookies_names _) c Hc) as Hn.
    destruct Hn as (Hn & Hrest). split; auto.
    intros Hz. rewrite Hz in Hn. discriminate.
  - intros Hc. unfold _parse_response_cookies in Er.
    destruct (str_truthy (header_get2 _ "Set-Cookie" "set-cookie")).
    + simpl in Er.
      pose proof (parse_set_cookie_lines_names _ (Forall_nil _) Er) as Hall.
      pose proof (proj1 (Forall_forall _ _) Hall c Hc) as Hn. simpl in Hn.
      intros Hz. rewrite Hz in Hn. discriminate.
    + simpl in Er. inversion Er; subst. destruct Hc.
Qed.
End CookieFacts.

(** ** Requests whose entry cannot be built *)

Section LossFacts.
Context {num : Type} `{PyNumber num} `{PyRuntime num}.

Local Abbreviation Rec := (HarRecorder.t num).

Lemma build_entry_malformed (now : string) (p : Pending.t num) :
  existsb malformed_set_cookie (set_cookie_lines (response_headers_of p)) = true ->
  _build_entry now p = Raise ValueError.
Proof.
  intros Hm. pose proof (parse_response_cookies_spec (response_headers_of p)) as Hs.
  rewrite Hm in Hs. unfold _build_entry, _build_har_response.
  fold (response_headers_of p). now rewrite Hs.
Qed.


(** X7.  A request that fails or finishes with a malformed Set-Cookie line
    leaves no entry.  [_on_loading_failed] has popped the pending entry and
    the running total of the request when [_build_entry] raises: the handler
    ends with [ValueError] and the request is gone, with no entry appended.
    The same happens in the body task of a finished request, where the
    exception stays in the task. *)
Theorem malformed_set_cookie_loses_request (s : Rec) (request_id : string)
    (p : Pending.t num) :
  existsb malformed_set_cookie (set_cookie_lines (response_headers_of p)) = true ->
  (forall (now : string) (event : LoadingFailedEvent.t),
      LoadingFailedEvent.requestId event = request_id ->
      dict_get request_id (HarRecorder._pending s) = Some p ->
      exists s',
        step (LoadingFailed now event) s = Raised ValueError s'
        /\ dict_get request_id (HarRecorder._pending s') = None
        /\ dict_get request_id (HarRecorder._data_received_sizes s') = None
        /\ HarRecorder._entries s' = HarRecorder._entries s)
  /\ (forall (now : string) (n : nat) (body : string) (base64_encoded : bool),
      nth_error (HarRecorder._body_tasks s) n = Some (Fetching request_id p) ->
      let s' := state_of (step (TaskFinish now n body base64_encoded) s) in
      HarRecorder._entries s' = HarRecorder._entries s
      /\ HarRecorder._body_tasks s' = remove_nth n (HarRecorder._body_tasks s)
      /\ HarRecorder._pending s' = HarRecorder._pending s).
Proof.
  intros Hm. split.
  - intros now event Hid Hg. simpl. unfold _on_loading_failed. rewrite Hid, Hg.
    unfold build_and_append. rewrite build_entry_malformed by exact Hm.
    eexists. split; [reflexivity|]. simpl.
    rewrite !dict_get_del_same. auto.
  - intros now n body base64_encoded Hn. simpl. unfold _finalize_entry_finish.
    rewrite Hn. unfold build_and_append.
    rewrite build_entry_malformed by exact Hm. simpl. auto.
Qed.



End LossFacts.

(** ** The shape of an entry *)

Section EntryFacts.
Context {num : Type} `{PyNumber num} `{PyRuntime num}.

Local Abbreviation Rec := (HarRecorder.t num).

Lemma str_len_nonneg (s : string) : 0 <= str_len s.
Proof.
  induction s as [|c s IH]; simpl; [lia|].
  destruct (Z.land _ 192 =? 128); lia.
Qed.

Lemma content_size_nonneg (body : string) (is_base64 : bool) :
  0 <= content_size_of body is_base64.
Proof.
  unfold content_size_of, utf8_len.
  destruct (str_truthy body && is_base64).
  - destruct (b64decode body); [lia | apply str_len_nonneg].
  - destruct (str_truthy body); lia.
Qed.

Lemma optional_field_not_empty (v : option string) : optional_field v <> Some "".
Proof.
  unfold optional_field. destruct v as [[|c s]|]; simpl; discriminate.
Qed.

(** X9.  The sizes and the content of an entry.  In every entry that a
    recorder holds: the header sizes of the request and of the response are
    -1 (they are never computed); the request and the response carry the
    same httpVersion; the content size is at least 0; a content without text
    has size 0 and no encoding, its text is never empty and its encoding,
    when there is one, is base64; the body size of the response is -1 or
    positive, or 0 for a 304 response only; and serverIPAddress, connection
    and _resourceType are left out rather than empty. *)
Theorem entry_sizes_and_content (s : Rec) (e : HarEntry.t num) :
  reachable s -> In e (HarRecorder._entries s) ->
  let request := HarEntry.request e in
  let response := HarEntry.response e in
  let content := HarResponse.content response in
  HarRequest.headersSize request = -1
  /\ HarResponse.headersSize response = -1
  /\ HarRequest.httpVersion request = HarResponse.httpVersion response
  /\ 0 <= HarContent.size content
  /\ (HarContent.text content = None ->
      HarContent.size content = 0 /\ HarContent.encoding content = None)
  /\ HarContent.text content <> Some ""
  /\ (HarContent.encoding content = None \/ HarContent.encoding content = Some "base64")
  /\ (HarResponse.bodySize response = -1
      \/ 0 < HarResponse.bodySize response
      \/ (HarResponse.bodySize response = 0 /\ HarResponse.status response = 304))
  /\ HarEntry.serverIPAddress e <> Some ""
  /\ HarEntry.connection e <> Some ""
  /\ HarEntry._resourceType e <> Some "".
Proof.
  intros Hs Hin.
  destruct (reachable_entries_finalized e Hs Hin) as (now & p & Hb).
  unfold _build_entry, _build_har_response in Hb.
  destruct (_parse_response_cookies _) as [rc|ex] eqn:Er; simpl in Hb; [|discriminate].
  inversion Hb; subst; clear Hb. simpl.
  pose proof (content_size_nonneg (get_or (Pending.response_body p) "")
                (get_or (Pending.response_body_base64 p) false)) as Hsz.
  repeat match goal with |- _ /\ _ => split end; auto using optional_field_not_empty.
  - intros Ht. unfold content_size_of.
    destruct (str_truthy (get_or (Pending.response_body p) "")); [discriminate|].
    simpl. auto.
  - destruct (get_or (Pending.response_body p) "") as [|c b]; simpl; discriminate.
  - destruct (str_truthy _ && _); auto.
  - unfold _HTTP_NOT_MODIFIED.
    destruct (status_of p =? 304) eqn:E304.
    + apply Z.eqb_eq in E304. auto.
    + destruct (0 <? get_or (Pending.body_bytes p) (-1)) eqn:Eb.
      * apply Z.ltb_lt in Eb. auto.
      * destruct (0 <? content_size_of _ _) eqn:Ec; auto.
        apply Z.ltb_lt in Ec. auto.
Qed.



End EntryFacts.

(** ** Timings are never negative *)

Lemma Z_PyOrderLaws : PyOrderLaws Z.
Proof.
  constructor; cbn; intros; try reflexivity.
  - apply Z.leb_le. apply Z.ltb_ge in H. lia.
  - exact H.
  - apply Z.leb_le. apply Z.leb_le in H. apply Z.ltb_lt in H0. lia.
  - apply Z.leb_le. apply Z.ltb_lt in H. lia.
Qed.

Section TimingSignFacts.
Context {num : Type} `{PyNumber num} `{PyRuntime num} `{!PyOrderLaws num}.

Lemma clamp_nonneg (a : num) (n : Z) :
  num_le (num_of_Z 0) (num_round (num_max a (num_of_Z 0)) n) = true.
Proof.
  apply num_round_nonneg. unfold num_max.
  destruct (num_lt a (num_of_Z 0)) eqn:E.
  - apply num_le_0_0.
  - now apply num_not_lt_le.
Qed.

Lemma phase_sign (s e : num) :
  _phase s e = num_of_Z (-1) \/ num_le (num_of_Z 0) (_phase s e) = true.
Proof.
  unfold _phase. destruct (_ && _); [right; apply clamp_nonneg | now left].
Qed.

Lemma sum_positive_nonneg (l : list num) (a : num) :
  num_le (num_of_Z 0) a = true ->
  num_le (num_of_Z 0)
    (fold_left num_add (filter (fun v => num_lt (num_of_Z 0) v) l) a) = true.
Proof.
  revert a. induction l as [|v l IH]; intros a Ha; simpl; auto.
  destruct (num_lt (num_of_Z 0) v) eqn:E; simpl; auto.
  apply IH. now apply num_add_nonneg.
Qed.

(** X11.  No negative time.  In every entry that a recorder holds, the send,
    wait and receive timings are at least 0; the blocked, dns, connect and
    ssl timings are -1 or at least 0; and the time of the entry is at least
    0. *)
Theorem timings_never_negative (s : HarRecorder.t num) (e : HarEntry.t num) :
  reachable s -> In e (HarRecorder._entries s) ->
  let t := HarEntry.timings e in
  num_le (num_of_Z 0) (HarTimings.send t) = true
  /\ num_le (num_of_Z 0) (HarTimings.wait t) = true
  /\ num_le (num_of_Z 0) (HarTimings.receive t) = true
  /\ (HarTimings.blocked t = num_of_Z (-1)
      \/ num_le (num_of_Z 0) (HarTimings.blocked t) = true)
  /\ (HarTimings.dns t = num_of_Z (-1) \/ num_le (num_of_Z 0) (HarTimings.dns t) = true)
  /\ (HarTimings.connect t = num_of_Z (-1)
      \/ num_le (num_of_Z 0) (HarTimings.connect t) = true)
  /\ (HarTimings.ssl t = num_of_Z (-1) \/ num_le (num_of_Z 0) (HarTimings.ssl t) = true)
  /\ num_le (num_of_Z 0) (HarEntry.time e) = true.
Proof.
  intros Hs Hin.
  destruct (reachable_entries_finalized e Hs Hin) as (now & p & Hb).
  destruct (build_entry_inv _ _ Hb) as (r & _ & _ & _ & Ht & Htime).
  cbv zeta. rewrite Htime, Ht.
  assert (Hrcv : num_le (num_of_Z 0)
                   match receive_ms_of p with
                   | Some r => num_round r 3
                   | None => num_of_Z 0
                   end = true).
  { unfold receive_ms_of.
    destruct (num_truthy _ && num_truthy _ && num_lt _ _) eqn:E.
    - apply andb_true_iff in E. destruct E as [_ E].
      apply num_round_nonneg. now apply num_gap_nonneg.
    - apply num_le_0_0. }
  assert (Htotal : forall t : HarTimings.t num,
             num_le (num_of_Z 0) (num_round (total_time_of t) 2) = true).
  { intros t. apply num_round_nonneg. unfold total_time_of, num_sum.
    apply sum_positive_nonneg. apply num_le_0_0. }
  unfold _build_har_timings.
  destruct (Pending.timing p) as [timing|]; simpl;
    repeat match goal with |- _ /\ _ => split end;
    auto using clamp_nonneg, phase_sign, num_le_0_0.
  all: try (apply Htotal).
Qed.
End TimingSignFacts.

#[export] Existing Instance Z_PyOrderLaws.

(** ** The bytes of a redirect hop *)

Section RedirectFacts.
Context {num : Type} `{PyNumber num} `{PyRuntime num}.

Local Abbreviation Rec := (HarRecorder.t num).



End RedirectFacts.

(** ** [stop], once more *)

Section StopTwiceFacts.
Context {num : Type} `{PyNumber num} `{PyRuntime num}.

Local Abbreviation Rec := (HarRecorder.t num).

(** X13.  A recorder that [stop] has returned from is at rest: it holds no
    pending entry, no body task and no callback id, its mark that it enabled
    the network events is cleared, and a second [stop] returns and leaves it
    as it is, so that no entry is appended twice. *)
Theorem stop_twice (fetch fetch' : string -> string * bool)
    (task_clock flush_clock task_clock' flush_clock' : nat -> string) (s s' : Rec) :
  NoDup (dict_keys (HarRecorder._pending s)) ->
  stop fetch task_clock flush_clock s = Returned s' ->
  HarRecorder._pending s' = []
  /\ HarRecorder._body_tasks s' = []
  /\ HarRecorder._callback_ids s' = []
  /\ HarRecorder._network_was_enabled s' = false
  /\ stop fetch' task_clock' flush_clock' s' = Returned s'.
Proof.
  intros Hnd Hstop.
  assert (Hrest : HarRecorder._pending s' = []
                  /\ HarRecorder._body_tasks s' = []
                  /\ HarRecorder._callback_ids s' = []
                  /\ HarRecorder._network_was_enabled s' = false).
  { unfold stop, _flush_pending in Hstop.
    match type of Hstop with
    | context [_flush_pending_loop flush_clock 0 (dict_keys (HarRecorder._pending ?q)) ?q] =>
        assert (Hq : NoDup (dict_keys (HarRecorder._pending q)))
          by (simpl; now apply gather_keeps_keys_distinct);
        pose proof (@flush_loop_spec _ _ _ flush_clock (HarRecorder._pending q) Hq 0%nat q eq_refl)
          as Hspec;
        destruct (flush_loop_keeps_registration flush_clock
                    (dict_keys (HarRecorder._pending q)) 0 q) as [Hc _];
        assert (Hcq : HarRecorder._callback_ids q = [])
    end.
    { simpl.
      match goal with
      | |- context [gather_body_tasks fetch task_clock 0 ?l ?t] =>
          destruct (gather_keeps_registration fetch task_clock l 0 t) as [G1 _]
      end.
      rewrite G1. reflexivity. }
    rewrite Hcq in Hc. clear Hcq Hq.
    destruct (_flush_pending_loop flush_clock 0 _ _) as [s1|ex s1]; [|discriminate].
    destruct Hspec as (Hp & Ht & _). simpl in Hc, Ht.
    inversion Hstop; subst s'; clear Hstop. simpl. auto. }
  destruct Hrest as (Hp & Ht & Hc & Hn). repeat split; auto.
  unfold stop, _flush_pending. simpl. rewrite Ht, Hp. simpl.
  destruct s'; simpl in *. now subst.
Qed.
End StopTwiceFacts.

(** ** Requests do not interfere, and entries stay *)

Section IsolationFacts.
Context {num : Type} `{PyNumber num} `{PyRuntime num}.

Local Abbreviation Rec := (HarRecorder.t num).

Lemma build_and_append_tables (now : string) (p : Pending.t num) (s : Rec) :
  HarRecorder._pending (state_of (build_and_append now p s)) = HarRecorder._pending s
  /\ HarRecorder._data_received_sizes (state_of (build_and_append now p s)) =
     HarRecorder._data_received_sizes s
  /\ exists more, HarRecorder._entries (state_of (build_and_append now p s)) =
                  HarRecorder._entries s ++ more.
Proof.
  unfold build_and_append. destruct (_build_entry now p) as [e|ex]; simpl.
  - repeat split; auto. now exists [e].
  - repeat split; auto. exists []. now rewrite app_nil_r.
Qed.

(** X21.  Requests do not interfere.  An event, or a body task that
    starts, changes the pending entry and the running byte total of its
    own request id only: for every other request id both are after the
    step what they were before it, whether the handler returns or
    raises.  A body task that finishes changes neither table. *)
Theorem requests_do_not_interfere (i : @Input num) (s : Rec) (other : string) :
  concerns i s <> Some other ->
  dict_get other (HarRecorder._pending (state_of (step i s))) =
  dict_get other (HarRecorder._pending s)
  /\ dict_get other (HarRecorder._data_received_sizes (state_of (step i s))) =
     dict_get other (HarRecorder._data_received_sizes s).
Proof.
  intros Hc.
  assert (Hne : forall r, concerns i s = Some r -> other <> r) by (intros r Hr Heq; congruence).
  destruct i; simpl in *.
  - specialize (Hne _ eq_refl). unfold _on_request_will_be_sent.
    destruct (filtered_out s _); simpl; auto.
    destruct (RequestWillBeSentEvent.redirectResponse event) as [rr|]; simpl.
    + destruct (dict_mem _ _); simpl.
      * unfold _finalize_redirect_entry.
        destruct (dict_get (RequestWillBeSentEvent.requestId event) _) as [p|]; simpl.
        -- match goal with
           | |- context [build_and_append now ?q ?t] =>
               destruct (build_and_append_tables now q t) as (B1 & B2 & _);
               destruct (build_and_append now q t) as [s1|ex s1]
           end; simpl in *; rewrite ?B1, ?B2;
             rewrite ?dict_get_set_other, ?dict_get_del_other by assumption; auto.
        -- rewrite dict_get_set_other, dict_get_del_other by assumption. auto.
      * rewrite dict_get_set_other by assumption. auto.
    + rewrite dict_get_set_other by assumption. auto.
  - specialize (Hne _ eq_refl). unfold _on_request_extra_info.
    destruct (dict_get (RequestWillBeSentExtraInfoEvent.requestId event) _); simpl; auto.
    destruct (dict_truthy _); simpl; auto.
    rewrite dict_get_set_other by assumption. auto.
  - specialize (Hne _ eq_refl). unfold _on_response_received.
    destruct (dict_get (ResponseReceivedEvent.requestId event) _); simpl; auto.
    rewrite dict_get_set_other by assumption. auto.
  - specialize (Hne _ eq_refl). unfold _on_response_extra_info.
    destruct (dict_get (ResponseReceivedExtraInfoEvent.requestId event) _); simpl; auto.
    rewrite dict_get_set_other by assumption. auto.
  - specialize (Hne _ eq_refl).
    rewrite dict_get_set_other by assumption. auto.
  - specialize (Hne _ eq_refl). unfold _on_loading_finished.
    destruct (dict_get (LoadingFinishedEvent.requestId event) _); simpl; auto.
    rewrite dict_get_set_other, dict_get_del_other by assumption. auto.
  - specialize (Hne _ eq_refl). unfold _on_loading_failed.
    destruct (dict_get (LoadingFailedEvent.requestId event) _); simpl.
    + match goal with
      | |- context [build_and_append now ?q ?t] =>
          destruct (build_and_append_tables now q t) as (B1 & B2 & _)
      end.
      rewrite B1, B2. simpl. rewrite !dict_get_del_other by assumption. auto.
    + rewrite dict_get_del_other by assumption. auto.
  - unfold _finalize_entry_start.
    destruct (nth_error _ _) as [[r|r p]|]; simpl; auto.
    specialize (Hne _ eq_refl).
    destruct (dict_get r _); simpl; rewrite dict_get_del_other by assumption; auto.
  - unfold _finalize_entry_finish.
    destruct (nth_error _ _) as [[r|r p]|]; simpl; auto.
    match goal with
    | |- context [build_and_append now ?q ?t] =>
        destruct (build_and_append_tables now q t) as (B1 & B2 & _)
    end.
    rewrite B1, B2. simpl. auto.
Qed.

Lemma step_entries_grow (i : @Input num) (s : Rec) :
  exists more, HarRecorder._entries (state_of (step i s)) = HarRecorder._entries s ++ more.
Proof.
  assert (Hsame : forall t : Rec, HarRecorder._entries t = HarRecorder._entries s ->
                    exists more, HarRecorder._entries t = HarRecorder._entries s ++ more).
  { intros t Ht. exists []. now rewrite app_nil_r. }
  destruct i; simpl.
  - unfold _on_request_will_be_sent.
    destruct (filtered_out s _); simpl; auto.
    destruct (RequestWillBeSentEvent.redirectResponse event) as [rr|]; simpl; auto.
    destruct (dict_mem _ _); simpl; auto.
    unfold _finalize_redirect_entry.
    destruct (dict_get _ _) as [p|]; simpl; auto.
    match goal with
    | |- context [build_and_append now ?q ?t] =>
        destruct (build_and_append_tables now q t) as (_ & _ & Hb);
        destruct (build_and_append now q t) as [s1|ex s1]
    end; simpl in *; exact Hb.
  - unfold _on_request_extra_info.
    destruct (dict_get _ _); simpl; auto. destruct (dict_truthy _); simpl; auto.
  - unfold _on_response_received. destruct (dict_get _ _); simpl; auto.
  - unfold _on_response_extra_info. destruct (dict_get _ _); simpl; auto.
  - auto.
  - unfold _on_loading_finished. destruct (dict_get _ _); simpl; auto.
  - unfold _on_loading_failed. destruct (dict_get _ _); simpl; auto.
    match goal with
    | |- context [build_and_append now ?q ?t] =>
        destruct (build_and_append_tables now q t) as (_ & _ & Hb)
    end.
    exact Hb.
  - unfold _finalize_entry_start.
    destruct (nth_error _ _) as [[r|r p]|]; simpl; auto.
    destruct (dict_get _ _); simpl; auto.
  - unfold _finalize_entry_finish.
    destruct (nth_error _ _) as [[r|r p]|]; simpl; auto.
    match goal with
    | |- context [build_and_append now ?q ?t] =>
        destruct (build_and_append_tables now q t) as (_ & _ & Hb)
    end.
    exact Hb.
Qed.

Lemma run_entries_grow (inputs : list (@Input num)) (s : Rec) :
  exists more, HarRecorder._entries (run inputs s) = HarRecorder._entries s ++ more.
Proof.
  revert s. unfold run. induction inputs as [|i inputs IH]; intros s; simpl.
  - exists []. now rewrite app_nil_r.
  - destruct (IH (state_of (step i s))) as [m2 H2].
    destruct (step_entries_grow i s) as [m1 H1].
    exists (m1 ++ m2). now rewrite H2, H1, app_assoc.
Qed.

Lemma gather_entries_grow (fetch : string -> string * bool) (clock : nat -> string)
    (tasks : list (BodyTask num)) :
  forall (k : nat) (s : Rec),
  exists more,
    HarRecorder._entries (gather_body_tasks fetch clock k tasks s) =
    HarRecorder._entries s ++ more.
Proof.
  induction tasks as [|[r|r p] tasks IH]; intros k s; simpl.
  - exists []. now rewrite app_nil_r.
  - destruct (dict_get r (HarRecorder._pending s)) as [p|].
    + destruct (fetch r) as [body b64].
      match goal with
      | |- context [gather_body_tasks _ _ _ _ (state_of (build_and_append ?n ?q ?t))] =>
          destruct (IH (S k) (state_of (build_and_append n q t))) as [m2 H2];
          destruct (build_and_append_tables n q t) as (_ & _ & [m1 H1])
      end.
      exists (m1 ++ m2). rewrite H2, H1. simpl. now rewrite app_assoc.
    + destruct (IH (S k) (set_pending (dict_del r (HarRecorder._pending s)) s)) as [m H1].
      exists m. exact H1.
  - destruct (fetch r) as [body b64].
    match goal with
    | |- context [gather_body_tasks _ _ _ _ (state_of (build_and_append ?n ?q ?t))] =>
        destruct (IH (S k) (state_of (build_and_append n q t))) as [m2 H2];
        destruct (build_and_append_tables n q t) as (_ & _ & [m1 H1])
    end.
    exists (m1 ++ m2). rewrite H2, H1. now rewrite app_assoc.
Qed.

Lemma flush_loop_entries_grow (clock : nat -> string) (keys : list string) :
  forall (k : nat) (s : Rec),
  exists more,
    HarRecorder._entries (state_of (_flush_pending_loop clock k keys s)) =
    HarRecorder._entries s ++ more.
Proof.
  induction keys as [|request_id keys IH]; intros k s; simpl.
  - exists []. now rewrite app_nil_r.
  - destruct (dict_get request_id (HarRecorder._pending s)) as [p|]; simpl.
    + match goal with
      | |- context [build_and_append (clock k) ?q ?t] =>
          destruct (build_and_append_tables (clock k) q t) as (_ & _ & [m1 H1]);
          destruct (build_and_append (clock k) q t) as [s1|ex s1]
      end; simpl in *.
      * destruct (IH (S k) s1) as [m2 H2]. exists (m1 ++ m2).
        now rewrite H2, H1, app_assoc.
      * exists m1. exact H1.
    + exists []. now rewrite app_nil_r.
Qed.

(** X22.  Entries stay.  The entries of a recorder are only ever
    appended to: after any events and task steps, and after [stop],
    whether it returns or raises, the recorder holds the entries it
    held before, unchanged and in the same places, followed by the new
    ones. *)
Theorem entries_only_grow (inputs : list (@Input num)) (fetch : string -> string * bool)
    (task_clock flush_clock : nat -> string) (s : Rec) :
  (exists more, HarRecorder._entries (run inputs s) = HarRecorder._entries s ++ more)
  /\ (exists more,
        HarRecorder._entries (state_of (stop fetch task_clock flush_clock (run inputs s))) =
        HarRecorder._entries s ++ more).
Proof.
  destruct (run_entries_grow inputs s) as [m1 H1].
  split; [now exists m1|].
  unfold stop, _flush_pending.
  match goal with
  | |- context [_flush_pending_loop flush_clock 0 ?keys ?q] =>
      destruct (flush_loop_entries_grow flush_clock keys 0 q) as [m3 H3];
      destruct (_flush_pending_loop flush_clock 0 keys q) as [s'|ex s']
  end; simpl in *;
  match type of H3 with
  | context [gather_body_tasks fetch task_clock 0 ?l ?t] =>
      destruct (gather_entries_grow fetch task_clock l 0 t) as [m2 H2]
  end; simpl in *;
  exists (m1 ++ m2 ++ m3); rewrite H3, H2, H1; now rewrite !app_assoc.
Qed.
End IsolationFacts.

(** ** The export of entries recorded in order *)

Section ExportFacts.
Context {num : Type}.

Local Abbreviation started := (@HarEntry.startedDateTime num).
Local Abbreviation in_order :=
  (StronglySorted (fun a b : HarEntry.t num => String.leb (started a) (started b) = true)).

(** Sorting a list that is in order gives it back. *)
Lemma sorted_in_order (l : list (HarEntry.t num)) : in_order l -> sorted started l = l.
Proof.
  induction 1 as [|a l Hs IH Ha]; simpl; auto.
  rewrite IH. destruct l as [|x l]; simpl; auto.
  inversion Ha as [|? ? Hx Hl]; subst. now rewrite Hx.
Qed.

Lemma sorted_insert_snoc (a e : HarEntry.t num) (m : list (HarEntry.t num)) :
  String.leb (started a) (started e) = true ->
  sorted_insert started a (m ++ [e]) = sorted_insert started a m ++ [e].
Proof.
  intros Hae. induction m as [|x m IH]; simpl.
  - now rewrite Hae.
  - destruct (String.leb (started a) (started x)); simpl; auto. now rewrite IH.
Qed.

(** X14.  The export and the order of recording.  When the entries were
    appended in the order of their startedDateTime, [entries] and [to_dict]
    return them in the order of recording.  Sorting what [entries] returned
    changes nothing.  And an entry appended with a startedDateTime not
    before those of the entries held comes last in the export, after the
    export of the others. *)
Theorem export_in_recording_order (version : string) (r : HarRecorder.t num) :
  (in_order (HarRecorder._entries r) ->
   HarCapture.entries r = HarRecorder._entries r
   /\ HarLog.entries (Har.log (HarCapture.to_dict version r)) = HarRecorder._entries r)
  /\ sorted started (HarCapture.entries r) = HarCapture.entries r
  /\ (forall e : HarEntry.t num,
        (forall x, In x (HarRecorder._entries r) ->
                   String.leb (started x) (started e) = true) ->
        HarCapture.entries (set_entries (HarRecorder._entries r ++ [e]) r) =
        HarCapture.entries r ++ [e]).
Proof.
  unfold HarCapture.entries, HarCapture.to_dict. simpl. split; [|split].
  - intros Ho. now rewrite (sorted_in_order Ho).
  - apply sorted_in_order. apply sorted_strongly_sorted.
  - intros e. generalize (HarRecorder._entries r). intros l.
    induction l as [|a l IH]; intros Hle; simpl; auto.
    rewrite IH by (intros x Hx; apply Hle; now right).
    apply sorted_insert_snoc. apply Hle. now left.
Qed.
End ExportFacts.

(** ** The HTTP version *)

Section VersionFacts.
Context {num : Type} `{PyNumber num} `{PyRuntime num} `{!PyCaseLaws num}.

Lemma version_token_truthy (s : string) :
  String.eqb s "h2" || String.eqb s "h3" || String.eqb s "h2c" = true ->
  str_truthy s = true.
Proof. destruct s; [discriminate | reflexivity]. Qed.

(** X15.  [_normalize_http_version] normalizes.  A version it returned is
    returned as it is, and the letter case of the protocol does not matter:
    the protocol in upper case and the protocol in lower case have the
    version of the protocol itself. *)
Theorem normalize_http_version_stable (protocol : string) :
  _normalize_http_version (_normalize_http_version protocol) =
  _normalize_http_version protocol
  /\ _normalize_http_version (str_upper protocol) = _normalize_http_version protocol
  /\ _normalize_http_version (str_lower protocol) = _normalize_http_version protocol.
Proof.
  unfold _normalize_http_version.
  rewrite str_upper_truthy, str_lower_truthy, str_lower_upper, str_lower_lower,
    str_upper_upper, str_upper_lower.
  destruct (str_truthy protocol) eqn:Et; simpl; [|auto].
  destruct (String.eqb (str_lower protocol) "h2" || String.eqb (str_lower protocol) "h3"
            || String.eqb (str_lower protocol) "h2c") eqn:Eh.
  - rewrite (version_token_truthy _ Eh), str_lower_lower, Eh. simpl. auto.
  - destruct (String.prefix "http/" (str_lower protocol)) eqn:Ep.
    + rewrite str_upper_truthy, Et, str_lower_upper, Eh, Ep, str_upper_upper.
      simpl. auto.
    + simpl. auto.
Qed.
End VersionFacts.

(** The laws of letter case on the ASCII runtime. *)
Section AsciiCase.
Import AsciiRuntime.

Lemma lower_upper_char (c : ascii) :
  lower_char (lower_char c) = lower_char c
  /\ lower_char (upper_char c) = lower_char c
  /\ upper_char (upper_char c) = upper_char c
  /\ upper_char (lower_char c) = upper_char c.
Proof.
  destruct c as [[|] [|] [|] [|] [|] [|] [|] [|]]; vm_compute; auto.
Qed.

Lemma map_chars_compose (f g h : ascii -> ascii) (s : string) :
  (forall c, f (g c) = h c) -> map_chars f (map_chars g s) = map_chars h s.
Proof.
  intros Hc. induction s as [|c s IH]; simpl; auto. now rewrite Hc, IH.
Qed.

Lemma Ascii_PyCaseLaws : PyCaseLaws Z.
Proof.
  constructor; intros s; cbn.
  - apply map_chars_compose. intros c. apply lower_upper_char.
  - apply map_chars_compose. intros c. apply lower_upper_char.
  - apply map_chars_compose. intros c. apply lower_upper_char.
  - apply map_chars_compose. intros c. apply lower_upper_char.
  - now destruct s.
  - now destruct s.
Qed.
End AsciiCase.

(** ** The routing of the elements found *)

Section InheritFacts.
Import FindElementsMixin.
Variable ConnectionHandler : Type.
Variable Params : Type.

Local Abbreviation Ctx := (Context ConnectionHandler).
Local Abbreviation Frame := (IFrameContext ConnectionHandler).

(** X16.  Elements found from a routed context are routed like it.  Let
    [_apply_iframe_context_to_element] give an [IFrameContext] to a new
    element that has none of its own with a session handler.  An element
    that is not an iframe is then routed through the session handler and the
    session id of that [IFrameContext] when it has a session handler, and as
    before otherwise.  An iframe element gets its own routing: the session
    handler of the [IFrameContext], or the connection of the context that
    found it when there is none, with the session id of the [IFrameContext],
    whose frame id it keeps as its parent frame.  So, from a context that is
    routed by the [IFrameContext] it inherited, every element found sends
    its commands through the same handler with the same session id as that
    context: a command executed on the element goes to that handler, stamped
    with that session id when it is not empty. *)
Theorem found_elements_inherit_routing (self element : Ctx) :
  (forall iframe_context : Frame,
      is_iframe element = false ->
      _resolve_routing (_apply_iframe_context_to_element self element (Some iframe_context)) =
      match session_handler iframe_context with
      | Some handler => (handler, session_id iframe_context)
      | None =>
          match _routing_session_handler element with
          | Some routing_handler => (routing_handler, _routing_session_id element)
          | None => (_connection_handler element, None)
          end
      end)
  /\ (forall iframe_context : Frame,
      is_iframe element = true ->
      inherited_route element = None ->
      _resolve_routing (_apply_iframe_context_to_element self element (Some iframe_context)) =
      (get_or (session_handler iframe_context) (_connection_handler self),
       session_id iframe_context)
      /\ _routing_parent_frame_id
           (_apply_iframe_context_to_element self element (Some iframe_context)) =
         Some (frame_id iframe_context))
  /\ (forall route : ConnectionHandler * option string,
      inherited_route self = Some route ->
      inherited_route element = None ->
      _resolve_routing (_apply_iframe_context_to_element self element (_iframe_context self)) =
      _resolve_routing self
      /\ _resolve_routing self = route
      /\ forall command : Command Params,
           let found :=
             _apply_iframe_context_to_element self element (_iframe_context self) in
           handler (_execute_command found command) = fst route
           /\ sent (_execute_command found command) = stamp (snd route) command).
Proof.
  split; [|split].
  - intros ic Hif. unfold _apply_iframe_context_to_element, _resolve_routing.
    rewrite Hif. simpl. destruct (session_handler ic); reflexivity.
  - intros ic Hif Hin. unfold _apply_iframe_context_to_element. rewrite Hif.
    unfold _resolve_routing, inherited_route in *. simpl.
    destruct (_iframe_context element) as [own|]; simpl.
    + destruct (session_handler own); [discriminate|].
      destruct (session_handler ic); auto.
    + destruct (session_handler ic); auto.
  - intros route Hself Hin.
    assert (Hroute : _resolve_routing
                       (_apply_iframe_context_to_element self element (_iframe_context self)) =
                     route /\ _resolve_routing self = route).
    { unfold _apply_iframe_context_to_element, _resolve_routing, inherited_route in *.
      destruct (_iframe_context self) as [ic|]; [|discriminate].
      destruct (session_handler ic) as [h|] eqn:Eh; [|discriminate].
      inversion Hself; subst route; clear Hself.
      destruct (is_iframe element); simpl.
      + destruct (_iframe_context element) as [own|]; simpl.
        * destruct (session_handler own); [discriminate|]. rewrite ?Eh. auto.
        * rewrite ?Eh. auto.
      + rewrite ?Eh. auto. }
    destruct Hroute as [Hfound Hown]. rewrite Hfound, Hown.
    repeat split; auto; unfold _execute_command; rewrite Hfound;
      destruct route as [h sid]; reflexivity.
Qed.
End InheritFacts.

(** ** The search and the wait for one selector *)

Section WaitFacts.
Import FindElementsMixin.
Variable ConnectionHandler : Type.
Context {num : Type} `{PyNumber num}.
Variable parse_iframe_segments_xpath : string -> list (By * string).
Variable parse_iframe_segments_css : string -> list (By * string).

Local Abbreviation Ctx := (Context ConnectionHandler).
Local Abbreviation Brw := (Browser ConnectionHandler).
Local Abbreviation find_or_wait :=
  (find_or_wait_element parse_iframe_segments_xpath parse_iframe_segments_css).
Local Abbreviation segments :=
  (segments_of parse_iframe_segments_xpath parse_iframe_segments_css).

(** A search with [raise_exc=False] does not raise. *)
Lemma find_method_quiet (browser : Brw) (self : Ctx) (find_all : bool)
    (by_ : By) (value : string) :
  exists found, find_method browser self find_all by_ value false = Ok found.
Proof.
  unfold find_method. destruct find_all.
  - destruct (found_elements browser self by_ value); eauto.
  - destruct (found_element browser self by_ value); eauto.
Qed.

(** The loop, turn by turn: the turns that find nothing before the
    timeout are passed over. *)
Lemma wait_loop_skips (self : Ctx) (by_ : By) (value : string) (timeout : num)
    (find_all raise_exc : bool) (start_time : num)
    (before rest : list (Brw * num)) :
  (forall turn, In turn before ->
     exists found,
       find_method (fst turn) self find_all by_ value false = Ok found
       /\ is_result found = false
       /\ num_lt timeout (num_sub (snd turn) start_time) = false) ->
  wait_loop self by_ value timeout find_all raise_exc start_time (before ++ rest) =
  wait_loop self by_ value timeout find_all raise_exc start_time rest.
Proof.
  induction before as [|[browser time] before IH]; intros Hb; simpl; auto.
  destruct (Hb (browser, time) (or_introl eq_refl)) as (found & Hf & Hr & Ht).
  simpl in Hf, Ht. rewrite Hf, Hr, Ht.
  apply IH. intros turn Hin. apply Hb. now right.
Qed.

(** X17.  Waiting for one selector.  For a selector of one segment and with
    a timeout, [find_or_wait_element] searches turn by turn, without
    raising, and returns what the first successful search found: the
    element, or the non-empty list.  When the search of a turn finds nothing
    and the clock has passed the timeout, it ends with [WaitElementTimeout]
    when asked to raise and with [None] otherwise, also when all elements
    were requested. *)
Theorem wait_for_one_selector (self : Ctx) (by_ : By) (value : string)
    (timeout : num) (find_all raise_exc : bool) (start_time : num)
    (before after : list (Brw * num)) (browser : Brw) (time : num) (found : Found ConnectionHandler) :
  (List.length (segments by_ value) <= 1)%nat ->
  num_truthy timeout = true ->
  (forall turn, In turn before ->
     exists nothing,
       find_method (fst turn) self find_all by_ value false = Ok nothing
       /\ is_result nothing = false
       /\ num_lt timeout (num_sub (snd turn) start_time) = false) ->
  find_method browser self find_all by_ value false = Ok found ->
  (is_result found = true ->
   find_or_wait self by_ value timeout find_all raise_exc start_time
     (before ++ (browser, time) :: after) = Some (Ok found))
  /\ (is_result found = false ->
      num_lt timeout (num_sub time start_time) = true ->
      find_or_wait self by_ value timeout find_all raise_exc start_time
        (before ++ (browser, time) :: after) =
      Some (if raise_exc then Raise WaitElementTimeout
            else Ok (NoneFound ConnectionHandler))).
Proof.
  intros Hseg Htimeout Hbefore Hfound.
  assert (Hloop : find_or_wait self by_ value timeout find_all raise_exc start_time
                    (before ++ (browser, time) :: after) =
                  wait_loop self by_ value timeout find_all raise_exc start_time
                    ((browser, time) :: after)).
  { unfold find_or_wait_element.
    destruct (segments by_ value) as [|seg [|seg' rest]]; simpl in Hseg; try lia;
      rewrite Htimeout; simpl; now apply wait_loop_skips. }
  rewrite Hloop. simpl. rewrite Hfound. split.
  - intros Hr. now rewrite Hr.
  - intros Hr Hlate. now rewrite Hr, Hlate.
Qed.


(** The retry loop of the walk, turn by turn: the turns whose attempt
    finds nothing before the timeout are passed over. *)
Lemma retry_loop_skips (self : Ctx) (segs : list (By * string)) (timeout : num)
    (find_all raise_exc : bool) (start_time : num)
    (before rest : list (Page ConnectionHandler * num)) :
  num_truthy timeout = true ->
  (forall turn, In turn before ->
     is_result (fst (_attempt_find_across_iframes (fst turn) self segs find_all)) = false
     /\ num_lt timeout (num_sub (snd turn) start_time) = false) ->
  retry_loop self segs timeout find_all raise_exc start_time (before ++ rest) =
  retry_loop self segs timeout find_all raise_exc start_time rest.
Proof.
  intros Htimeout. induction before as [|[page time] before IH]; intros Hb; simpl; auto.
  destruct (Hb (page, time) (or_introl eq_refl)) as (Hr & Ht).
  simpl in Hr, Ht. rewrite Hr, Htimeout, Ht. simpl.
  apply IH. intros turn Hin. apply Hb. now right.
Qed.

(** X19.  A selector across iframes that is found.  When the selector has
    several segments, [find_or_wait_element] walks them across iframes at
    each turn.  Once the attempts of the turns before have found nothing
    within the timeout, the turn in which every segment before the last
    leads into an iframe and the last segment finds something ends the
    search: the result is what the search of the last segment found in the
    last iframe, the element or the non-empty list of elements. *)
Theorem selector_across_iframes_found (self : Ctx) (by_ : By) (value : string)
    (timeout : num) (find_all raise_exc : bool) (start_time : num)
    (hops : list (By * string)) (last : By * string)
    (before after : list (Brw * num)) (browser : Brw) (time : num) (reached : Ctx) :
  segments by_ value = hops ++ [last] ->
  hops <> [] ->
  (before = [] \/ num_truthy timeout = true) ->
  (forall turn, In turn before ->
     is_result (fst (_attempt_find_across_iframes (page_of (fst turn)) self
                       (hops ++ [last]) find_all)) = false
     /\ num_lt timeout (num_sub (snd turn) start_time) = false) ->
  walk_iframes (page_of browser) self hops = Some reached ->
  is_result (final_search (page_of browser) reached last find_all) = true ->
  find_or_wait self by_ value timeout find_all raise_exc start_time
    (before ++ (browser, time) :: after) =
  Some (Ok (final_search (page_of browser) reached last find_all)).
Proof.
  intros Hseg Hhops Hmode Hbefore Hwalk Hres.
  unfold find_or_wait_element. rewrite Hseg.
  destruct hops as [|hop hops]; [congruence|].
  assert (Hshape : exists s1 s2 rest, (hop :: hops) ++ [last] = s1 :: s2 :: rest).
  { destruct hops; simpl; eauto. }
  destruct Hshape as (s1 & s2 & rest & Hshape). rewrite Hshape. rewrite <- Hshape.
  unfold _find_across_iframes. rewrite map_app.
  assert (Hskip : retry_loop self ((hop :: hops) ++ [last]) timeout find_all raise_exc
                    start_time
                    (map (fun turn : Brw * num => (page_of (fst turn), snd turn)) before
                     ++ map (fun turn : Brw * num => (page_of (fst turn), snd turn))
                            ((browser, time) :: after)) =
                  retry_loop self ((hop :: hops) ++ [last]) timeout find_all raise_exc
                    start_time
                    (map (fun turn : Brw * num => (page_of (fst turn), snd turn))
                         ((browser, time) :: after))).
  { destruct Hmode as [-> | Htimeout]; [reflexivity|].
    apply retry_loop_skips; auto.
    intros turn Hin. apply in_map_iff in Hin. destruct Hin as (t0 & <- & Hin0).
    simpl. now apply Hbefore. }
  rewrite Hskip. simpl map. cbn [retry_loop].
  unfold _attempt_find_across_iframes.
  destruct (attempt_loop_spec (page_of browser) last find_all (hop :: hops) self [])
    as (extra & _ & Hspec).
  rewrite Hwalk in Hspec. destruct Hspec as [Hspec _].
  rewrite Hspec. cbn [fst]. now rewrite Hres.
Qed.
End WaitFacts.

(** ** The commands of the two searches *)

Section CommandFacts.
Import FindElementsMixin.
Variable Scripts : Scripts.t.
Variable _ensure_relative_xpath : string -> string.

Local Abbreviation one := (_get_find_element_command Scripts _ensure_relative_xpath).
Local Abbreviation all := (_get_find_elements_command Scripts _ensure_relative_xpath).

(** X20.  Where a search runs.  With a non-empty object id, the command of a
    search for one element and that of a search for all elements are calls
    of a function on that object, which do not return by value: the search
    stays inside the element, whatever the selector.  Without object id both
    are evaluations in the execution context given.  The command for all
    elements is the command for one element made with the templates for all
    elements, but for a search by name without object id: for one element
    the name is searched as the XPath [//*[@name="..."]], for all elements
    it is used as it is as a CSS selector. *)
Theorem search_commands (by_ : By) (value object_id : string)
    (execution_context_id : option Z) :
  (str_truthy object_id = true ->
   (exists script, one by_ value object_id execution_context_id =
                   call_function_on script object_id false)
   /\ (exists script, all by_ value object_id execution_context_id =
                      call_function_on script object_id false))
  /\ (str_truthy object_id = false ->
      (exists script, one by_ value object_id execution_context_id =
                      evaluate script execution_context_id)
      /\ (exists script, all by_ value object_id execution_context_id =
                         evaluate script execution_context_id))
  /\ (by_ <> NAME \/ str_truthy object_id = true ->
      all by_ value object_id execution_context_id =
      _get_find_element_command (for_all_elements Scripts) _ensure_relative_xpath
        by_ value object_id execution_context_id)
  /\ (str_truthy object_id = false ->
      one NAME value object_id execution_context_id =
      _get_find_element_by_xpath_command Scripts _ensure_relative_xpath
        ("//*[@name=" ++ String "034" (escape_quotes value ++ String "034" "]"))
        object_id execution_context_id
      /\ all NAME value object_id execution_context_id =
         evaluate (str_replace "{selector}" (escape_quotes value)
                               (Scripts.QUERY_SELECTOR_ALL Scripts))
                  execution_context_id).
Proof.
  unfold _get_find_element_command, _get_find_elements_command,
    _get_find_element_by_xpath_command, _get_find_elements_by_xpath_command.
  repeat match goal with |- _ /\ _ => split end.
  - intros Ho. rewrite Ho. destruct by_; simpl; eauto.
  - intros Ho. rewrite Ho. destruct by_; simpl; eauto.
  - intros [Hn | Ho].
    + destruct by_; try congruence; destruct (str_truthy object_id); reflexivity.
    + rewrite Ho. destruct by_; reflexivity.
  - intros Ho. rewrite Ho. simpl. auto.
Qed.
End CommandFacts.

(* ================================================================= *)
(** * The properties on the concrete events *)

Module Checks.
Import AsciiRuntime Examples.

(** A loadingFinished for an id that was never seen changes nothing. *)
Lemma unknown_loading_finished_dropped :
  completes (LoadingFinished (loading_finished "unknown-req")) = Some "unknown-req"
  /\ dict_get "unknown-req" (HarRecorder._pending one_pending) = None
  /\ step (LoadingFinished (loading_finished "unknown-req")) one_pending =
     Returned one_pending.
Proof.
  split; [reflexivity|]. split; [reflexivity|].
  apply (unknown_request_id_is_dropped
           (LoadingFinished (loading_finished "unknown-req")) (request_id := "unknown-req"));
    reflexivity.
Defined.

(** The entry of a finished request: 1 + 4 + 45 + 1 + 49 + 1000
    milliseconds, the 35 of ssl not counted. *)
Lemma time_of_finished_entry :
  exists e : HarEntry.t Z,
    _build_entry "" finished_pending = Ok e
    /\ HarTimings.ssl (HarEntry.timings e) = 35
    /\ HarEntry.time e = 1100.
Proof.
  eexists. split; [vm_compute; reflexivity|]. split; [reflexivity|].
  etransitivity.
  - apply (proj2 (entry_time_excludes_ssl (num := Z)) "" finished_pending).
    vm_compute; reflexivity.
  - reflexivity.
Defined.

(** The body of a posted form: ten bytes for nine characters. *)
Lemma body_size_of_posted_form :
  exists e : HarEntry.t Z,
    _build_entry "" post_pending = Ok e
    /\ HarRequest.bodySize (HarEntry.request e) = 10
    /\ option_map HarPostData.mimeType (HarRequest.postData (HarEntry.request e)) =
       Some "application/x-www-form-urlencoded".
Proof.
  eexists. split; [vm_compute; reflexivity|].
  pose proof (proj2 (request_body_size_and_post_data (num := Z)) "" post_pending _ eq_refl)
    as Hc.
  split; [exact (proj1 Hc)|].
  exact (f_equal (option_map HarPostData.mimeType) (proj2 Hc)).
Defined.

(** With a timing, the phases that have no start and end are -1. *)
Lemma phases_of_timing_no_ssl :
  available (ResourceTiming.sslStart timing_no_ssl) (ResourceTiming.sslEnd timing_no_ssl)
    = false
  /\ HarTimings.ssl (_build_har_timings (Some timing_no_ssl) (Some 500)) = -1.
Proof.
  split; [reflexivity|].
  destruct (proj1 (proj2 (timings_when_unavailable (num := Z))) timing_no_ssl (Some 500))
    as (_ & _ & Hssl & _).
  apply Hssl. reflexivity.
Defined.

(** blocked is not -1 for a timing without dns and connect: it is the
    start of send. *)
Lemma blocked_without_dns_and_connect :
  available (ResourceTiming.dnsStart timing_no_ssl) (ResourceTiming.dnsEnd timing_no_ssl)
    = false
  /\ available (ResourceTiming.connectStart timing_no_ssl)
               (ResourceTiming.connectEnd timing_no_ssl) = false
  /\ available (ResourceTiming.sslStart timing_no_ssl)
               (ResourceTiming.sslEnd timing_no_ssl) = false
  /\ HarTimings.blocked (_build_har_timings (Some timing_no_ssl) (Some 500)) = 10
  /\ HarTimings.blocked (_build_har_timings (Some timing_no_ssl) (Some 500)) <> -1.
Proof. repeat split; try reflexivity. discriminate. Qed.






(** A command on an element found inside an out-of-process iframe goes
    through the browser connection with the session of the iframe. *)
Lemma oopif_commands_use_the_browser_session :
  FindElementsMixin.inherited_route (context (Some oopif_frame) false) =
    Some (BrowserConnection, Some "session-1")
  /\ FindElementsMixin._resolve_routing (context (Some oopif_frame) false) =
     (BrowserConnection, Some "session-1").
Proof.
  split; [reflexivity|].
  apply (proj1 (routing_resolution (context (Some oopif_frame) false) describe_node)).
  reflexivity.
Defined.

(** An element inside a same-origin iframe carries an IFrameContext, and
    its commands still go through the connection of the tab: the pair is
    not the one of the IFrameContext. *)
Lemma same_origin_frame_is_not_a_route :
  FindElementsMixin._iframe_context (context (Some same_origin_frame) false) =
    Some same_origin_frame
  /\ FindElementsMixin._resolve_routing (context (Some same_origin_frame) false) =
     (TabConnection, None)
  /\ Some (fst (FindElementsMixin._resolve_routing (context (Some same_origin_frame) false)))
     <> FindElementsMixin.session_handler same_origin_frame.
Proof. repeat split. discriminate. Qed.

(** A two-segment walk whose first segment finds a [div]: nothing is
    found, and with no timeout the answer is the empty list. *)
Lemma walk_through_a_div :
  let self := context None false in
  let hops := [(FindElementsMixin.CSS_SELECTOR, "#outer")] in
  let last := (FindElementsMixin.CSS_SELECTOR, "button") in
  FindElementsMixin.walk_iframes page_of_divs self hops = None
  /\ fst (FindElementsMixin._attempt_find_across_iframes page_of_divs self
            (hops ++ [last]) true) = FindElementsMixin.NoneFound Connection
  /\ FindElementsMixin._find_across_iframes self (hops ++ [last]) 0 true false 0
       [(page_of_divs, 0)] = Some (Ok (FindElementsMixin.Many [])).
Proof.
  intros self hops last.
  destruct (iframe_walk_all_or_nothing page_of_divs self hops last true)
    as (Hnone & _ & Hretry).
  split; [reflexivity|]. split; [apply Hnone; reflexivity|].
  destruct (Hretry Z Z_PyNumber 0 0 false [(page_of_divs, 0)]) as (Hr & Hnow & _).
  { constructor; [reflexivity | constructor]. }
  destruct (FindElementsMixin._find_across_iframes self (hops ++ [last]) 0 true false 0
              [(page_of_divs, 0)]) as [r|] eqn:E.
  - now rewrite (Hr r eq_refl).
  - exfalso. apply Hnow; [discriminate | reflexivity | reflexivity].
Defined.

(** The entries of [test_entries_sorted_by_started_date_time], appended in
    either order, are exported in the same order. *)
Lemma export_of_two_entries :
  let first := entry "2023-11-14T12:00:01+00:00" "https://example.com/first" in
  let second := entry "2023-11-14T12:00:02+00:00" "https://example.com/second" in
  Permutation [second; first] [first; second]
  /\ HarCapture.entries (with_entries [first; second]) =
     HarCapture.entries (with_entries [second; first])
  /\ HarCapture.entries (with_entries [second; first]) = [first; second].
Proof.
  intros first second. split; [apply perm_swap|]. split; [|reflexivity].
  destruct (export_sorted_by_started_date_time "" (fun _ => "")
              (with_entries [second; first])) as (_ & _ & _ & _ & _ & Hperm).
  apply (Hperm (with_entries [first; second])); [apply perm_swap|].
  intros a b [<-|[<-|[]]] [<-|[<-|[]]]; try reflexivity; discriminate.
Defined.

(** Two entries started at the same instant are exported in the order in
    which they were appended: the export is not the same for the two
    orders. *)
Lemma ties_keep_insertion_order :
  let a := entry "2023-11-14T12:00:01+00:00" "https://example.com/a" in
  let b := entry "2023-11-14T12:00:01+00:00" "https://example.com/b" in
  Permutation (HarRecorder._entries (with_entries [a; b]))
              (HarRecorder._entries (with_entries [b; a]))
  /\ HarCapture.entries (with_entries [a; b]) = [a; b]
  /\ HarCapture.entries (with_entries [b; a]) = [b; a]
  /\ HarCapture.entries (with_entries [a; b]) <> HarCapture.entries (with_entries [b; a]).
Proof.
  intros a b. split; [apply perm_swap|]. split; [reflexivity|]. split; [reflexivity|].
  vm_compute. discriminate.
Qed.

(** A recorder for documents records nothing of an image. *)
Lemma image_is_filtered_out :
  let inputs :=
    [RequestWillBeSent "" image_request;
     DataReceived (data_received "req-9" 2048);
     LoadingFinished (loading_finished "req-9"); TaskStart 0] in
  HarRecorder._pending (run inputs (__init__ (Some ["Document"]))) = []
  /\ HarRecorder._entries (run inputs (__init__ (Some ["Document"]))) = []
  /\ HarRecorder._body_tasks (run inputs (__init__ (Some ["Document"]))) = [].
Proof.
  intros inputs.
  apply (filtered_requests_leave_no_trace (num := Z) (types := ["Document"]) inputs).
  - discriminate.
  - intros now event [Hin|[Hin|[Hin|[Hin|[]]]]]; inversion Hin; subst.
    intros [Ht|[]]. discriminate.
Defined.


(** The two cookies of a request, read from its Cookie header. *)
Lemma cookies_of_a_failed_request :
  let s :=
    run [RequestWillBeSent "" request_with_cookies;
         LoadingFailed "" (loading_failed "req-3")] recorder in
  exists e : HarEntry.t Z,
    HarRecorder._entries s = [e]
    /\ HarRequest.cookies (HarEntry.request e) =
       [HarCookie.mk "sid" "abc" None None None None;
        HarCookie.mk "theme" "dark" None None None None]
    /\ HarCookie.name (HarCookie.mk "theme" "dark" None None None None) <> "".
Proof.
  intros s.
  assert (He : exists e : HarEntry.t Z,
             HarRecorder._entries s = [e]
             /\ HarRequest.cookies (HarEntry.request e) =
                [HarCookie.mk "sid" "abc" None None None None;
                 HarCookie.mk "theme" "dark" None None None None]).
  { eexists. split; vm_compute; reflexivity. }
  destruct He as (e & He & Hc). exists e. split; [exact He|]. split; [exact Hc|].
  assert (Hs : reachable s) by (apply run_reachable; constructor).
  assert (Hin : In e (HarRecorder._entries s)) by (rewrite He; now left).
  assert (Hinc : In (HarCookie.mk "theme" "dark" None None None None)
                    (HarRequest.cookies (HarEntry.request e)))
    by (rewrite Hc; right; now left).
  exact (proj1 (proj1 (@cookies_have_names Z _ _ s e
                         (HarCookie.mk "theme" "dark" None None None None) Hs Hin) Hinc)).
Defined.

(** A failed request with the malformed Set-Cookie line is lost. *)
Lemma malformed_failed_request_is_lost :
  let s :=
    run [RequestWillBeSent "" (request_will_be_sent "req-1" "https://example.com" None);
         ResponseReceivedExtraInfo (malformed_extra_info "req-1")] recorder in
  exists s',
    step (LoadingFailed "" (loading_failed "req-1")) s = Raised ValueError s'
    /\ dict_get "req-1" (HarRecorder._pending s') = None
    /\ HarRecorder._entries s' = [].
Proof.
  intros s.
  assert (Hm : existsb malformed_set_cookie
                 (set_cookie_lines (response_headers_of (pending_of "req-1" s))) = true)
    by (vm_compute; reflexivity).
  assert (Hp : dict_get "req-1" (HarRecorder._pending s) = Some (pending_of "req-1" s))
    by (vm_compute; reflexivity).
  destruct (proj1 (@malformed_set_cookie_loses_request Z _ _ s "req-1"
                     (pending_of "req-1" s) Hm)
              "" (loading_failed "req-1") eq_refl Hp) as (s' & Hstep & Hgone & _ & Hentries).
  exists s'. split; [exact Hstep|]. split; [exact Hgone|].
  rewrite Hentries. vm_compute; reflexivity.
Defined.


(** The entry of a recorded document. *)
Lemma shape_of_a_recorded_entry :
  exists e : HarEntry.t Z,
    HarRecorder._entries recorded = [e]
    /\ HarRequest.headersSize (HarEntry.request e) = -1
    /\ HarResponse.headersSize (HarEntry.response e) = -1
    /\ HarEntry.serverIPAddress e <> Some "".
Proof.
  assert (He : exists e : HarEntry.t Z, HarRecorder._entries recorded = [e])
    by (eexists; vm_compute; reflexivity).
  destruct He as (e & He). exists e. split; [exact He|].
  assert (Hs : reachable recorded) by (do 2 apply run_reachable; constructor).
  assert (Hin : In e (HarRecorder._entries recorded)) by (rewrite He; now left).
  destruct (@entry_sizes_and_content Z _ _ recorded e Hs Hin) as (H1 & H2 & _ & _ & _ & _ & _ & _ & H3 & _).
  auto.
Defined.


(** [HTTP/1.1] in any letter case. *)
Lemma version_of_http_1_1 :
  _normalize_http_version "HTTP/1.1" = _normalize_http_version "http/1.1"
  /\ _normalize_http_version "http/1.1" = "HTTP/1.1".
Proof.
  split; [|vm_compute; reflexivity].
  exact (proj1 (proj2 (@normalize_http_version_stable Z _ Ascii_PyCaseLaws "http/1.1"))).
Defined.

(** [stop] twice on a pending request: one entry. *)
Lemma stop_twice_on_one_pending :
  exists s',
    stop no_body still_clock still_clock one_pending = Returned s'
    /\ stop no_body still_clock still_clock s' = Returned s'
    /\ List.length (HarRecorder._entries s') = 1%nat.
Proof.
  assert (Hstop : exists s', stop no_body still_clock still_clock one_pending = Returned s'
                             /\ List.length (HarRecorder._entries s') = 1%nat).
  { eexists. split; vm_compute; reflexivity. }
  destruct Hstop as (s' & Hstop & Hlen). exists s'. split; [exact Hstop|].
  split; [|exact Hlen].
  assert (Hnd : NoDup (dict_keys (HarRecorder._pending one_pending)))
    by (apply reachable_keys_distinct, run_reachable; constructor).
  exact (proj2 (proj2 (proj2 (proj2
           (@stop_twice Z _ _ no_body no_body still_clock still_clock still_clock
              still_clock one_pending s' Hnd Hstop))))).
Defined.

(** The button appears in the second turn of the wait. *)
Lemma wait_until_the_button_appears :
  FindElementsMixin.find_or_wait_element (fun _ => []) (fun _ => [])
    (context None false) FindElementsMixin.ID "submit" 10 false true 0
    [(empty_browser, 1); (loaded_browser, 2)]
  = Some (Ok (FindElementsMixin.One button)).
Proof.
  refine (proj1 (@wait_for_one_selector Connection Z _ (fun _ => []) (fun _ => [])
                   (context None false) FindElementsMixin.ID "submit" 10 false true 0
                   [(empty_browser, 1)] [] loaded_browser 2
                   (FindElementsMixin.One button) _ _ _ _) _).
  - simpl. lia.
  - reflexivity.
  - intros turn [<-|[]]. eexists. repeat split; reflexivity.
  - reflexivity.
  - reflexivity.
Defined.


(** The button inside the iframe, found in the second turn. *)
Lemma button_inside_the_iframe :
  FindElementsMixin.find_or_wait_element (fun _ => []) two_segments
    (context None false) FindElementsMixin.CSS_SELECTOR "iframe button" 10 false true 0
    [(empty_browser, 1); (loaded_browser, 2)]
  = Some (Ok (FindElementsMixin.One button)).
Proof.
  refine (@selector_across_iframes_found Connection Z _ (fun _ => []) two_segments
            (context None false) FindElementsMixin.CSS_SELECTOR "iframe button" 10
            false true 0 [(FindElementsMixin.CSS_SELECTOR, "iframe")]
            (FindElementsMixin.CSS_SELECTOR, "button")
            [(empty_browser, 1)] [] loaded_browser 2 (context None true)
            _ _ _ _ _ _).
  - reflexivity.
  - discriminate.
  - right. reflexivity.
  - intros turn [<-|[]]. split; reflexivity.
  - reflexivity.
  - reflexivity.
Defined.

(** The timings of a recorded document. *)
Lemma timings_of_a_recorded_entry :
  exists e : HarEntry.t Z,
    HarRecorder._entries recorded = [e]
    /\ HarTimings.dns (HarEntry.timings e) = 4
    /\ (0 <=? HarEntry.time e) = true.
Proof.
  assert (He : exists e : HarEntry.t Z,
             HarRecorder._entries recorded = [e]
             /\ HarTimings.dns (HarEntry.timings e) = 4)
    by (eexists; split; vm_compute; reflexivity).
  destruct He as (e & He & Hdns). exists e. split; [exact He|]. split; [exact Hdns|].
  assert (Hs : reachable recorded) by (do 2 apply run_reachable; constructor).
  assert (Hin : In e (HarRecorder._entries recorded)) by (rewrite He; now left).
  exact (proj2 (proj2 (proj2 (proj2 (proj2 (proj2 (proj2
           (@timings_never_negative Z _ _ _ recorded e Hs Hin)))))))).
Defined.


(** The failure of one request leaves the pending entry of another. *)
Lemma other_request_is_untouched :
  let s' := state_of (step (LoadingFailed "" (loading_failed "req-0")) three_pending) in
  dict_get "req-2" (HarRecorder._pending s') =
  dict_get "req-2" (HarRecorder._pending three_pending)
  /\ dict_get "req-0" (HarRecorder._pending s') = None.
Proof.
  intros s'. split; [|vm_compute; reflexivity].
  refine (proj1 (@requests_do_not_interfere Z _ _
                   (LoadingFailed "" (loading_failed "req-0")) three_pending "req-2" _)).
  simpl. discriminate.
Defined.

End Checks.
